(** * A shallow embedding of [run.py], the chat-driven project hosting
      controller, and the properties of its specification.

    The controller is effectful Python: it mutates registries held by
    [ProjectManager] and [UserManager], talks to a messaging gateway,
    reads the clock, launches and stops child processes, and wraps most
    entry points in the retrying decorator [error_handler].  The
    embedding keeps that shape: every Python function is a computation
    in a state-and-exception monad [M] over a record [World]; everything
    the host decides (does a send raise, does a path exist, what does the
    clock say) is read from an oracle record [Env], so that each theorem
    holds for every behaviour of the host.

    Conventions.
    - Python [str] values are lists of code points ([list N]); [py]
      embeds a literal.
    - Python dictionaries that are iterated ([running_processes],
      [user_projects]) are insertion-ordered association lists.
    - A [datetime] is a number of microseconds; a [timedelta] is their
      difference, and [timedelta.days] is the floor of its quotient by
      one day.
    - Only exceptions deriving from [Exception] are modelled (the
      [except Exception] clauses of the source catch exactly those).
    - Paths follow the POSIX rules of [os.path]. *)

From Stdlib Require Import ZArith NArith String Ascii List Lia.
From stdpp Require Import base decidable option list gmap sets.

Open Scope Z_scope.

(** ** Python strings *)

Abbreviation str := (list N).

Definition py (s : string) : str :=
  map N_of_ascii (list_ascii_of_string s).

(** [str.isspace] for one code point (the Unicode characters that
    [str.split] and [str.strip] treat as white space). *)
Definition is_space (c : N) : bool :=
  ((9 <=? c) && (c <=? 13) || (28 <=? c) && (c <=? 32)
   || (c =? 133) || (c =? 160) || (c =? 5760)
   || (8192 <=? c) && (c <=? 8202)
   || (c =? 8232) || (c =? 8233) || (c =? 8239) || (c =? 8287)
   || (c =? 12288))%N.

Fixpoint lstrip (s : str) : str :=
  match s with
  | c :: s' => if is_space c then lstrip s' else s
  | [] => []
  end.

Definition strip (s : str) : str := rev (lstrip (rev (lstrip s))).

(** [str.split()] without arguments: the maximal runs of characters that
    are not white space.  [word] is the run being read, reversed. *)
Fixpoint split_from (word : str) (s : str) : list str :=
  match s with
  | [] => match word with [] => [] | _ => [rev word] end
  | c :: s' =>
      if is_space c
      then match word with
           | [] => split_from [] s'
           | _ => rev word :: split_from [] s'
           end
      else split_from (c :: word) s'
  end.

Definition split (s : str) : list str := split_from [] s.

Definition slash : N := 47%N.

(** [os.path.join a b] (posixpath): an absolute [b] replaces [a]. *)
Definition os_path_join (a b : str) : str :=
  match b with
  | c :: _ => if (c =? slash)%N then b
              else match rev a with
                   | [] => b
                   | l :: _ => if (l =? slash)%N then a ++ b
                               else a ++ slash :: b
                   end
  | [] => match rev a with
          | [] => b
          | l :: _ => if (l =? slash)%N then a ++ b else a ++ slash :: b
          end
  end.

(** [os.path.basename p]: what follows the last slash. *)
Fixpoint basename_from (last : str) (p : str) : str :=
  match p with
  | [] => last
  | c :: p' => if (c =? slash)%N then basename_from p' p'
               else basename_from last p'
  end.

Definition os_path_basename (p : str) : str := basename_from p p.

(** ** Insertion-ordered dictionaries *)

Section pydict.
Context {K V : Type} `{EqDecision K}.

(** [d.get(k)] *)
Fixpoint dict_get (k : K) (d : list (K * V)) : option V :=
  match d with
  | [] => None
  | (k', v) :: d' => if decide (k = k') then Some v else dict_get k d'
  end.

(** [k in d] *)
Definition dict_in (k : K) (d : list (K * V)) : bool :=
  match dict_get k d with Some _ => true | None => false end.

(** [d[k] = v]: an existing key keeps its position, a new one goes last. *)
Fixpoint dict_set (k : K) (v : V) (d : list (K * V)) : list (K * V) :=
  match d with
  | [] => [(k, v)]
  | (k', v') :: d' =>
      if decide (k = k') then (k, v) :: d' else (k', v') :: dict_set k v d'
  end.

(** [del d[k]] (the callers test [k in d] first) *)
Fixpoint dict_del (k : K) (d : list (K * V)) : list (K * V) :=
  match d with
  | [] => []
  | (k', v') :: d' =>
      if decide (k = k') then dict_del k d' else (k', v') :: dict_del k d'
  end.

Definition dict_keys (d : list (K * V)) : list K := map fst d.
End pydict.

(** ** Records of the data model *)

(** An entry of [running_processes] / [paused_processes]. *)
Module RunState.
Record t := {
  processes : list nat;
  chat_id : Z;
  start_time : Z;
  end_time : option Z;
  project_name : str;
  user_id : option Z;
  pinned : bool;
  main_files : list str;
  auto_restart : bool }.

Definition set_end_time (e : option Z) (r : t) : t :=
  {| processes := processes r; chat_id := chat_id r;
     start_time := start_time r; end_time := e;
     project_name := project_name r; user_id := user_id r;
     pinned := pinned r; main_files := main_files r;
     auto_restart := auto_restart r |}.
End RunState.

(** An entry of the lists in [user_projects]. *)
Module Project.
Record t := {
  project_dir : str;
  project_name : str;
  upload_time : Z;
  chat_id : Z;
  pinned : bool;
  main_files : list str;
  num_scripts : nat }.
End Project.

(** An entry of [waiting_for_main_file]; the keys that the handlers add
    later are optional. *)
Module Session.
Record t := {
  project_dir : str;
  project_name : str;
  chat_id : Z;
  scripts_to_run : option (list str);
  num_scripts : option Z;
  available_scripts : option (list str) }.

Definition set_scripts_to_run (l : list str) (s : t) : t :=
  {| project_dir := project_dir s; project_name := project_name s;
     chat_id := chat_id s; scripts_to_run := Some l;
     num_scripts := num_scripts s;
     available_scripts := available_scripts s |}.
End Session.

(** A text message as the handlers see it. *)
Record Message := {
  from_user : Z;
  chat : Z;
  text : str }.

(** The callback data of an inline button, decoded.  The source tells
    the actions apart by the prefix of [call.data] and takes the project
    directory as what follows it. *)
Inductive Callback :=
  | run_ (project_dir : str)
  | stop_ (project_dir : str)
  | pause_ (project_dir : str)
  | resume_ (project_dir : str)
  | restart_ (project_dir : str)
  | duration_set_ (days : Z) (project_dir : str)
  | delete_ (project_dir : str)
  | cancel_selection
  | unmatched.

Record Call := {
  data : Callback;
  message_chat : Z }.

(** ** What the controller says and logs *)

(** The texts of the messages, by their role (the literal wording and the
    emoji are not kept). *)
Inductive Text :=
  | NoMainFiles
  | MissingFiles (names : list str)
  | FileNotFound (file : str)
  | NoFilesExecuted
  | Started (name : str)
  | FailedToStart
  | Stopped (name : str)
  | FailedToStop
  | NoRunningProject
  | Restarted (name : str)
  | FailedToRestart (name : str)
  | DepsFailed
  | DepsTimedOut
  | DepsError
  | ExactlyTwoNames
  | ChooseDuration (project_dir : str) (names : list str)
  | Cancelled
  | FailedToDelete
  | Deleted (name : str)
  | Progress (what : string)
  | Outcome (what : string) (ok : bool) (name : str)
  | NoPausedProject
  | DurationSet (days : Z) (name : str)
  | DurationRemoved (name : str)
  | InactiveProject
  | CheckLogs
  | ErrorProcessing.

Inductive GatewayCall :=
  | send_message (chat : Z) (text : Text)
  | edit_message_text (chat : Z) (text : Text)
  | answer_callback_query (chat : Z) (text : Text)
  | delete_message (chat : Z).

Inductive Level := INFO | ERROR | CRITICAL.

(** Everything the controller does to the outside, in order. *)
Inductive Event :=
  | Logged (level : Level) (what : string)
  | Slept (seconds : Z)
  | Delivered (call : GatewayCall)
  | Refused (call : GatewayCall)
  | Spawned (pid : nat) (file : str)
  | Terminated (pid : nat)
  | Killed (pid : nat)
  | Reader (pid : nat) (chat : Z)
  | Pip (dir : str)
  | RmTree (dir : str).

Inductive exn :=
  | ApiError
  | OSError
  | TimeoutExpired
  | KeyError
  | ValueError
  | IndexError.

Inductive result (A : Type) :=
  | Ok (a : A)
  | Raise (e : exn).
Arguments Ok {A} a.
Arguments Raise {A} e.

Inductive PipOutcome :=
  | PipExit (returncode : Z)
  | PipTimeout
  | PipRaises.

Inductive FileState (A : Type) :=
  | Absent
  | Corrupt
  | Stored (content : A).
Arguments Absent {A}.
Arguments Corrupt {A}.
Arguments Stored {A} content.

(** ** The host *)

(** What the host answers.  [clock n] is the [n]-th reading of
    [datetime.now()]; [gateway_ok n c] tells whether the [n]-th call of
    the messaging gateway, [c], goes through or raises. *)
Record Env := {
  clock : nat -> Z;
  gateway_ok : nat -> GatewayCall -> bool;
  path_exists : str -> bool;
  path_isfile : str -> bool;
  abspath : str -> str;
  pip_install : str -> PipOutcome;
  popen_ok : str -> bool;
  exits_on_terminate : nat -> bool;
  rmtree_ok : str -> bool;
  write_ok : string -> bool }.

(** ** The state of the controller and of what it owns on the host *)

Record World := {
  running_processes : list (str * RunState.t);
  paused_processes : list (str * RunState.t);
  user_projects : list (Z * list Project.t);
  waiting_for_main_file : list (Z * Session.t);
  keep_running : bool;
  allowed_users : gset Z;
  allowed_users_file : FileState (list Z);
  user_projects_file : FileState (list (Z * list Project.t));
  next_pid : nat;
  alive : gset nat;
  gateway_calls : nat;
  clock_reads : nat;
  trace : list Event }.

Definition set_running (f : list (str * RunState.t) -> list (str * RunState.t))
    (w : World) : World :=
  {| running_processes := f (running_processes w);
     paused_processes := paused_processes w;
     user_projects := user_projects w;
     waiting_for_main_file := waiting_for_main_file w;
     keep_running := keep_running w;
     allowed_users := allowed_users w;
     allowed_users_file := allowed_users_file w;
     user_projects_file := user_projects_file w;
     next_pid := next_pid w; alive := alive w;
     gateway_calls := gateway_calls w; clock_reads := clock_reads w;
     trace := trace w |}.

Definition set_paused (f : list (str * RunState.t) -> list (str * RunState.t))
    (w : World) : World :=
  {| running_processes := running_processes w;
     paused_processes := f (paused_processes w);
     user_projects := user_projects w;
     waiting_for_main_file := waiting_for_main_file w;
     keep_running := keep_running w;
     allowed_users := allowed_users w;
     allowed_users_file := allowed_users_file w;
     user_projects_file := user_projects_file w;
     next_pid := next_pid w; alive := alive w;
     gateway_calls := gateway_calls w; clock_reads := clock_reads w;
     trace := trace w |}.

Definition set_user_projects
    (f : list (Z * list Project.t) -> list (Z * list Project.t))
    (w : World) : World :=
  {| running_processes := running_processes w;
     paused_processes := paused_processes w;
     user_projects := f (user_projects w);
     waiting_for_main_file := waiting_for_main_file w;
     keep_running := keep_running w;
     allowed_users := allowed_users w;
     allowed_users_file := allowed_users_file w;
     user_projects_file := user_projects_file w;
     next_pid := next_pid w; alive := alive w;
     gateway_calls := gateway_calls w; clock_reads := clock_reads w;
     trace := trace w |}.

Definition set_waiting
    (f : list (Z * Session.t) -> list (Z * Session.t)) (w : World) : World :=
  {| running_processes := running_processes w;
     paused_processes := paused_processes w;
     user_projects := user_projects w;
     waiting_for_main_file := f (waiting_for_main_file w);
     keep_running := keep_running w;
     allowed_users := allowed_users w;
     allowed_users_file := allowed_users_file w;
     user_projects_file := user_projects_file w;
     next_pid := next_pid w; alive := alive w;
     gateway_calls := gateway_calls w; clock_reads := clock_reads w;
     trace := trace w |}.

Definition set_keep_running (b : bool) (w : World) : World :=
  {| running_processes := running_processes w;
     paused_processes := paused_processes w;
     user_projects := user_projects w;
     waiting_for_main_file := waiting_for_main_file w;
     keep_running := b;
     allowed_users := allowed_users w;
     allowed_users_file := allowed_users_file w;
     user_projects_file := user_projects_file w;
     next_pid := next_pid w; alive := alive w;
     gateway_calls := gateway_calls w; clock_reads := clock_reads w;
     trace := trace w |}.

Definition set_allowed_users (f : gset Z -> gset Z) (w : World) : World :=
  {| running_processes := running_processes w;
     paused_processes := paused_processes w;
     user_projects := user_projects w;
     waiting_for_main_file := waiting_for_main_file w;
     keep_running := keep_running w;
     allowed_users := f (allowed_users w);
     allowed_users_file := allowed_users_file w;
     user_projects_file := user_projects_file w;
     next_pid := next_pid w; alive := alive w;
     gateway_calls := gateway_calls w; clock_reads := clock_reads w;
     trace := trace w |}.

Definition set_allowed_users_file (c : FileState (list Z)) (w : World)
    : World :=
  {| running_processes := running_processes w;
     paused_processes := paused_processes w;
     user_projects := user_projects w;
     waiting_for_main_file := waiting_for_main_file w;
     keep_running := keep_running w;
     allowed_users := allowed_users w;
     allowed_users_file := c;
     user_projects_file := user_projects_file w;
     next_pid := next_pid w; alive := alive w;
     gateway_calls := gateway_calls w; clock_reads := clock_reads w;
     trace := trace w |}.

Definition set_user_projects_file
    (c : FileState (list (Z * list Project.t))) (w : World) : World :=
  {| running_processes := running_processes w;
     paused_processes := paused_processes w;
     user_projects := user_projects w;
     waiting_for_main_file := waiting_for_main_file w;
     keep_running := keep_running w;
     allowed_users := allowed_users w;
     allowed_users_file := allowed_users_file w;
     user_projects_file := c;
     next_pid := next_pid w; alive := alive w;
     gateway_calls := gateway_calls w; clock_reads := clock_reads w;
     trace := trace w |}.

(** The host-side part (processes, counters, trace) is updated as one. *)
Definition set_host (pid : nat) (live : gset nat) (calls reads : nat)
    (tr : list Event) (w : World) : World :=
  {| running_processes := running_processes w;
     paused_processes := paused_processes w;
     user_projects := user_projects w;
     waiting_for_main_file := waiting_for_main_file w;
     keep_running := keep_running w;
     allowed_users := allowed_users w;
     allowed_users_file := allowed_users_file w;
     user_projects_file := user_projects_file w;
     next_pid := pid; alive := live;
     gateway_calls := calls; clock_reads := reads;
     trace := tr |}.

Definition emit (e : Event) (w : World) : World :=
  set_host (next_pid w) (alive w) (gateway_calls w) (clock_reads w)
    (trace w ++ [e]) w.

(** ** The monad of Python computations *)

Definition M (A : Type) : Type := World -> result A * World.

Definition ret {A} (a : A) : M A := fun w => (Ok a, w).

Definition bind {A B} (m : M A) (f : A -> M B) : M B :=
  fun w => match m w with
           | (Ok a, w') => f a w'
           | (Raise e, w') => (Raise e, w')
           end.

Definition raise {A} (e : exn) : M A := fun w => (Raise e, w).

(** [try: m  except Exception as e: h e] *)
Definition try_except {A} (m : M A) (h : exn -> M A) : M A :=
  fun w => match m w with
           | (Ok a, w') => (Ok a, w')
           | (Raise e, w') => h e w'
           end.

Definition gets {A} (f : World -> A) : M A := fun w => (Ok (f w), w).

Definition modify (f : World -> World) : M unit := fun w => (Ok tt, f w).

#[global] Instance M_ret : MRet M := @ret.
#[global] Instance M_bind : MBind M := fun A B f m => bind m f.

(** [for x in l: body x] *)
Fixpoint for_each {A} (l : list A) (body : A -> M unit) : M unit :=
  match l with
  | [] => ret tt
  | x :: l' => body x;; for_each l' body
  end.

(** ** Constants of the configuration *)

Definition ADMIN_IDS : list Z := [7761577562].
Definition REQUIREMENTS_FILE : str := py "requirements.txt".
Definition ALLOWED_USERS_FILE : string := "allowed_users.json".
Definition USER_PROJECTS_FILE : string := "user_projects.json".
Definition GLOBAL_RESTART_INTERVAL : Z := 3600.

(** One day, the unit of [timedelta(days=...)] and of [timedelta.days]. *)
Definition DAY : Z := 86400000000.

(** [(later - sooner).days] *)
Definition timedelta_days (later sooner : Z) : Z := Z.div (later - sooner) DAY.

(** The truth value of an optional integer ([None] and [0] are false). *)
Definition truthy (n : option Z) : bool :=
  match n with Some d => negb (d =? 0) | None => false end.

Definition is_nil {A} (l : list A) : bool :=
  match l with [] => true | _ => false end.

(** Dictionary access with a key that may be [None]: the dictionaries of
    the controller have integer keys only. *)
Definition opt_get {V} (k : option Z) (d : list (Z * V)) : option V :=
  match k with Some u => dict_get u d | None => None end.

Definition opt_in {V} (k : option Z) (d : list (Z * V)) : bool :=
  match opt_get k d with Some _ => true | None => false end.

(** [for project_info in projects: if project_info['project_dir'] ==
    project_dir: main_files = project_info['main_files']; break] *)
Fixpoint find_main_files (project_dir : str) (projects : list Project.t)
    : list str :=
  match projects with
  | [] => []
  | project_info :: rest =>
      if decide (Project.project_dir project_info = project_dir)
      then Project.main_files project_info
      else find_main_files project_dir rest
  end.

(** The two nested loops of [get_user_id_by_chat_id]. *)
Fixpoint find_user_id (chat_id : Z) (items : list (Z * list Project.t))
    : option Z :=
  match items with
  | [] => None
  | (user_id, projects) :: rest =>
      if existsb (fun project => Project.chat_id project =? chat_id) projects
      then Some user_id
      else find_user_id chat_id rest
  end.

Section Controller.
Variable env : Env.

(** *** Primitive effects *)

Definition logger (level : Level) (what : string) : M unit :=
  modify (emit (Logged level what)).

Definition time_sleep (seconds : Z) : M unit :=
  modify (emit (Slept seconds)).

Definition datetime_now : M Z :=
  fun w => (Ok (clock env (clock_reads w)),
            set_host (next_pid w) (alive w) (gateway_calls w)
              (S (clock_reads w)) (trace w) w).

(** A call of the messaging gateway ([bot.send_message] and the like):
    it goes through or raises. *)
Definition bot (call : GatewayCall) : M unit :=
  fun w =>
    let w' := set_host (next_pid w) (alive w) (S (gateway_calls w))
                (clock_reads w) (trace w) w in
    if gateway_ok env (gateway_calls w) call
    then (Ok tt, emit (Delivered call) w')
    else (Raise ApiError, emit (Refused call) w').

(** [subprocess.Popen(['python', file], ...)] *)
Definition Popen (file : str) : M nat :=
  fun w =>
    if popen_ok env file
    then (Ok (next_pid w),
          emit (Spawned (next_pid w) file)
            (set_host (S (next_pid w)) ({[next_pid w]} ∪ alive w)
               (gateway_calls w) (clock_reads w) (trace w) w))
    else (Raise OSError, w).

(** The process is gone, and known to be. *)
Definition reap (pid : nat) : M unit :=
  modify (fun w => set_host (next_pid w) (alive w ∖ {[pid]})
                     (gateway_calls w) (clock_reads w) (trace w) w).

(** [shutil.rmtree(dir)] *)
Definition rmtree (dir : str) : M unit :=
  if rmtree_ok env dir then modify (emit (RmTree dir)) else raise OSError.

(** *** The decorator [error_handler]

    [wrapper_from r func] is the [while retries < 3] loop of the
    wrapper entered with [retries = 2 - r]: after a failure [retries]
    becomes [3 - r], which is below 3 exactly when [r] is a
    successor. *)
Fixpoint wrapper_from {A} (r : nat) (func : M A) : M A :=
  try_except func
    (fun e =>
       logger ERROR "Error in func";;
       match r with
       | S r' =>
           logger INFO "Retrying in 5 seconds";;
           time_sleep 5;;
           wrapper_from r' func
       | O =>
           logger CRITICAL "Operation failed after 3 retries";;
           raise e
       end).

Definition error_handler {A} (func : M A) : M A := wrapper_from 2 func.

(** *** [UserManager] *)

Definition save_allowed_users : M unit :=
  try_except
    (allowed ← gets allowed_users;
     if write_ok env ALLOWED_USERS_FILE
     then modify (set_allowed_users_file (Stored (elements allowed)))
     else raise OSError)
    (fun e => logger ERROR "Error saving allowed users").

Definition load_allowed_users : M unit :=
  try_except
    (file ← gets allowed_users_file;
     match file with
     | Absent => ret tt
     | Corrupt => raise KeyError
     | Stored data =>
         modify (set_allowed_users (fun s => s ∪ list_to_set data))
     end)
    (fun e => logger ERROR "Error loading allowed users").

(** [UserManager.__init__] *)
Definition UserManager_init : M unit :=
  modify (set_allowed_users (fun _ => list_to_set ADMIN_IDS));;
  load_allowed_users.

Definition add_user (user_id : Z) : M unit :=
  modify (set_allowed_users (fun s => s ∪ {[user_id]}));;
  save_allowed_users.

Definition remove_user (user_id : Z) : M bool :=
  allowed ← gets allowed_users;
  if bool_decide (user_id ∈ allowed)
     && negb (bool_decide (user_id ∈ ADMIN_IDS))
  then
    modify (set_allowed_users (fun s => s ∖ {[user_id]}));;
    save_allowed_users;;
    ret true
  else ret false.

Definition is_allowed (user_id : Z) : M bool :=
  allowed ← gets allowed_users;
  ret (bool_decide (user_id ∈ allowed)).

(** *** [ProjectManager] *)

Definition save_user_projects : M unit :=
  try_except
    (projects ← gets user_projects;
     (if write_ok env USER_PROJECTS_FILE
      then modify (set_user_projects_file (Stored projects))
      else raise OSError);;
     logger INFO "Saved user projects successfully")
    (fun e => logger ERROR "Error saving user projects").

Definition get_user_id_by_chat_id (chat_id : Z) : M (option Z) :=
  projects ← gets user_projects;
  ret (find_user_id chat_id projects).

Definition install_requirements_body (project_dir : str) (chat_id : Z)
    : M bool :=
  let requirements_path := os_path_join project_dir REQUIREMENTS_FILE in
  if path_exists env requirements_path
  then
    try_except
      (logger INFO "Installing dependencies";;
       modify (emit (Pip project_dir));;
       match pip_install env project_dir with
       | PipTimeout => raise TimeoutExpired
       | PipRaises => raise OSError
       | PipExit returncode =>
           if negb (returncode =? 0)
           then
             bot (send_message chat_id DepsFailed);;
             logger ERROR "Failed to install dependencies";;
             ret false
           else
             logger INFO "Dependencies installed successfully";;
             ret true
       end)
      (fun e =>
         match e with
         | TimeoutExpired =>
             bot (send_message chat_id DepsTimedOut);;
             logger ERROR "Dependency installation timed out";;
             ret false
         | _ =>
             bot (send_message chat_id DepsError);;
             logger ERROR "Error installing dependencies";;
             ret false
         end)
  else ret true.

Definition install_requirements (project_dir : str) (chat_id : Z)
    : M bool :=
  error_handler (install_requirements_body project_dir chat_id).

(** The reader thread is started; what it does later runs beside the
    controller and is not part of this model. *)
Definition start_output_reader (process : nat) (chat_id : Z) : M unit :=
  error_handler (modify (emit (Reader process chat_id))).

(** The loop of [run_project] over [main_files]; [processes] is the
    list built so far. *)
Fixpoint launch (chat_id : Z) (main_files : list str)
    (processes : list nat) : M (list nat) :=
  match main_files with
  | [] => ret processes
  | main_file :: rest =>
      let abs_main_file := abspath env main_file in
      if negb (path_isfile env abs_main_file)
      then
        bot (send_message chat_id (FileNotFound abs_main_file));;
        logger ERROR "File not found";;
        launch chat_id rest processes
      else
        process ← Popen abs_main_file;
        launch chat_id rest (processes ++ [process])
  end.

(** The part of [run_project] that takes the main files from the
    pending onboarding session of [user_id] and records the project. *)
Definition adopt_session (project_dir : str) (chat_id : Z) (user_id : Z)
    (main_files : list str) : M (list str) :=
  waiting ← gets waiting_for_main_file;
  let main_files :=
    match dict_get user_id waiting with
    | Some session =>
        match Session.scripts_to_run session with
        | Some scripts => scripts
        | None => main_files
        end
    | None => main_files
    end in
  projects ← gets user_projects;
  (if negb (is_nil main_files) && negb (dict_in user_id projects)
   then modify (set_user_projects (dict_set user_id []))
   else ret tt);;
  projects ← gets user_projects;
  (if negb (is_nil main_files) && dict_in user_id projects
   then
     upload_time ← datetime_now;
     modify (set_user_projects (fun d =>
       dict_set user_id
         (default [] (dict_get user_id d) ++
          [ {| Project.project_dir := project_dir;
               Project.project_name := os_path_basename project_dir;
               Project.upload_time := upload_time;
               Project.chat_id := chat_id;
               Project.pinned := false;
               Project.main_files := main_files;
               Project.num_scripts := length main_files |} ]) d));;
     save_user_projects
   else ret tt);;
  ret main_files.

Definition run_project_body (project_dir : str) (chat_id : Z)
    (duration_days : option Z) (auto_restart : bool) : M bool :=
  user_id ← get_user_id_by_chat_id chat_id;
  projects ← gets user_projects;
  let main_files :=
    match opt_get user_id projects with
    | Some l => find_main_files project_dir l
    | None => []
    end in
  waiting ← gets waiting_for_main_file;
  main_files ←
    (match user_id with
     | Some u =>
         if is_nil main_files && dict_in u waiting
         then adopt_session project_dir chat_id u main_files
         else ret main_files
     | None => ret main_files
     end);
  if is_nil main_files
  then
    bot (send_message chat_id NoMainFiles);;
    logger ERROR "No main files found for project";;
    ret false
  else
    let missing_files :=
      List.filter (fun f => negb (path_exists env f)) main_files in
    if negb (is_nil missing_files)
    then
      bot (send_message chat_id (MissingFiles missing_files));;
      logger ERROR "Missing main files";;
      ret false
    else
      installed ← install_requirements project_dir chat_id;
      if negb installed then ret false
      else
        try_except
          (logger INFO "Running project";;
           processes ← launch chat_id main_files [];
           if is_nil processes
           then
             bot (send_message chat_id NoFilesExecuted);;
             ret false
           else
             end_time ←
               (match duration_days with
                | Some days =>
                    if truthy duration_days
                    then now ← datetime_now; ret (Some (now + days * DAY))
                    else ret None
                | None => ret None
                end);
             start_time ← datetime_now;
             modify (set_running (dict_set project_dir
               {| RunState.processes := processes;
                  RunState.chat_id := chat_id;
                  RunState.start_time := start_time;
                  RunState.end_time := end_time;
                  RunState.project_name := os_path_basename project_dir;
                  RunState.user_id := user_id;
                  RunState.pinned := false;
                  RunState.main_files := main_files;
                  RunState.auto_restart := auto_restart |}));;
             paused ← gets paused_processes;
             (if dict_in project_dir paused
              then modify (set_paused (dict_del project_dir))
              else ret tt);;
             for_each processes
               (fun process => start_output_reader process chat_id);;
             logger INFO "Project started successfully";;
             bot (send_message chat_id
                    (Started (os_path_basename project_dir)));;
             ret true)
          (fun e =>
             bot (send_message chat_id FailedToStart);;
             logger ERROR "Failed to start project";;
             ret false).

Definition run_project (project_dir : str) (chat_id : Z)
    (duration_days : option Z) (auto_restart : bool) : M bool :=
  error_handler (run_project_body project_dir chat_id duration_days
                   auto_restart).

(** One turn of the loop of [stop_project] over the processes:
    [terminate], a wait of at most 5 seconds, [kill] if that fails. *)
Definition stop_process (process : nat) : M unit :=
  try_except
    (modify (emit (Terminated process));;
     if exits_on_terminate env process then reap process
     else raise TimeoutExpired)
    (fun e =>
       logger ERROR "Error stopping process";;
       try_except
         (modify (emit (Killed process));; reap process)
         (fun _ => ret tt)).

Definition stop_project_body (project_dir : str) (chat_id : Z)
    (pause : bool) : M bool :=
  running ← gets running_processes;
  match dict_get project_dir running with
  | Some process_info =>
      try_except
        (logger INFO "Stopping project";;
         for_each (RunState.processes process_info) stop_process;;
         (if pause
          then modify (set_paused (dict_set project_dir process_info))
          else ret tt);;
         modify (set_running (dict_del project_dir));;
         (if negb pause
          then
            bot (send_message chat_id
                   (Stopped (os_path_basename project_dir)));;
            logger INFO "Project stopped"
          else ret tt);;
         ret true)
        (fun e =>
           bot (send_message chat_id FailedToStop);;
           logger ERROR "Failed to stop project";;
           ret false)
  | None =>
      bot (send_message chat_id NoRunningProject);;
      ret false
  end.

Definition stop_project (project_dir : str) (chat_id : Z) (pause : bool)
    : M bool :=
  error_handler (stop_project_body project_dir chat_id pause).

(** *** The periodic restart of all projects *)

(** The body of the [for] loop of [_global_restart_projects]. *)
Definition restart_entry (item : str * RunState.t) : M unit :=
  let project_dir := item.1 in
  let process_info := item.2 in
  let chat_id := RunState.chat_id process_info in
  let project_name := RunState.project_name process_info in
  let end_time := RunState.end_time process_info in
  let auto_restart := RunState.auto_restart process_info in
  if negb auto_restart then ret tt
  else
    try_except
      (stop_project project_dir chat_id false;;
       duration_days ←
         (match end_time with
          | Some e => now ← datetime_now; ret (Some (timedelta_days e now))
          | None => ret None
          end);
       run_project project_dir chat_id duration_days auto_restart;;
       logger INFO "Restarted project";;
       bot (send_message chat_id (Restarted project_name)))
      (fun e =>
         logger ERROR "Failed to restart project";;
         bot (send_message chat_id (FailedToRestart project_name))).

(** One turn of the [while self.keep_running] loop. *)
Definition global_restart_pass : M unit :=
  try_except
    (time_sleep GLOBAL_RESTART_INTERVAL;;
     running ← gets running_processes;
     if is_nil running then ret tt
     else
       logger INFO "Starting global project restart";;
       for_each running restart_entry;;
       logger INFO "Global project restart completed")
    (fun e =>
       logger ERROR "Error in global restart";;
       time_sleep 30).

(** [_global_restart_projects], for at most [turns] turns of its loop. *)
Fixpoint _global_restart_projects (turns : nat) : M unit :=
  match turns with
  | O => ret tt
  | S turns' =>
      keep ← gets keep_running;
      if (keep : bool)
      then global_restart_pass;; _global_restart_projects turns'
      else ret tt
  end.

(** *** The handler of the two script names *)

(** The loop of [handle_two_scripts_names] over the names. *)
Fixpoint check_scripts (project_dir : str) (script_names : list str)
    (missing_files main_files : list str) : list str * list str :=
  match script_names with
  | [] => (missing_files, main_files)
  | script_name :: rest =>
      let script_path := os_path_join project_dir script_name in
      if negb (path_exists env script_path)
      then check_scripts project_dir rest
             (missing_files ++ [script_name]) main_files
      else check_scripts project_dir rest
             missing_files (main_files ++ [script_path])
  end.

Definition handle_two_scripts_names_body (message : Message) : M unit :=
  if decide (text message = py "/cancel")
  then
    waiting ← gets waiting_for_main_file;
    match dict_get (from_user message) waiting with
    | None => raise KeyError
    | Some user_data =>
        modify (set_waiting (dict_del (from_user message)));;
        let project_dir := Session.project_dir user_data in
        try_except
          (rmtree project_dir;;
           bot (send_message (chat message) Cancelled);;
           logger INFO "Cancelled project upload")
          (fun e =>
             bot (send_message (chat message) FailedToDelete);;
             logger ERROR "Failed to delete project")
    end
  else
    waiting ← gets waiting_for_main_file;
    match dict_get (from_user message) waiting with
    | None => raise KeyError
    | Some user_data =>
        let project_dir := Session.project_dir user_data in
        let script_names := split (strip (text message)) in
        if negb (length script_names =? 2)%nat
        then bot (send_message (chat message) ExactlyTwoNames)
        else
          let checked := check_scripts project_dir script_names [] [] in
          let missing_files := checked.1 in
          let main_files := checked.2 in
          if negb (is_nil missing_files)
          then bot (send_message (chat message)
                      (MissingFiles missing_files))
          else
            waiting ← gets waiting_for_main_file;
            match dict_get (from_user message) waiting with
            | None => raise KeyError
            | Some session =>
                modify (set_waiting (dict_set (from_user message)
                          (Session.set_scripts_to_run main_files session)));;
                bot (send_message (chat message)
                       (ChooseDuration project_dir script_names))
            end
    end.

Definition handle_two_scripts_names (message : Message) : M unit :=
  error_handler (handle_two_scripts_names_body message).

(** The filter that routes a text message to
    [handle_two_scripts_names]. *)
Definition awaiting_two_scripts (user : Z) (w : World) : bool :=
  match dict_get user (waiting_for_main_file w) with
  | Some session =>
      match Session.num_scripts session with
      | Some n => n =? 2
      | None => false
      end
  | None => false
  end.

(** *** The handler of the buttons *)

Definition callback_action (call : Call) : M unit :=
  let chat_id := message_chat call in
  match data call with
  | run_ project_dir =>
      bot (edit_message_text chat_id (Progress "Starting project"));;
      success ← run_project project_dir chat_id None true;
      if negb success then bot (send_message chat_id CheckLogs)
      else ret tt
  | stop_ project_dir =>
      bot (edit_message_text chat_id (Progress "Stopping project"));;
      success ← stop_project project_dir chat_id false;
      if (success : bool)
      then
        bot (edit_message_text chat_id
               (Outcome "stopped" true (os_path_basename project_dir)));;
        logger INFO "Project stopped"
      else
        bot (edit_message_text chat_id
               (Outcome "stopped" false (os_path_basename project_dir)))
  | pause_ project_dir =>
      bot (edit_message_text chat_id (Progress "Pausing project"));;
      success ← stop_project project_dir chat_id true;
      if (success : bool)
      then
        bot (edit_message_text chat_id
               (Outcome "paused" true (os_path_basename project_dir)));;
        logger INFO "Project paused"
      else
        bot (edit_message_text chat_id
               (Outcome "paused" false (os_path_basename project_dir)))
  | resume_ project_dir =>
      bot (edit_message_text chat_id (Progress "Resuming project"));;
      paused ← gets paused_processes;
      match dict_get project_dir paused with
      | Some process_info =>
          duration_days ←
            (match RunState.end_time process_info with
             | Some e =>
                 now ← datetime_now; ret (Some (timedelta_days e now))
             | None => ret None
             end);
          success ← run_project project_dir
                      (RunState.chat_id process_info) duration_days true;
          if (success : bool)
          then
            bot (edit_message_text chat_id
                   (Outcome "resumed" true (os_path_basename project_dir)));;
            logger INFO "Project resumed"
          else
            bot (edit_message_text chat_id
                   (Outcome "resumed" false
                      (os_path_basename project_dir)))
      | None => bot (edit_message_text chat_id NoPausedProject)
      end
  | restart_ project_dir =>
      bot (edit_message_text chat_id (Progress "Restarting project"));;
      running ← gets running_processes;
      (if dict_in project_dir running
       then stop_project project_dir chat_id false;; ret tt
       else ret tt);;
      success ← run_project project_dir chat_id None true;
      if (success : bool)
      then
        bot (edit_message_text chat_id
               (Outcome "restarted" true (os_path_basename project_dir)));;
        logger INFO "Project restarted"
      else
        bot (edit_message_text chat_id
               (Outcome "restarted" false (os_path_basename project_dir)))
  | duration_set_ days project_dir =>
      running ← gets running_processes;
      match dict_get project_dir running with
      | Some process_info =>
          (if 0 <? days
           then
             now ← datetime_now;
             modify (set_running (dict_set project_dir
               (RunState.set_end_time (Some (now + days * DAY))
                  process_info)));;
             ret (DurationSet days (os_path_basename project_dir))
           else
             modify (set_running (dict_set project_dir
               (RunState.set_end_time None process_info)));;
             ret (DurationRemoved (os_path_basename project_dir)))
          ≫= (fun msg =>
                bot (edit_message_text chat_id msg);;
                logger INFO "Duration changed")
      | None => bot (edit_message_text chat_id InactiveProject)
      end
  | delete_ project_dir =>
      user_id ← get_user_id_by_chat_id chat_id;
      projects ← gets user_projects;
      (match user_id with
       | Some u =>
           if negb (u =? 0) && dict_in u projects
           then
             modify (set_user_projects (fun d =>
               dict_set u
                 (List.filter
                    (fun p => negb (bool_decide
                                      (Project.project_dir p = project_dir)))
                    (default [] (dict_get u d))) d));;
             save_user_projects
           else ret tt
       | None => ret tt
       end);;
      running ← gets running_processes;
      (if dict_in project_dir running
       then stop_project project_dir chat_id false;; ret tt
       else ret tt);;
      paused ← gets paused_processes;
      (if dict_in project_dir paused
       then modify (set_paused (dict_del project_dir))
       else ret tt);;
      try_except
        (rmtree project_dir;;
         bot (edit_message_text chat_id
                (Deleted (os_path_basename project_dir)));;
         logger INFO "Project deleted")
        (fun e =>
           bot (edit_message_text chat_id FailedToDelete);;
           logger ERROR "Failed to delete project")
  | cancel_selection => bot (delete_message chat_id)
  | unmatched => ret tt
  end.

Definition handle_callbacks_body (call : Call) : M unit :=
  try_except (callback_action call)
    (fun e =>
       logger ERROR "Error handling callback";;
       bot (answer_callback_query (message_chat call) ErrorProcessing)).

Definition handle_callbacks (call : Call) : M unit :=
  error_handler (handle_callbacks_body call).

(** *** The polling loop of [PythonHostingBot.run]

    [polling] stands for [bot.polling(none_stop=True, timeout=60)],
    which dispatches the handlers and raises what escapes them. *)
Definition run_turn (polling : M unit) : M unit :=
  try_except polling
    (fun e =>
       logger ERROR "Error running bot";;
       logger INFO "Retrying in 10 seconds";;
       time_sleep 10).

Fixpoint run_loop (polling : M unit) (turns : nat) : M unit :=
  match turns with
  | O => ret tt
  | S turns' => run_turn polling;; run_loop polling turns'
  end.

Definition run (polling : M unit) (turns : nat) : M unit :=
  error_handler (logger INFO "Starting bot";; run_loop polling turns).

End Controller.

(** * Properties *)

(** ** Weakest preconditions *)

(** [wp m Q w]: running [m] from [w] ends in a result and a world that
    satisfy [Q]. *)
Definition wp {A} (m : M A) (Q : result A -> World -> Prop) (w : World)
    : Prop :=
  Q (m w).1 (m w).2.

(** [m] never raises. *)
Definition returns {A} (m : M A) : Prop :=
  forall w, exists a, (m w).1 = Ok a.

(** What the wrapper of [error_handler] adds to the trace between a
    failed attempt and the next one. *)
Definition before_retry (w : World) : World :=
  emit (Slept 5)
    (emit (Logged INFO "Retrying in 5 seconds")
       (emit (Logged ERROR "Error in func") w)).

(** What it adds after the last failed attempt. *)
Definition given_up (w : World) : World :=
  emit (Logged CRITICAL "Operation failed after 3 retries")
    (emit (Logged ERROR "Error in func") w).

(** [m] takes every world to one related to it by [R]. *)
Definition keeps (R : World -> World -> Prop) {A} (m : M A) : Prop :=
  forall w, R w (m w).2.

(** [m] preserves the property [I] of the world. *)
Definition preserves (I : World -> Prop) {A} (m : M A) : Prop :=
  forall w, I w -> I (m w).2.

(** ** Frames *)

(** The registries and the onboarding sessions are the same, and the
    counters did not go back. *)
Definition mild (w w' : World) : Prop :=
  running_processes w' = running_processes w
  /\ paused_processes w' = paused_processes w
  /\ waiting_for_main_file w' = waiting_for_main_file w
  /\ (next_pid w <= next_pid w')%nat
  /\ (clock_reads w <= clock_reads w')%nat.

(** Moreover the stored projects are the same: only the host side
    moved. *)
Definition quiet (w w' : World) : Prop :=
  mild w w' /\ user_projects w' = user_projects w.

(** Like [quiet], and no process was started. *)
Definition still (w w' : World) : Prop :=
  quiet w w' /\ next_pid w' = next_pid w /\ clock_reads w' = clock_reads w
  /\ alive w' ⊆ alive w.

(** ** What starting and stopping a project do to the registries *)

(** [rs] is a record that [run_project], called with these arguments
    between the worlds [w] and [w'], built: its processes were launched
    in between, and its deadline is a reading of the clock taken in
    between plus the days asked for, or none when no day or zero days
    were asked for. *)
Definition launched_by (env : Env) (w w' : World) (duration_days : option Z)
    (auto_restart : bool) (chat_id : Z) (rs : RunState.t) : Prop :=
  RunState.auto_restart rs = auto_restart
  /\ RunState.chat_id rs = chat_id
  /\ RunState.processes rs <> []
  /\ Forall (fun p => (next_pid w <= p < next_pid w')%nat)
        (RunState.processes rs)
  /\ match duration_days with
     | Some days =>
         if days =? 0 then RunState.end_time rs = None
         else exists j, (clock_reads w <= j < clock_reads w')%nat
                        /\ RunState.end_time rs
                           = Some (clock env j + days * DAY)
     | None => RunState.end_time rs = None
     end.

(** The project was registered as running, with a record built on the
    way, and taken out of the paused ones. *)
Definition run_started (env : Env) (project_dir : str) (chat_id : Z)
    (duration_days : option Z) (auto_restart : bool) (w w' : World) : Prop :=
  (next_pid w <= next_pid w')%nat
  /\ (clock_reads w <= clock_reads w')%nat
  /\ waiting_for_main_file w' = waiting_for_main_file w
  /\ exists rs,
       running_processes w' = dict_set project_dir rs (running_processes w)
       /\ paused_processes w' = dict_del project_dir (paused_processes w)
       /\ launched_by env w w' duration_days auto_restart chat_id rs.

(** All that [run_project] can do to the registries. *)
Definition run_effect (env : Env) (project_dir : str) (chat_id : Z)
    (duration_days : option Z) (auto_restart : bool) (w w' : World) : Prop :=
  mild w w'
  \/ run_started env project_dir chat_id duration_days auto_restart w w'.

(** What an attempt of [run_project] that began in [w0] guarantees when
    it ends: [True] is returned only once the project is registered. *)
Definition run_post (env : Env) (project_dir : str) (chat_id : Z)
    (duration_days : option Z) (auto_restart : bool) (w0 : World)
    (res : result bool) (w' : World) : Prop :=
  run_effect env project_dir chat_id duration_days auto_restart w0 w'
  /\ (res = Ok true ->
      run_started env project_dir chat_id duration_days auto_restart w0 w').

(** All that [stop_project] does to the registries and the processes. *)
Definition stop_effect (project_dir : str) (pause : bool) (w w' : World)
    : Prop :=
  next_pid w' = next_pid w
  /\ clock_reads w' = clock_reads w
  /\ user_projects w' = user_projects w
  /\ waiting_for_main_file w' = waiting_for_main_file w
  /\ alive w' ⊆ alive w
  /\ running_processes w' = dict_del project_dir (running_processes w)
  /\ paused_processes w' =
       match dict_get project_dir (running_processes w) with
       | Some process_info =>
           if pause
           then dict_set project_dir process_info (paused_processes w)
           else paused_processes w
       | None => paused_processes w
       end
  /\ forall process_info,
       dict_get project_dir (running_processes w) = Some process_info ->
       forall p, In p (RunState.processes process_info) -> p ∉ alive w'.

(** No project is both running and paused. *)
Definition never_both (w : World) : Prop :=
  forall project_dir,
    dict_get project_dir (running_processes w) = None
    \/ dict_get project_dir (paused_processes w) = None.

(** ** Hosts on which a start goes through *)

(** The gateway accepts every call. *)
Definition gateway_up (env : Env) : Prop :=
  forall n call, gateway_ok env n call = true.


(** The deadline that the restart and the resume hand to [run_project]
    for a record, between the worlds [w] and [w']: the whole days from a
    reading of the clock taken in between to the stored deadline, or
    nothing when no deadline is stored. *)
Definition recomputed (env : Env) (w w' : World) (process_info : RunState.t)
    (duration_days : option Z) : Prop :=
  match RunState.end_time process_info with
  | Some e =>
      exists i, (clock_reads w <= i < clock_reads w')%nat
                /\ duration_days = Some (timedelta_days e (clock env i))
  | None => duration_days = None
  end.

(** The project was started again from the record [process_info]: with
    the chat of the record, the deadline recomputed from it, and the
    flag [auto_restart]. *)
Definition relaunched (env : Env) (project_dir : str)
    (process_info : RunState.t) (auto_restart : bool) (w w' : World) : Prop :=
  exists duration_days,
    recomputed env w w' process_info duration_days
    /\ run_started env project_dir (RunState.chat_id process_info)
         duration_days auto_restart w w'.

(** All that resuming a paused project can do to the registries. *)
Definition resume_effect (env : Env) (project_dir : str)
    (process_info : RunState.t) (w w' : World) : Prop :=
  mild w w' \/ relaunched env project_dir process_info true w w'.

(** The computation that the resume and the periodic restart share:
    the remaining days are recomputed, then the project is started. *)
Definition relaunch (env : Env) (project_dir : str)
    (process_info : RunState.t) (auto_restart : bool) : M bool :=
  duration_days ←
    (match RunState.end_time process_info with
     | Some e => now ← datetime_now env; ret (Some (timedelta_days e now))
     | None => ret None
     end);
  run_project env project_dir (RunState.chat_id process_info) duration_days
    auto_restart.

(** ** The periodic restart *)

(** All that the restart of one entry of the registry can do: the
    project is stopped, and then it is started again from the record of
    the entry, or, when the start fails or is not reached, nothing more
    happens to the registries. *)
Definition entry_effect (env : Env) (project_dir : str)
    (process_info : RunState.t) (w w' : World) : Prop :=
  exists w1,
    stop_effect project_dir false w w1
    /\ (mild w1 w'
        \/ relaunched env project_dir process_info
             (RunState.auto_restart process_info) w1 w').


(** What a turn of the periodic restart leaves of an entry that it
    restarts: the project is not running (its start failed), or it runs
    with a record that the turn built from the old one. *)
Definition restarted (env : Env) (project_dir : str)
    (process_info : RunState.t) (w w' : World) : Prop :=
  dict_get project_dir (running_processes w') = None
  \/ exists rs duration_days,
       dict_get project_dir (running_processes w') = Some rs
       /\ recomputed env w w' process_info duration_days
       /\ launched_by env w w' duration_days
            (RunState.auto_restart process_info)
            (RunState.chat_id process_info) rs.


(** ** Starting a project without main files *)

(** No main files resolve for the project and the chat: the user that
    the chat belongs to, if any, has no stored project with this
    directory, and no onboarding session with selected scripts. *)
Definition unresolved (project_dir : str) (chat_id : Z) (w : World) : Prop :=
  match find_user_id chat_id (user_projects w) with
  | None => True
  | Some u =>
      Forall (fun p => Project.project_dir p <> project_dir)
        (default [] (dict_get u (user_projects w)))
      /\ match dict_get u (waiting_for_main_file w) with
         | None => True
         | Some session =>
             Session.scripts_to_run session = None
             \/ Session.scripts_to_run session = Some []
         end
  end.

(** The report of [run_project] in that case. *)
Definition report_no_main_files (env : Env) (chat_id : Z) : M bool :=
  bot env (send_message chat_id NoMainFiles);;
  logger ERROR "No main files found for project";;
  ret false.

(** ** The operations of the controller *)

(** What can be asked of the controller: the two methods of the
    supervisor, a button, a text in the two-script state, and one turn
    of the periodic restart. *)
Inductive Operation :=
  | call_run_project (project_dir : str) (chat_id : Z)
      (duration_days : option Z) (auto_restart : bool)
  | call_stop_project (project_dir : str) (chat_id : Z) (pause : bool)
  | press (call : Call)
  | say (message : Message)
  | sweep.

Definition perform (env : Env) (op : Operation) : M unit :=
  match op with
  | call_run_project project_dir chat_id duration_days auto_restart =>
      run_project env project_dir chat_id duration_days auto_restart;; ret tt
  | call_stop_project project_dir chat_id pause =>
      stop_project env project_dir chat_id pause;; ret tt
  | press call => handle_callbacks env call
  | say message => handle_two_scripts_names env message
  | sweep => global_restart_pass env
  end.

(** The worlds that the controller can be in: [ProjectManager.__init__]
    leaves both registries empty, and each operation, on whatever host,
    runs to its end. *)
Inductive reachable : World -> Prop :=
  | reachable_init w :
      running_processes w = [] -> paused_processes w = [] -> reachable w
  | reachable_step env op w :
      reachable w -> reachable (perform env op w).2.

(** ** The user manager *)

(** The worlds that [UserManager.__init__] followed by calls of
    [add_user] and [remove_user] can produce, on any host. *)
Inductive users_reachable : World -> Prop :=
  | users_init w :
      users_reachable (UserManager_init w).2
  | users_add env user_id w :
      users_reachable w -> users_reachable (add_user env user_id w).2
  | users_remove env user_id w :
      users_reachable w -> users_reachable (remove_user env user_id w).2.

(** ** Concrete hosts and worlds *)

(** A host on which everything works; its clock starts at day 1000 and
    advances one second per reading. *)
Definition calm : Env := {|
  clock := fun n => 1000 * DAY + 1000000 * Z.of_nat n;
  gateway_ok := fun _ _ => true;
  path_exists := fun p => negb (bool_decide (p = py "projects/5/app/requirements.txt"));
  path_isfile := fun _ => true;
  abspath := fun p => py "/srv/" ++ p;
  pip_install := fun _ => PipExit 0;
  popen_ok := fun _ => true;
  exits_on_terminate := fun _ => true;
  rmtree_ok := fun _ => true;
  write_ok := fun _ => true |}.

(** The same host with the messaging gateway down. *)
Definition gateway_down : Env := {|
  clock := clock calm;
  gateway_ok := fun _ _ => false;
  path_exists := path_exists calm;
  path_isfile := path_isfile calm;
  abspath := abspath calm;
  pip_install := pip_install calm;
  popen_ok := popen_ok calm;
  exits_on_terminate := exits_on_terminate calm;
  rmtree_ok := rmtree_ok calm;
  write_ok := write_ok calm |}.

(** The same host when the user of chat 50 has blocked the bot: every
    call of the gateway for that chat raises. *)
Definition chat_50_blocked : Env := {|
  clock := clock calm;
  gateway_ok := fun _ call =>
    match call with
    | send_message c _ | edit_message_text c _ | answer_callback_query c _
    | delete_message c => negb (c =? 50)
    end;
  path_exists := path_exists calm;
  path_isfile := path_isfile calm;
  abspath := abspath calm;
  pip_install := pip_install calm;
  popen_ok := popen_ok calm;
  exits_on_terminate := exits_on_terminate calm;
  rmtree_ok := rmtree_ok calm;
  write_ok := write_ok calm |}.

(** The world right after the managers are constructed, with no file on
    disk. *)
Definition fresh_world : World := {|
  running_processes := [];
  paused_processes := [];
  user_projects := [];
  waiting_for_main_file := [];
  keep_running := true;
  allowed_users := list_to_set ADMIN_IDS;
  allowed_users_file := Absent;
  user_projects_file := Absent;
  next_pid := 0;
  alive := ∅;
  gateway_calls := 0;
  clock_reads := 0;
  trace := [] |}.

(** Two stored projects, of users 5 and 6, in chats 50 and 60. *)
Definition app_dir : str := py "projects/5/app".
Definition bot_dir : str := py "projects/6/bot".

Definition app_project : Project.t := {|
  Project.project_dir := app_dir;
  Project.project_name := py "app";
  Project.upload_time := 999 * DAY;
  Project.chat_id := 50;
  Project.pinned := false;
  Project.main_files := [py "projects/5/app/main.py"];
  Project.num_scripts := 1 |}.

Definition bot_project : Project.t := {|
  Project.project_dir := bot_dir;
  Project.project_name := py "bot";
  Project.upload_time := 999 * DAY;
  Project.chat_id := 60;
  Project.pinned := false;
  Project.main_files := [py "projects/6/bot/run.py"];
  Project.num_scripts := 1 |}.

(** The record of the first project, running as process 0, with a
    deadline half a day after day 1000. *)
Definition app_record : RunState.t := {|
  RunState.processes := [0%nat];
  RunState.chat_id := 50;
  RunState.start_time := 999 * DAY;
  RunState.end_time := Some (1000 * DAY + 43200000000);
  RunState.project_name := py "app";
  RunState.user_id := Some 5;
  RunState.pinned := false;
  RunState.main_files := [py "projects/5/app/main.py"];
  RunState.auto_restart := true |}.

(** The record of the second project, running as process 1, without a
    deadline. *)
Definition bot_record : RunState.t := {|
  RunState.processes := [1%nat];
  RunState.chat_id := 60;
  RunState.start_time := 999 * DAY;
  RunState.end_time := None;
  RunState.project_name := py "bot";
  RunState.user_id := Some 6;
  RunState.pinned := false;
  RunState.main_files := [py "projects/6/bot/run.py"];
  RunState.auto_restart := true |}.

(** Both projects stored, none running. *)
Definition stored_world : World :=
  set_user_projects (fun _ => [(5, [app_project]); (6, [bot_project])])
    fresh_world.

(** Both projects running. *)
Definition busy_world : World :=
  set_host 2 {[0%nat; 1%nat]} 0 0 []
    (set_running (fun _ => [(app_dir, app_record); (bot_dir, bot_record)])
       stored_world).

(** The world after a run and a pause of the first project. *)
Definition run_then_paused : World :=
  (perform calm (call_stop_project app_dir 50 true)
     (perform calm (call_run_project app_dir 50 None true)
        stored_world).2).2.

(** A notice that the gateway never takes. *)
Definition lost_notice : M unit :=
  bot gateway_down (send_message 50 NoMainFiles).

(** User 5 has uploaded a project and chosen to run two scripts. *)
Definition upload_session : Session.t := {|
  Session.project_dir := app_dir;
  Session.project_name := py "app";
  Session.chat_id := 50;
  Session.scripts_to_run := None;
  Session.num_scripts := Some 2;
  Session.available_scripts := Some [py "main.py"; py "util.py"] |}.

Definition upload_world : World :=
  set_waiting (fun _ => [(5, upload_session)]) fresh_world.






(** * The rest of the controller *)

(** A decimal numeral in ASCII digits, as the commands receive the
    identifiers of the users. *)
Fixpoint decimal_from (acc : Z) (s : str) : option Z :=
  match s with
  | [] => Some acc
  | c :: s' =>
      if ((48 <=? c) && (c <=? 57))%N
      then decimal_from (10 * acc + Z.of_N (c - 48)) s'
      else None
  end.

Definition decimal (s : str) : option Z :=
  match s with [] => None | _ => decimal_from 0 s end.


Definition underscore : N := 95%N.

(** [s.split(sep)] for a separator of one character: the pieces between
    its occurrences, the empty ones too; [word] is the piece being
    read, reversed. *)
Fixpoint split_at (sep : N) (word : str) (s : str) : list str :=
  match s with
  | [] => [rev word]
  | c :: s' =>
      if (c =? sep)%N then rev word :: split_at sep [] s'
      else split_at sep (c :: word) s'
  end.

Definition str_split (sep : N) (s : str) : list str := split_at sep [] s.

(** [sep.join(parts)] *)
Fixpoint str_join (sep : N) (parts : list str) : str :=
  match parts with
  | [] => []
  | [part] => part
  | part :: rest => part ++ sep :: str_join sep rest
  end.

(** [s.startswith(p)] *)
Fixpoint startswith (s p : str) : bool :=
  match p with
  | [] => true
  | c :: p' =>
      match s with
      | [] => false
      | d :: s' => (d =? c)%N && startswith s' p'
      end
  end.

(** The filter that routes a callback to [handle_initial_duration]. *)
Definition initial_duration_data (data : str) : bool :=
  startswith data (py "duration_")
  && negb (startswith data (py "duration_set_")).

(** The data of the buttons [1 Day], [3 Days], ... that the choice of
    the duration offers: [f'duration_{days}_{project_dir}']. *)
Definition duration_button_data (days project_dir : str) : str :=
  py "duration_" ++ days ++ underscore :: project_dir.

(** The data of the button [Set Duration] in the list of the projects:
    [f'duration_{project_dir}']. *)
Definition set_duration_button_data (project_dir : str) : str :=
  py "duration_" ++ project_dir.

Section Commands.
Variable env : Env.

(** Python's [int] on a [str]; [None] stands for [ValueError]. *)
Variable int : str -> option Z.

(** [UserManager.list_users] *)
Definition list_users : M (list Z) :=
  allowed ← gets allowed_users;
  ret (elements allowed).

(** [send_message_safe] *)
Definition send_message_safe (chat_id : Z) (text : Text) : M unit :=
  error_handler (bot env (send_message chat_id text)).


(** [ProjectManager.cleanup] *)
Definition cleanup : M unit :=
  modify (set_keep_running false);;
  running ← gets running_processes;
  for_each (dict_keys running)
    (fun project_dir =>
       running ← gets running_processes;
       match dict_get project_dir running with
       | Some process_info =>
           stop_project env project_dir (RunState.chat_id process_info)
             false;;
           ret tt
       | None => raise KeyError
       end);;
  logger INFO "Cleaned up all resources and stopped processes".

(** [handle_initial_duration], for a callback with the data [data]
    pressed by [user_id] in [chat_id].  The data is taken apart first:
    [int(parts[1])] raises on a piece that is no number, and
    [parts[1]] on data without separator.  Of the text of the last
    message, the line about the duration and the list of the scripts
    are not kept. *)
Definition handle_initial_duration_body (data : str) (chat_id user_id : Z)
    : M unit :=
  let parts := str_split underscore data in
  match parts with
  | _ :: days_text :: rest =>
      match int days_text with
      | None => raise ValueError
      | Some days =>
          let project_dir := str_join underscore rest in
          waiting ← gets waiting_for_main_file;
          match dict_get user_id waiting with
          | None =>
              bot env (answer_callback_query chat_id
                         (Progress "Session expired"))
          | Some user_data =>
              let main_files :=
                default [] (Session.scripts_to_run user_data) in
              if is_nil main_files
              then bot env (answer_callback_query chat_id
                              (Progress "No main script selected"))
              else
                install_success ←
                  install_requirements env project_dir chat_id;
                projects ← gets user_projects;
                (if negb (dict_in user_id projects)
                 then modify (set_user_projects (dict_set user_id []))
                 else ret tt);;
                upload_time ← datetime_now env;
                modify (set_user_projects (fun d =>
                  dict_set user_id
                    (default [] (dict_get user_id d) ++
                     [ {| Project.project_dir := project_dir;
                          Project.project_name :=
                            os_path_basename project_dir;
                          Project.upload_time := upload_time;
                          Project.chat_id := chat_id;
                          Project.pinned := false;
                          Project.main_files := main_files;
                          Project.num_scripts := length main_files |} ])
                    d));;
                save_user_projects env;;
                waiting ← gets waiting_for_main_file;
                (if dict_in user_id waiting
                 then modify (set_waiting (dict_del user_id))
                 else ret tt);;
                bot env (edit_message_text chat_id
                           (Outcome "ready to run" install_success
                              (os_path_basename project_dir)))
          end
      end
  | _ => raise IndexError
  end.

Definition handle_initial_duration (data : str) (chat_id user_id : Z)
    : M unit :=
  error_handler (handle_initial_duration_body data chat_id user_id).

(** [int(message.text.split()[1])]: [None] stands for the [IndexError]
    and the [ValueError] that the commands answer with their usage. *)
Definition command_argument (message : Message) : option Z :=
  match split (text message) with
  | _ :: argument :: _ => int argument
  | _ => None
  end.

(** [add_user_command]; [bot.reply_to] is a message to the chat. *)
Definition add_user_command_body (message : Message) : M unit :=
  if negb (bool_decide (from_user message ∈ ADMIN_IDS))
  then bot env (send_message (chat message) (Progress "Admins only"))
  else
    match command_argument message with
    | Some user_id =>
        try_except
          (add_user env user_id;;
           bot env (send_message (chat message) (Progress "Added user"));;
           logger INFO "Added new user")
          (fun e =>
             bot env (send_message (chat message) (Progress "Error")))
    | None =>
        bot env (send_message (chat message) (Progress "Usage: /adduser"))
    end.

Definition add_user_command (message : Message) : M unit :=
  error_handler (add_user_command_body message).

(** [remove_user_command] *)
Definition remove_user_command_body (message : Message) : M unit :=
  if negb (bool_decide (from_user message ∈ ADMIN_IDS))
  then bot env (send_message (chat message) (Progress "Admins only"))
  else
    match command_argument message with
    | Some user_id =>
        try_except
          (removed ← remove_user env user_id;
           if (removed : bool)
           then
             bot env (send_message (chat message)
                        (Progress "Removed user"));;
             logger INFO "Removed user"
           else
             bot env (send_message (chat message)
                        (Progress "Cannot remove primary admins")))
          (fun e =>
             bot env (send_message (chat message) (Progress "Error")))
    | None =>
        bot env (send_message (chat message)
                   (Progress "Usage: /removeuser"))
    end.

Definition remove_user_command (message : Message) : M unit :=
  error_handler (remove_user_command_body message).

End Commands.

(** * Properties of the rest *)

(** The set of the allowed users and its file are the same. *)
Definition same_users (w w' : World) : Prop :=
  allowed_users w' = allowed_users w
  /\ allowed_users_file w' = allowed_users_file w.

(** A command sent by the administrator, and one sent by user 7. *)
Definition admin_adds_7 : Message := {|
  from_user := 7761577562;
  chat := 10;
  text := py "/adduser 7" |}.

Definition admin_removes_7 : Message := {|
  from_user := 7761577562;
  chat := 10;
  text := py "/removeuser 7" |}.

Definition stranger_adds_8 : Message := {|
  from_user := 7;
  chat := 70;
  text := py "/adduser 8" |}.

(** The main files that [run_project] finds with the stored projects of
    the user of the chat. *)
Definition stored_main_files (project_dir : str) (chat_id : Z) (w : World)
    : list str :=
  match find_user_id chat_id (user_projects w) with
  | Some u =>
      match dict_get u (user_projects w) with
      | Some projects => find_main_files project_dir projects
      | None => []
      end
  | None => []
  end.

(** The report of [run_project] when main files are missing on disk. *)
Definition report_missing_files (env : Env) (chat_id : Z)
    (missing_files : list str) : M bool :=
  bot env (send_message chat_id (MissingFiles missing_files));;
  logger ERROR "Missing main files";;
  ret false.

(** A host on which the main file of the first project is gone. *)
Definition main_file_gone : Env := {|
  clock := clock calm;
  gateway_ok := gateway_ok calm;
  path_exists := fun p =>
    negb (bool_decide (p = py "projects/5/app/main.py"));
  path_isfile := path_isfile calm;
  abspath := abspath calm;
  pip_install := pip_install calm;
  popen_ok := popen_ok calm;
  exits_on_terminate := exits_on_terminate calm;
  rmtree_ok := rmtree_ok calm;
  write_ok := write_ok calm |}.

(** If the project runs, it runs with the record of a plain start: no
    deadline, and [auto_restart] set. *)
Definition plain_record (project_dir : str) (w : World) : Prop :=
  match dict_get project_dir (running_processes w) with
  | Some rs => RunState.end_time rs = None /\ RunState.auto_restart rs = true
  | None => True
  end.

(** The project is in neither registry. *)
Definition unregistered (project_dir : str) (w : World) : Prop :=
  dict_get project_dir (running_processes w) = None
  /\ dict_get project_dir (paused_processes w) = None.

(** None of the stored projects of the user is in the directory. *)
Definition forgotten (project_dir : str) (user_id : Z) (w : World) : Prop :=
  Forall (fun p => Project.project_dir p <> project_dir)
    (default [] (dict_get user_id (user_projects w))).

(** The flag that lets the thread of the periodic restart go on is
    the same. *)
Definition same_flag (w w' : World) : Prop :=
  keep_running w' = keep_running w.

(** The record that [handle_initial_duration] stores. *)
Definition onboarded (project_dir : str) (chat_id : Z) (upload_time : Z)
    (main_files : list str) : Project.t :=
  {| Project.project_dir := project_dir;
     Project.project_name := os_path_basename project_dir;
     Project.upload_time := upload_time;
     Project.chat_id := chat_id;
     Project.pinned := false;
     Project.main_files := main_files;
     Project.num_scripts := length main_files |}.

(** User 5 has chosen the script of the uploaded project. *)
Definition chosen_session : Session.t :=
  Session.set_scripts_to_run [py "projects/5/app/main.py"] upload_session.

Definition chosen_world : World :=
  set_waiting (fun _ => [(5, chosen_session)]) fresh_world.

(** The first project running with a deadline two days and a half after
    day 1000, and the second one as before. *)
Definition long_record : RunState.t :=
  RunState.set_end_time (Some (1002 * DAY + 43200000000)) app_record.

Definition long_world : World :=
  set_running (fun _ => [(app_dir, long_record); (bot_dir, bot_record)])
    busy_world.

(** User 5 gives up the upload. *)
Definition cancel_message : Message := {|
  from_user := 5;
  chat := 50;
  text := py "/cancel" |}.

(** The first project paused, the second one running. *)
Definition paused_after_pause : World :=
  set_paused (fun _ => [(app_dir, app_record)])
    (set_running (fun _ => [(bot_dir, bot_record)]) busy_world).

(** ** Dictionaries *)

Section pydict_facts.
Context {K V : Type} `{EqDecision K}.
Implicit Types (k : K) (v : V) (d : list (K * V)).

Lemma dict_get_set_eq k v d : dict_get k (dict_set k v d) = Some v.
Proof.
  induction d as [|[k' v'] d IH]; simpl.
  - by rewrite decide_True.
  - destruct (decide (k = k')) as [->|Hne]; simpl.
    + by rewrite decide_True.
    + by rewrite decide_False.
Qed.

Lemma dict_get_set_ne k k' v d :
  k' ≠ k -> dict_get k' (dict_set k v d) = dict_get k' d.
Proof.
  intros Hne. induction d as [|[k0 v0] d IH]; simpl.
  - by rewrite decide_False.
  - destruct (decide (k = k0)) as [->|Hk]; simpl.
    + by rewrite !decide_False.
    + destruct (decide (k' = k0)); [done | apply IH].
Qed.

Lemma dict_get_del_eq k d : dict_get k (dict_del k d) = None.
Proof.
  induction d as [|[k' v'] d IH]; simpl; [done|].
  destruct (decide (k = k')) as [->|Hne]; simpl; [done|].
  by rewrite decide_False.
Qed.

Lemma dict_get_del_ne k k' d :
  k' ≠ k -> dict_get k' (dict_del k d) = dict_get k' d.
Proof.
  intros Hne. induction d as [|[k0 v0] d IH]; simpl; [done|].
  destruct (decide (k = k0)) as [->|Hk]; simpl.
  - by rewrite decide_False.
  - destruct (decide (k' = k0)); [done | apply IH].
Qed.

Lemma dict_in_get k d : dict_in k d = true <-> is_Some (dict_get k d).
Proof.
  unfold dict_in. destruct (dict_get k d); split; intros Hx; try done.
Qed.

Lemma dict_in_false k d : dict_in k d = false <-> dict_get k d = None.
Proof. unfold dict_in. by destruct (dict_get k d). Qed.

Lemma dict_get_NoDup k v d :
  NoDup (dict_keys d) -> In (k, v) d -> dict_get k d = Some v.
Proof.
  induction d as [|[k' v'] d IH]; simpl; [done|].
  intros Hnd Hin. apply NoDup_cons in Hnd as [Hk' Hnd].
  destruct Hin as [[= -> ->]|Hin].
  - by rewrite decide_True.
  - destruct (decide (k = k')) as [->|Hne]; [|by apply IH].
    exfalso. apply Hk'. apply list_elem_of_In.
    change k' with (fst (k', v)). by apply in_map.
Qed.
End pydict_facts.

(** ** The monad *)

Section wp_rules.
Context {A B : Type}.

Lemma wp_ret (a : A) Q w : Q (Ok a) w -> wp (ret a) Q w.
Proof. done. Qed.

Lemma wp_modify f (Q : result unit -> World -> Prop) w :
  Q (Ok tt) (f w) -> wp (modify f) Q w.
Proof. done. Qed.

Lemma wp_bind (m : M A) (f : A -> M B) Q w :
  wp m (fun r w1 => match r with
                    | Ok a => wp (f a) Q w1
                    | Raise e => Q (Raise e) w1
                    end) w ->
  wp (m ≫= f) Q w.
Proof.
  unfold wp, mbind, M_bind, bind. by destruct (m w) as [[a|e] w1].
Qed.

Lemma wp_try (m : M A) h Q w :
  wp m (fun r w1 => match r with
                    | Ok a => Q (Ok a) w1
                    | Raise e => wp (h e) Q w1
                    end) w ->
  wp (try_except m h) Q w.
Proof. unfold wp, try_except. by destruct (m w) as [[a|e] w1]. Qed.

Lemma wp_mono (m : M A) (Q Q' : result A -> World -> Prop) w :
  wp m Q w -> (forall r w1, Q r w1 -> Q' r w1) -> wp m Q' w.
Proof. unfold wp. auto. Qed.

End wp_rules.

Lemma bind_run {A B} (m : M A) (f : A -> M B) w :
  (m ≫= f) w = match m w with
               | (Ok a, w1) => f a w1
               | (Raise e, w1) => (Raise e, w1)
               end.
Proof. done. Qed.

Lemma bind_ok {A B} (m : M A) (f : A -> M B) w a w1 :
  m w = (Ok a, w1) -> (m ≫= f) w = f a w1.
Proof. intros H. by rewrite bind_run, H. Qed.

Lemma bind_raise {A B} (m : M A) (f : A -> M B) w e w1 :
  m w = (Raise e, w1) -> (m ≫= f) w = (Raise e, w1).
Proof. intros H. by rewrite bind_run, H. Qed.

Lemma try_ok {A} (m : M A) h w a w1 :
  m w = (Ok a, w1) -> try_except m h w = (Ok a, w1).
Proof. intros H. unfold try_except. by rewrite H. Qed.

Lemma try_raise {A} (m : M A) h w e w1 :
  m w = (Raise e, w1) -> try_except m h w = h e w1.
Proof. intros H. unfold try_except. by rewrite H. Qed.

Section decorator.

(** *** The decorator *)

Lemma wrapper_from_ok {A} (func : M A) r w a w1 :
  func w = (Ok a, w1) -> wrapper_from r func w = (Ok a, w1).
Proof. intros H. destruct r; simpl; by rewrite (try_ok _ _ _ _ _ H). Qed.

Lemma wrapper_from_retry {A} (func : M A) r w e w1 :
  func w = (Raise e, w1) ->
  wrapper_from (S r) func w = wrapper_from r func (before_retry w1).
Proof. intros H. simpl. by rewrite (try_raise _ _ _ _ _ H). Qed.

Lemma wrapper_from_last {A} (func : M A) w e w1 :
  func w = (Raise e, w1) ->
  wrapper_from 0 func w = (Raise e, given_up w1).
Proof. intros H. simpl. by rewrite (try_raise _ _ _ _ _ H). Qed.

(** A property of the world that the attempts keep and the logging of
    the wrapper does not disturb holds when the wrapper is done, with
    the result of its last attempt. *)
Lemma wrapper_from_wp {A} (I : World -> Prop) (P : A -> World -> Prop)
    (E : exn -> World -> Prop) (func : M A) :
  (forall w ev, I w -> I (emit ev w)) ->
  (forall e w ev, E e w -> E e (emit ev w)) ->
  (forall w, I w ->
     wp func (fun res w' => I w' /\ match res with
                                    | Ok a => P a w'
                                    | Raise e => E e w'
                                    end) w) ->
  forall r w, I w ->
    wp (wrapper_from r func)
       (fun res w' => I w' /\ match res with
                              | Ok a => P a w'
                              | Raise e => E e w'
                              end) w.
Proof.
  intros HI HE Hf r. induction r as [|r IH]; intros w Hw.
  - specialize (Hf w Hw). unfold wp in *.
    destruct (func w) as [[a|e] w1] eqn:Hrun; simpl in Hf.
    + by rewrite (wrapper_from_ok _ _ _ _ _ Hrun).
    + rewrite (wrapper_from_last _ _ _ _ Hrun). simpl.
      destruct Hf as [H1 H2]. unfold given_up. split; auto.
  - specialize (Hf w Hw). unfold wp in *.
    destruct (func w) as [[a|e] w1] eqn:Hrun; simpl in Hf.
    + by rewrite (wrapper_from_ok _ _ _ _ _ Hrun).
    + rewrite (wrapper_from_retry _ _ _ _ _ Hrun).
      apply IH. unfold before_retry. destruct Hf as [H1 _]. auto.
Qed.

(** The same for a relation between the world at the start and the
    world at the end. *)
Lemma wrapper_from_rel {A} (R : World -> World -> Prop) (func : M A) :
  (forall w w1 w2, R w w1 -> R w1 w2 -> R w w2) ->
  (forall w w1 ev, R w w1 -> R w (emit ev w1)) ->
  (forall w, R w (func w).2) ->
  forall r w, R w (wrapper_from r func w).2.
Proof.
  intros Htr Hemit Hf r. induction r as [|r IH]; intros w.
  - specialize (Hf w). destruct (func w) as [[a|e] w1] eqn:Hrun.
    + by rewrite (wrapper_from_ok _ _ _ _ _ Hrun).
    + rewrite (wrapper_from_last _ _ _ _ Hrun). unfold given_up. simpl.
      auto.
  - specialize (Hf w). destruct (func w) as [[a|e] w1] eqn:Hrun.
    + by rewrite (wrapper_from_ok _ _ _ _ _ Hrun).
    + rewrite (wrapper_from_retry _ _ _ _ _ Hrun).
      eapply Htr; [|apply IH]. unfold before_retry. simpl in Hf. auto.
Qed.

Lemma wrapper_from_returns {A} (func : M A) r :
  returns func -> returns (wrapper_from r func).
Proof.
  intros Hf w. destruct (Hf w) as [a Ha].
  destruct (func w) as [res w1] eqn:Hrun. simpl in Ha. subst res.
  rewrite (wrapper_from_ok _ _ _ _ _ Hrun). by exists a.
Qed.

End decorator.

(** ** The user manager *)

Section users.
Variable env : Env.

Lemma save_allowed_users_run w :
  save_allowed_users env w =
    (Ok tt,
     if write_ok env ALLOWED_USERS_FILE
     then set_allowed_users_file (Stored (elements (allowed_users w))) w
     else emit (Logged ERROR "Error saving allowed users") w).
Proof.
  unfold save_allowed_users, try_except. rewrite bind_run. simpl.
  by destruct (write_ok env ALLOWED_USERS_FILE).
Qed.

Lemma save_allowed_users_allowed w :
  allowed_users (save_allowed_users env w).2 = allowed_users w.
Proof.
  rewrite save_allowed_users_run. simpl.
  by destruct (write_ok env ALLOWED_USERS_FILE).
Qed.

Lemma add_user_allowed user_id w :
  allowed_users (add_user env user_id w).2 = allowed_users w ∪ {[user_id]}.
Proof.
  unfold add_user. rewrite bind_run. simpl.
  by rewrite save_allowed_users_allowed.
Qed.

Lemma remove_user_admin user_id w :
  user_id ∈ ADMIN_IDS -> remove_user env user_id w = (Ok false, w).
Proof.
  intros Hadmin. unfold remove_user. rewrite bind_run. simpl.
  rewrite (bool_decide_eq_true_2 (user_id ∈ ADMIN_IDS)) by done.
  by rewrite andb_false_r.
Qed.

Lemma remove_user_absent user_id w :
  user_id ∉ allowed_users w -> remove_user env user_id w = (Ok false, w).
Proof.
  intros Hout. unfold remove_user. rewrite bind_run. simpl.
  by rewrite (bool_decide_eq_false_2 (user_id ∈ allowed_users w)).
Qed.

Lemma remove_user_present user_id w :
  user_id ∈ allowed_users w -> user_id ∉ ADMIN_IDS ->
  remove_user env user_id w =
    (Ok true,
     (save_allowed_users env
        (set_allowed_users (fun s => s ∖ {[user_id]}) w)).2).
Proof.
  intros Hin Hout. unfold remove_user. rewrite bind_run. simpl.
  rewrite (bool_decide_eq_true_2 (user_id ∈ allowed_users w)) by done.
  rewrite (bool_decide_eq_false_2 (user_id ∈ ADMIN_IDS)) by done.
  simpl. rewrite bind_run. simpl. rewrite bind_run, save_allowed_users_run. done.
Qed.

Lemma remove_user_allowed user_id w :
  allowed_users (remove_user env user_id w).2 =
    if bool_decide (user_id ∈ ADMIN_IDS) then allowed_users w
    else allowed_users w ∖ {[user_id]}.
Proof.
  case_bool_decide as Hadmin.
  - by rewrite remove_user_admin.
  - destruct (decide (user_id ∈ allowed_users w)) as [Hin|Hout].
    + rewrite remove_user_present by done. cbn [snd].
      by rewrite save_allowed_users_allowed.
    + rewrite remove_user_absent by done. simpl. set_solver.
Qed.
End users.

Lemma UserManager_init_allowed w :
  list_to_set ADMIN_IDS ⊆ allowed_users (UserManager_init w).2.
Proof.
  assert (allowed_users (UserManager_init w).2 =
          match allowed_users_file w with
          | Stored data => list_to_set ADMIN_IDS ∪ list_to_set data
          | _ => list_to_set ADMIN_IDS
          end) as ->.
  { unfold UserManager_init, load_allowed_users, try_except.
    rewrite !bind_run. cbn [modify gets fst snd].
    rewrite bind_run. cbn [gets allowed_users_file set_allowed_users].
    by destruct (allowed_users_file w). }
  destruct (allowed_users_file w); set_solver.
Qed.

Lemma admins_stay_allowed w :
  users_reachable w -> list_to_set ADMIN_IDS ⊆ allowed_users w.
Proof.
  induction 1 as [w|env user_id w Hw IH|env user_id w Hw IH].
  - apply UserManager_init_allowed.
  - rewrite add_user_allowed. set_solver.
  - rewrite remove_user_allowed. case_bool_decide as Hadmin; [done|].
    intros a Ha. apply elem_of_difference. split; [by apply IH|].
    intros ->%elem_of_singleton. apply Hadmin.
    by apply elem_of_list_to_set in Ha.
Qed.

(** C8. Whatever calls of [add_user] and [remove_user] came before,
    [remove_user] on an administrator returns [False] and changes
    nothing, and the administrator is allowed. *)
Theorem admin_is_never_removed env w admin :
  admin ∈ ADMIN_IDS -> users_reachable w ->
  remove_user env admin w = (Ok false, w)
  /\ admin ∈ allowed_users w
  /\ is_allowed admin w = (Ok true, w).
Proof.
  intros Hadmin Hreach.
  assert (admin ∈ allowed_users w) as Hin.
  { apply (admins_stay_allowed w Hreach). by apply elem_of_list_to_set. }
  split; [by apply remove_user_admin|]. split; [done|].
  unfold is_allowed. rewrite bind_run. simpl.
  by rewrite bool_decide_eq_true_2.
Qed.

Lemma admin_is_never_removed_witness :
  let w := (remove_user calm 7761577562
              (add_user calm 7761577562 (UserManager_init fresh_world).2).2).2
  in remove_user calm 7761577562 w = (Ok false, w)
     /\ 7761577562 ∈ allowed_users w
     /\ is_allowed 7761577562 w = (Ok true, w).
Proof.
  apply (admin_is_never_removed calm).
  - unfold ADMIN_IDS. apply list_elem_of_In. simpl. by left.
  - apply users_remove, users_add, users_init.
Defined.

(** C9, as the source has it.  For an identifier that is not an
    administrator, [remove_user] succeeds exactly when the identifier is
    in the set: it is then taken out and the set is written to the file
    (a failed write is logged and passed over).  When the identifier is
    not in the set the call returns [False] and changes nothing. *)
Theorem remove_user_of_a_member env w user_id :
  user_id ∉ ADMIN_IDS ->
  (user_id ∈ allowed_users w ->
   exists w',
     remove_user env user_id w = (Ok true, w')
     /\ allowed_users w' = allowed_users w ∖ {[user_id]}
     /\ (write_ok env ALLOWED_USERS_FILE = true ->
         allowed_users_file w' = Stored (elements (allowed_users w')))
     /\ (write_ok env ALLOWED_USERS_FILE = false ->
         allowed_users_file w' = allowed_users_file w
         /\ trace w' =
              trace w ++ [Logged ERROR "Error saving allowed users"]))
  /\ (user_id ∉ allowed_users w ->
      remove_user env user_id w = (Ok false, w)).
Proof.
  intros Hadmin. split.
  - intros Hin. eexists. split; [by apply remove_user_present|].
    rewrite save_allowed_users_run. simpl.
    destruct (write_ok env ALLOWED_USERS_FILE); simpl; repeat split; done.
  - apply remove_user_absent.
Qed.

Lemma remove_user_of_a_member_witness :
  (exists w',
     remove_user calm 7 (add_user calm 7 fresh_world).2 = (Ok true, w')
     /\ allowed_users w' = allowed_users (add_user calm 7 fresh_world).2 ∖ {[7]}
     /\ (write_ok calm ALLOWED_USERS_FILE = true ->
         allowed_users_file w' = Stored (elements (allowed_users w')))
     /\ (write_ok calm ALLOWED_USERS_FILE = false ->
         allowed_users_file w' = allowed_users_file (add_user calm 7 fresh_world).2
         /\ trace w' =
              trace (add_user calm 7 fresh_world).2
                ++ [Logged ERROR "Error saving allowed users"])).
Proof.
  apply (remove_user_of_a_member calm (add_user calm 7 fresh_world).2 7).
  - unfold ADMIN_IDS. intros H%list_elem_of_In. simpl in H.
    destruct H as [H|[]]. discriminate H.
  - vm_compute. reflexivity.
Defined.

(** C9 as stated fails: an identifier that is neither an administrator
    nor in the set is not removed, and the call reports failure. *)
Lemma remove_user_of_a_stranger :
  (7 ∉ ADMIN_IDS)
  /\ remove_user calm 7 fresh_world = (Ok false, fresh_world).
Proof.
  split.
  - unfold ADMIN_IDS. intros H%list_elem_of_In. simpl in H.
    destruct H as [H|[]]. discriminate H.
  - apply remove_user_absent. vm_compute. intros H. discriminate H.
Qed.

(** ** The decorator gives up after three attempts *)

Lemma run_turn_returns polling w :
  exists w', run_turn polling w = (Ok tt, w').
Proof.
  unfold run_turn, try_except. destruct (polling w) as [[[]|e] w1].
  - by eexists.
  - rewrite !bind_run. simpl. by eexists.
Qed.

Lemma run_loop_returns polling turns w :
  exists w', run_loop polling turns w = (Ok tt, w').
Proof.
  revert w. induction turns as [|turns IH]; intros w; simpl.
  - by eexists.
  - destruct (run_turn_returns polling w) as [w1 H1].
    rewrite (bind_ok _ _ _ _ _ H1). apply IH.
Qed.

(** C6. When the wrapped function raises at each of its attempts, the
    wrapper calls it three times, sleeps 5 seconds before the second and
    before the third call, logs the failure as critical and raises the
    last exception; the polling loop that receives it logs it, sleeps
    and goes on. *)
Theorem error_handler_gives_up {A} (func : M A) w e1 w1 e2 w2 e3 w3 :
  func w = (Raise e1, w1) ->
  func (before_retry w1) = (Raise e2, w2) ->
  func (before_retry w2) = (Raise e3, w3) ->
  error_handler func w = (Raise e3, given_up w3)
  /\ run_turn (error_handler func;; ret tt) w =
       (Ok tt,
        emit (Slept 10)
          (emit (Logged INFO "Retrying in 10 seconds")
             (emit (Logged ERROR "Error running bot") (given_up w3))))
  /\ forall polling turns w0,
       exists w', run_loop polling turns w0 = (Ok tt, w').
Proof.
  intros H1 H2 H3.
  assert (error_handler func w = (Raise e3, given_up w3)) as Hgive.
  { unfold error_handler.
    rewrite (wrapper_from_retry _ _ _ _ _ H1).
    rewrite (wrapper_from_retry _ _ _ _ _ H2).
    apply (wrapper_from_last _ _ _ _ H3). }
  split; [done|]. split.
  - unfold run_turn.
    rewrite (try_raise _ _ _ e3 (given_up w3)).
    + by rewrite !bind_run.
    + by rewrite (bind_raise _ _ _ _ _ Hgive).
  - apply run_loop_returns.
Qed.

(** ** Frames *)

Section frame_rules.
Variable R : World -> World -> Prop.
Hypothesis R_refl : forall w, R w w.
Hypothesis R_trans : forall w1 w2 w3, R w1 w2 -> R w2 w3 -> R w1 w3.
Context {A B : Type}.

Lemma keeps_ret (a : A) : keeps R (ret a).
Proof. intros w. apply R_refl. Qed.

Lemma keeps_raise e : keeps R (raise (A:=A) e).
Proof. intros w. apply R_refl. Qed.

Lemma keeps_gets (f : World -> A) : keeps R (gets f).
Proof. intros w. apply R_refl. Qed.

Lemma keeps_bind (m : M A) (f : A -> M B) :
  keeps R m -> (forall a, keeps R (f a)) -> keeps R (m ≫= f).
Proof.
  intros Hm Hf w. rewrite bind_run. specialize (Hm w).
  destruct (m w) as [[a|e] w1]; simpl in *; [|done].
  eapply R_trans; [exact Hm | apply Hf].
Qed.

Lemma keeps_try (m : M A) h :
  keeps R m -> (forall e, keeps R (h e)) -> keeps R (try_except m h).
Proof.
  intros Hm Hh w. unfold try_except. specialize (Hm w).
  destruct (m w) as [[a|e] w1]; simpl in *; [done|].
  eapply R_trans; [exact Hm | apply Hh].
Qed.

Lemma keeps_for_each (l : list A) (body : A -> M unit) :
  (forall x, keeps R (body x)) -> keeps R (for_each l body).
Proof.
  intros Hb. induction l as [|x l IH]; simpl.
  - intros w. apply R_refl.
  - intros w. rewrite bind_run. specialize (Hb x w).
    destruct (body x w) as [[[]|e] w1]; simpl in *; [|done].
    eapply R_trans; [exact Hb | apply IH].
Qed.

Lemma keeps_wrapper (func : M A) r :
  (forall w ev, R w (emit ev w)) ->
  keeps R func -> keeps R (wrapper_from r func).
Proof.
  intros Hemit Hf. unfold keeps.
  apply (wrapper_from_rel R func); [exact R_trans| |exact Hf].
  intros w w1 ev Hw. eapply R_trans; [exact Hw | apply Hemit].
Qed.
End frame_rules.

Lemma mild_refl w : mild w w.
Proof. unfold mild. repeat split; lia. Qed.

Lemma mild_trans w1 w2 w3 : mild w1 w2 -> mild w2 w3 -> mild w1 w3.
Proof.
  unfold mild. intros (?&?&?&?&?) (?&?&?&?&?).
  repeat split; try congruence; lia.
Qed.

Lemma quiet_refl w : quiet w w.
Proof. split; [apply mild_refl|done]. Qed.

Lemma quiet_trans w1 w2 w3 : quiet w1 w2 -> quiet w2 w3 -> quiet w1 w3.
Proof.
  intros [H1 ?] [H2 ?]. split; [by eapply mild_trans|congruence].
Qed.

Lemma quiet_mild w w' : quiet w w' -> mild w w'.
Proof. by intros [? _]. Qed.

Lemma still_refl w : still w w.
Proof. split; [apply quiet_refl|done]. Qed.

Lemma still_trans w1 w2 w3 : still w1 w2 -> still w2 w3 -> still w1 w3.
Proof.
  intros (Hq1&?&?&?) (Hq2&?&?&?). split; [by eapply quiet_trans|].
  repeat split; try congruence. set_solver.
Qed.

Lemma still_quiet w w' : still w w' -> quiet w w'.
Proof. by intros [? _]. Qed.

Lemma keeps_weaken (R R' : World -> World -> Prop) {A} (m : M A) :
  (forall w w', R w w' -> R' w w') -> keeps R m -> keeps R' m.
Proof. intros HR Hm w. apply HR, Hm. Qed.

Lemma still_emit w ev : still w (emit ev w).
Proof. unfold still, quiet, mild. simpl. repeat split; try lia; done. Qed.

Lemma keeps_logger level what : keeps still (logger level what).
Proof. intros w. apply still_emit. Qed.

Lemma keeps_sleep s : keeps still (time_sleep s).
Proof. intros w. apply still_emit. Qed.

Lemma keeps_reap pid : keeps still (reap pid).
Proof.
  intros w. unfold still, quiet, mild. simpl.
  repeat split; try lia; try done. set_solver.
Qed.

Section host.
Variable env : Env.

Lemma keeps_bot call : keeps still (bot env call).
Proof.
  intros w. unfold bot.
  destruct (gateway_ok env (gateway_calls w) call);
    unfold still, quiet, mild; simpl; repeat split; try lia; done.
Qed.

Lemma keeps_now : keeps quiet (datetime_now env).
Proof.
  intros w. unfold quiet, mild. simpl. repeat split; try lia; done.
Qed.

Lemma keeps_Popen file : keeps quiet (Popen env file).
Proof.
  intros w. unfold Popen. destruct (popen_ok env file).
  - unfold quiet, mild. simpl. repeat split; try lia; done.
  - apply quiet_refl.
Qed.

Lemma keeps_rmtree dir : keeps still (rmtree env dir).
Proof.
  intros w. unfold rmtree. destruct (rmtree_ok env dir).
  - apply still_emit.
  - apply still_refl.
Qed.

Lemma keeps_install_requirements project_dir chat_id :
  keeps still (install_requirements env project_dir chat_id).
Proof.
  unfold install_requirements, error_handler.
  apply keeps_wrapper; [apply still_trans|apply still_emit|].
  unfold install_requirements_body.
  destruct (path_exists env _); [|apply keeps_ret, still_refl].
  apply keeps_try; [apply still_trans| |intros e].
  - apply keeps_bind; [apply still_trans|apply keeps_logger|intros []].
    apply keeps_bind; [apply still_trans| |intros []].
    { intros w. apply still_emit. }
    destruct (pip_install env project_dir) as [code| |];
      try (apply keeps_raise, still_refl).
    destruct (negb (code =? 0)).
    + apply keeps_bind; [apply still_trans|apply keeps_bot|intros []].
      apply keeps_bind; [apply still_trans|apply keeps_logger|intros []].
      apply keeps_ret, still_refl.
    + apply keeps_bind; [apply still_trans|apply keeps_logger|intros []].
      apply keeps_ret, still_refl.
  - destruct e;
      (apply keeps_bind; [apply still_trans|apply keeps_bot|intros []];
       apply keeps_bind; [apply still_trans|apply keeps_logger|intros []];
       apply keeps_ret, still_refl).
Qed.

Lemma keeps_launch chat_id main_files processes :
  keeps quiet (launch env chat_id main_files processes).
Proof.
  revert processes.
  induction main_files as [|f rest IH]; intros processes; simpl.
  - apply keeps_ret, quiet_refl.
  - destruct (negb (path_isfile env (abspath env f))).
    + apply keeps_bind; [apply quiet_trans| |intros []].
      { eapply keeps_weaken; [apply still_quiet|apply keeps_bot]. }
      apply keeps_bind; [apply quiet_trans| |intros []].
      { eapply keeps_weaken; [apply still_quiet|apply keeps_logger]. }
      apply IH.
    + apply keeps_bind; [apply quiet_trans|apply keeps_Popen|intros p].
      apply IH.
Qed.
End host.

Lemma keeps_start_output_reader process chat_id :
  keeps still (start_output_reader process chat_id).
Proof.
  unfold start_output_reader, error_handler.
  apply keeps_wrapper; [apply still_trans|apply still_emit|].
  intros w. apply still_emit.
Qed.

Section more_dict.
Context {K V : Type} `{EqDecision K}.
Implicit Types (k : K) (v : V) (d : list (K * V)).

Lemma dict_set_set k v v' d : dict_set k v' (dict_set k v d) = dict_set k v' d.
Proof.
  induction d as [|[k0 v0] d IH]; simpl.
  - by rewrite decide_True.
  - destruct (decide (k = k0)) as [->|Hne]; simpl.
    + by rewrite decide_True.
    + rewrite decide_False by done. by rewrite IH.
Qed.

Lemma dict_del_absent k d : dict_get k d = None -> dict_del k d = d.
Proof.
  induction d as [|[k0 v0] d IH]; simpl; [done|].
  destruct (decide (k = k0)) as [->|Hne]; [done|].
  intros Hg. by rewrite IH.
Qed.

Lemma dict_del_del k d : dict_del k (dict_del k d) = dict_del k d.
Proof. apply dict_del_absent, dict_get_del_eq. Qed.
End more_dict.

Section wp_more.
Context {A B : Type}.

Lemma wp_bind_gets (f : World -> A) (k : A -> M B) Q w :
  wp (k (f w)) Q w -> wp (gets f ≫= k) Q w.
Proof. intros H. by apply wp_bind. Qed.

Lemma wp_bind_modify f (k : unit -> M B) Q w :
  wp (k tt) Q (f w) -> wp (modify f ≫= k) Q w.
Proof. intros H. by apply wp_bind. Qed.

Lemma wp_bind_keeps (R : World -> World -> Prop) (m : M A) (k : A -> M B)
    Q w :
  keeps R m ->
  (forall a w1, R w w1 -> wp (k a) Q w1) ->
  (forall e w1, R w w1 -> Q (Raise e) w1) ->
  wp (m ≫= k) Q w.
Proof.
  intros Hm Hok Hraise. apply wp_bind. unfold wp. specialize (Hm w).
  destruct (m w) as [[a|e] w1]; simpl in *.
  - by apply Hok.
  - by apply Hraise.
Qed.

Lemma wp_keeps (R : World -> World -> Prop) (m : M A) Q w :
  keeps R m -> (forall res w1, R w w1 -> Q res w1) -> wp m Q w.
Proof. intros Hm HQ. apply HQ, Hm. Qed.
End wp_more.

Lemma keeps_get_user_id chat_id : keeps still (get_user_id_by_chat_id chat_id).
Proof. intros w. apply still_refl. Qed.

Lemma still_mild w w' : still w w' -> mild w w'.
Proof. intros H. by apply quiet_mild, still_quiet. Qed.

Section starting.
Variable env : Env.

Lemma keeps_save_user_projects : keeps still (save_user_projects env).
Proof.
  unfold save_user_projects.
  apply keeps_try; [apply still_trans| |intros e; apply keeps_logger].
  apply keeps_bind; [apply still_trans|apply keeps_gets, still_refl|].
  intros projects.
  apply keeps_bind; [apply still_trans| |intros []; apply keeps_logger].
  destruct (write_ok env USER_PROJECTS_FILE).
  - intros w. unfold still, quiet, mild. simpl. repeat split; try lia; done.
  - apply keeps_raise, still_refl.
Qed.

Lemma keeps_adopt_session project_dir chat_id user_id main_files :
  keeps mild (adopt_session env project_dir chat_id user_id main_files).
Proof.
  unfold adopt_session.
  apply keeps_bind; [apply mild_trans|apply keeps_gets, mild_refl|].
  intros waiting.
  apply keeps_bind; [apply mild_trans|apply keeps_gets, mild_refl|].
  intros projects.
  apply keeps_bind; [apply mild_trans| |intros []].
  { destruct (_ && _).
    - intros w. unfold mild. simpl. repeat split; try lia; done.
    - apply keeps_ret, mild_refl. }
  apply keeps_bind; [apply mild_trans|apply keeps_gets, mild_refl|].
  intros projects'.
  apply keeps_bind; [apply mild_trans| |intros []].
  { destruct (_ && _).
    - apply keeps_bind; [apply mild_trans| |intros now].
      { eapply keeps_weaken; [apply quiet_mild|apply keeps_now]. }
      apply keeps_bind; [apply mild_trans| |intros []].
      { intros w. unfold mild. simpl. repeat split; try lia; done. }
      eapply keeps_weaken; [apply still_mild|apply keeps_save_user_projects].
    - apply keeps_ret, mild_refl. }
  apply keeps_ret, mild_refl.
Qed.

Lemma Popen_run file w :
  Popen env file w =
    if popen_ok env file
    then (Ok (next_pid w),
          emit (Spawned (next_pid w) file)
            (set_host (S (next_pid w)) ({[next_pid w]} ∪ alive w)
               (gateway_calls w) (clock_reads w) (trace w) w))
    else (Raise OSError, w).
Proof. done. Qed.

(** The processes that [launch] returns beyond those it was given were
    all started by it. *)
Lemma launch_fresh chat_id main_files processes w ps :
  (launch env chat_id main_files processes w).1 = Ok ps ->
  exists new,
    ps = processes ++ new
    /\ Forall (fun p => (next_pid w <= p
                        < next_pid (launch env chat_id main_files
                                      processes w).2)%nat) new.
Proof.
  revert processes w.
  induction main_files as [|f rest IH]; intros processes w; simpl.
  - intros [= <-]. exists []. by rewrite app_nil_r.
  - destruct (negb (path_isfile env (abspath env f))).
    + rewrite bind_run.
      pose proof (keeps_bot env (send_message chat_id
                    (FileNotFound (abspath env f))) w) as Hb.
      destruct (bot env _ w) as [[[]|e] w1]; simpl in *; [|done].
      rewrite bind_run. simpl.
      intros Hl. destruct (IH _ _ Hl) as (new & -> & Hnew).
      exists new. split; [done|].
      destruct Hb as (_ & Hpid & _). simpl in Hpid.
      eapply Forall_impl; [exact Hnew|]. simpl. intros p. lia.
    + rewrite bind_run, Popen_run.
      destruct (popen_ok env (abspath env f)); simpl; [|done].
      intros Hl. destruct (IH _ _ Hl) as (new & -> & Hnew).
      exists (next_pid w :: new). split; [by rewrite <-app_assoc|].
      constructor.
      * pose proof (keeps_launch env chat_id rest
                      (processes ++ [next_pid w])
                      (emit (Spawned (next_pid w) (abspath env f))
                         (set_host (S (next_pid w))
                            ({[next_pid w]} ∪ alive w) (gateway_calls w)
                            (clock_reads w) (trace w) w))) as Hq.
        destruct Hq as ((_&_&_&Hp&_)&_). simpl in Hp. lia.
      * eapply Forall_impl; [exact Hnew|]. simpl. intros p. lia.
Qed.
End starting.

Section run_effects.
Variable env : Env.
Variables (project_dir : str) (chat_id : Z) (duration_days : option Z)
          (auto_restart : bool).

Local Abbreviation started := (run_started env project_dir chat_id
                             duration_days auto_restart).
Local Abbreviation effect := (run_effect env project_dir chat_id
                            duration_days auto_restart).

Lemma launched_by_widen w0 w1 w2 w3 rs :
  launched_by env w1 w2 duration_days auto_restart chat_id rs ->
  (next_pid w0 <= next_pid w1)%nat -> (clock_reads w0 <= clock_reads w1)%nat ->
  (next_pid w2 <= next_pid w3)%nat -> (clock_reads w2 <= clock_reads w3)%nat ->
  launched_by env w0 w3 duration_days auto_restart chat_id rs.
Proof.
  intros (Har & Hc & Hne & Hps & Hend) H1 H2 H3 H4.
  repeat split; try done.
  - eapply Forall_impl; [exact Hps|]. simpl. intros p. lia.
  - destruct duration_days as [days|]; [|done].
    destruct (days =? 0); [done|].
    destruct Hend as (j & Hj & He). exists j. split; [lia|done].
Qed.

Lemma started_mild w1 w2 w3 : started w1 w2 -> mild w2 w3 -> started w1 w3.
Proof.
  intros (Hp & Hr & Hw & rs & Hrun & Hpau & Hl) (Hr' & Hp' & Hw' & ? & ?).
  split; [lia|]. split; [lia|]. split; [congruence|].
  exists rs. split; [congruence|]. split; [congruence|].
  eapply launched_by_widen; [exact Hl|lia..].
Qed.

Lemma mild_started w1 w2 w3 : mild w1 w2 -> started w2 w3 -> started w1 w3.
Proof.
  intros (Hr' & Hp' & Hw' & ? & ?) (Hp & Hr & Hw & rs & Hrun & Hpau & Hl).
  split; [lia|]. split; [lia|]. split; [congruence|].
  exists rs. split; [congruence|]. split; [congruence|].
  eapply launched_by_widen; [exact Hl|lia..].
Qed.

Lemma started_started w1 w2 w3 :
  started w1 w2 -> started w2 w3 -> started w1 w3.
Proof.
  intros (Hp & Hr & Hw & rs & Hrun & Hpau & Hl)
         (Hp' & Hr' & Hw' & rs' & Hrun' & Hpau' & Hl').
  split; [lia|]. split; [lia|]. split; [congruence|].
  exists rs'. split; [|split].
  - by rewrite Hrun', Hrun, dict_set_set.
  - by rewrite Hpau', Hpau, dict_del_del.
  - eapply launched_by_widen; [exact Hl'|lia..].
Qed.

Lemma effect_refl w : effect w w.
Proof. left. apply mild_refl. Qed.

Lemma effect_trans w1 w2 w3 : effect w1 w2 -> effect w2 w3 -> effect w1 w3.
Proof.
  intros [H1|H1] [H2|H2].
  - left. by eapply mild_trans.
  - right. by eapply mild_started.
  - right. by eapply started_mild.
  - right. by eapply started_started.
Qed.

Lemma effect_mild w1 w2 w3 : effect w1 w2 -> mild w2 w3 -> effect w1 w3.
Proof. intros H1 H2. eapply effect_trans; [exact H1|by left]. Qed.

Lemma started_lookup w w' :
  started w w' ->
  exists rs,
    dict_get project_dir (running_processes w') = Some rs
    /\ dict_get project_dir (paused_processes w') = None
    /\ launched_by env w w' duration_days auto_restart chat_id rs.
Proof.
  intros (_ & _ & _ & rs & Hrun & Hpau & Hl). exists rs.
  rewrite Hrun, Hpau, dict_get_set_eq, dict_get_del_eq. done.
Qed.

Local Abbreviation post := (run_post env project_dir chat_id
                          duration_days auto_restart).

Lemma post_failed w0 w1 res : effect w0 w1 -> res <> Ok true -> post w0 res w1.
Proof. intros H1 H2. by split. Qed.

Lemma notify_and_fail w0 w1 call level what :
  effect w0 w1 ->
  wp (bot env call;; logger level what;; ret false) (post w0) w1.
Proof.
  intros Heff.
  apply (wp_bind_keeps still); [apply keeps_bot| |].
  - intros [] w2 H2.
    apply (wp_bind_keeps still); [apply keeps_logger| |].
    + intros [] w3 H3. apply wp_ret. apply post_failed; [|done].
      eapply effect_mild; [|apply still_mild, H3].
      eapply effect_mild; [exact Heff|apply still_mild, H2].
    + intros e w3 H3. apply post_failed; [|done].
      eapply effect_mild; [|apply still_mild, H3].
      eapply effect_mild; [exact Heff|apply still_mild, H2].
  - intros e w2 H2. apply post_failed; [|done].
    eapply effect_mild; [exact Heff|apply still_mild, H2].
Qed.

Lemma wp_launch main_files processes Q w :
  (forall new w1,
     quiet w w1 ->
     Forall (fun p => (next_pid w <= p < next_pid w1)%nat) new ->
     Q (Ok (processes ++ new)) w1) ->
  (forall e w1, quiet w w1 -> Q (Raise e) w1) ->
  wp (launch env chat_id main_files processes) Q w.
Proof.
  intros Hok Hraise. unfold wp.
  pose proof (keeps_launch env chat_id main_files processes w) as Hq.
  pose proof (launch_fresh env chat_id main_files processes w) as Hf.
  destruct (launch env chat_id main_files processes w) as [[ps|e] w1];
    simpl in *.
  - destruct (Hf ps eq_refl) as (new & -> & Hnew). by apply Hok.
  - by apply Hraise.
Qed.

Lemma wp_bind_now {B} (k : Z -> M B) Q w :
  wp (k (clock env (clock_reads w))) Q
     (set_host (next_pid w) (alive w) (gateway_calls w)
        (S (clock_reads w)) (trace w) w) ->
  wp (datetime_now env ≫= k) Q w.
Proof. intros H. by apply wp_bind. Qed.

(** The end of a successful attempt, from the registration on. *)
Lemma register_and_report w0 w5 (rs : RunState.t) processes Q :
  launched_by env w0 w5 duration_days auto_restart chat_id rs ->
  mild w0 w5 ->
  (forall res w', post w0 res w' -> Q res w') ->
  (forall e w', effect w0 w' -> Q (Raise e) w') ->
  wp (modify (set_running (dict_set project_dir rs));;
      paused ← gets paused_processes;
      (if dict_in project_dir paused
       then modify (set_paused (dict_del project_dir))
       else ret tt);;
      for_each processes
        (fun process => start_output_reader process chat_id);;
      logger INFO "Project started successfully";;
      bot env (send_message chat_id
                 (Started (os_path_basename project_dir)));;
      ret true) Q w5.
Proof.
  intros Hl Hm HQ HE.
  apply wp_bind_modify. apply wp_bind_gets.
  set (w6 := set_running (dict_set project_dir rs) w5).
  set (w7 := if dict_in project_dir (paused_processes w6)
             then set_paused (dict_del project_dir) w6 else w6).
  assert (started w0 w7) as Hst.
  { destruct Hm as (Hr & Hp & Hw & Hpid & Hreads).
    assert (paused_processes w7 = dict_del project_dir (paused_processes w0)
            /\ running_processes w7
               = dict_set project_dir rs (running_processes w0)
            /\ waiting_for_main_file w7 = waiting_for_main_file w0
            /\ next_pid w7 = next_pid w5
            /\ clock_reads w7 = clock_reads w5) as (E1 & E2 & E3 & E4 & E5).
    { subst w7. destruct (dict_in project_dir (paused_processes w6)) eqn:Hin;
        subst w6; simpl in *.
      - rewrite Hp, Hr, Hw. done.
      - rewrite Hr, Hw. apply dict_in_false in Hin.
        rewrite Hp in Hin |- *. by rewrite (dict_del_absent _ _ Hin). }
    split; [lia|]. split; [lia|]. split; [done|].
    exists rs. split; [done|]. split; [done|].
    eapply launched_by_widen; [exact Hl|lia..]. }
  apply wp_bind.
  assert (wp (if dict_in project_dir (paused_processes w6)
              then modify (set_paused (dict_del project_dir))
              else ret tt)
            (fun r w1 => r = Ok tt /\ w1 = w7) w6) as Hstep.
  { subst w7. by destruct (dict_in project_dir (paused_processes w6)). }
  eapply wp_mono; [exact Hstep|]. intros r w1 [-> ->]. clear Hstep.
  apply (wp_bind_keeps still).
  { apply keeps_for_each; [apply still_refl|apply still_trans|].
    intros p. apply keeps_start_output_reader. }
  2:{ intros e w8 H8. apply HE. right.
      eapply started_mild; [exact Hst|by apply still_mild]. }
  intros [] w8 H8%still_mild.
  apply (wp_bind_keeps still); [apply keeps_logger| |].
  2:{ intros e w9 H9. apply HE. right.
      eapply started_mild; [|apply still_mild, H9].
      eapply started_mild; [exact Hst|done]. }
  intros [] w9 H9%still_mild.
  apply (wp_bind_keeps still); [apply keeps_bot| |].
  2:{ intros e w10 H10. apply HE. right.
      eapply started_mild; [|apply still_mild, H10].
      eapply started_mild; [|exact H9].
      eapply started_mild; [exact Hst|done]. }
  intros [] w10 H10%still_mild. apply wp_ret.
  assert (started w0 w10) as Hst'.
  { eapply started_mild; [|exact H10].
    eapply started_mild; [|exact H9].
    eapply started_mild; [exact Hst|done]. }
  apply HQ. split; [by right|done].
Qed.

Lemma run_project_body_post w :
  wp (run_project_body env project_dir chat_id duration_days auto_restart)
     (post w) w.
Proof.
  unfold run_project_body.
  apply (wp_bind_keeps still); [apply keeps_get_user_id| |].
  2:{ intros e w1 H1. apply post_failed; [left; by apply still_mild|done]. }
  intros user_id w1 H1%still_mild.
  apply wp_bind_gets. apply wp_bind_gets.
  apply (wp_bind_keeps mild).
  { destruct user_id as [u|]; [|apply keeps_ret, mild_refl].
    destruct (_ && _); [apply keeps_adopt_session|apply keeps_ret, mild_refl]. }
  2:{ intros e w2 H2. apply post_failed; [left; by eapply mild_trans|done]. }
  intros main_files w2 H2. pose proof (mild_trans _ _ _ H1 H2) as H02.
  clear H1 H2 w1.
  destruct (is_nil main_files).
  { apply notify_and_fail. by left. }
  destruct (negb (is_nil _)).
  { apply notify_and_fail. by left. }
  apply (wp_bind_keeps still); [apply keeps_install_requirements| |].
  2:{ intros e w3 H3. apply post_failed; [left|done].
      eapply mild_trans; [exact H02|by apply still_mild]. }
  intros installed w3 H3%still_mild.
  pose proof (mild_trans _ _ _ H02 H3) as H03. clear H02 H3 w2.
  destruct (negb installed).
  { apply wp_ret. apply post_failed; [by left|done]. }
  apply wp_try.
  apply (wp_bind_keeps still); [apply keeps_logger| |].
  2:{ intros e w4 H4. apply notify_and_fail. left.
      eapply mild_trans; [exact H03|by apply still_mild]. }
  intros [] w4 H4%still_mild.
  pose proof (mild_trans _ _ _ H03 H4) as H04. clear H03 H4 w3.
  apply wp_bind. apply wp_launch.
  2:{ intros e w5 H5. apply notify_and_fail. left.
      eapply mild_trans; [exact H04|by apply quiet_mild]. }
  intros new w5 H5%quiet_mild Hnew. simpl app.
  pose proof (mild_trans _ _ _ H04 H5) as H05.
  destruct new as [|p0 new']; simpl is_nil; cbv iota.
  { apply (wp_bind_keeps still); [apply keeps_bot| |].
    - intros [] w6 H6. apply wp_ret. apply post_failed; [left|done].
      eapply mild_trans; [exact H05|by apply still_mild].
    - intros e w6 H6. apply notify_and_fail. left.
      eapply mild_trans; [exact H05|by apply still_mild]. }
  assert (Forall (fun p => (next_pid w <= p < next_pid w5)%nat)
            (p0 :: new')) as Hfresh.
  { destruct H04 as (_&_&_&Hp&_).
    eapply Forall_impl; [exact Hnew|]. simpl. intros p. lia. }
  assert (forall (e : option Z) (w6 : World),
            mild w5 w6 -> next_pid w6 = next_pid w5 ->
            match duration_days with
            | Some days =>
                if days =? 0 then e = None
                else exists j, (clock_reads w <= j < S (clock_reads w6))%nat
                               /\ e = Some (clock env j + days * DAY)
            | None => e = None
            end ->
            wp (start_time ← datetime_now env;
                modify (set_running (dict_set project_dir
                  {| RunState.processes := p0 :: new';
                     RunState.chat_id := chat_id;
                     RunState.start_time := start_time;
                     RunState.end_time := e;
                     RunState.project_name := os_path_basename project_dir;
                     RunState.user_id := user_id;
                     RunState.pinned := false;
                     RunState.main_files := main_files;
                     RunState.auto_restart := auto_restart |}));;
                paused ← gets paused_processes;
                (if dict_in project_dir paused
                 then modify (set_paused (dict_del project_dir))
                 else ret tt);;
                for_each (p0 :: new')
                  (fun process => start_output_reader process chat_id);;
                logger INFO "Project started successfully";;
                bot env (send_message chat_id
                           (Started (os_path_basename project_dir)));;
                ret true)
               (fun r w1 =>
                  match r with
                  | Ok a => post w (Ok a) w1
                  | Raise e =>
                      wp (bot env (send_message chat_id FailedToStart);;
                          logger ERROR "Failed to start project";;
                          ret false) (post w) w1
                  end) w6) as Hrest.
  { intros e w6 H6 Hpid He. apply wp_bind_now.
    pose proof (mild_trans _ _ _ H05 H6) as H06.
    apply register_and_report with (w0 := w).
    - split; [done|]. split; [done|]. split; [done|]. split.
      + simpl. rewrite Hpid. exact Hfresh.
      + simpl. destruct duration_days as [days|]; [|done].
        destruct (days =? 0); [done|]. exact He.
    - destruct H06 as (?&?&?&?&?). unfold mild. simpl.
      repeat split; try done; lia.
    - intros [a|e'] w' Hpost; [done|]. apply notify_and_fail, Hpost.
    - intros e' w' Heff. by apply notify_and_fail. }
  destruct duration_days as [days|] eqn:Hd.
  - unfold truthy. destruct (days =? 0) eqn:Hz; simpl negb; cbv iota.
    + apply wp_bind, wp_ret. apply Hrest; [apply mild_refl|done|].
      done.
    + apply wp_bind, wp_bind_now, wp_ret.
      apply Hrest; [|done|].
      * unfold mild. simpl. repeat split; try done; lia.
      * exists (clock_reads w5). simpl.
        destruct H05 as (_&_&_&_&?). split; [lia|done].
  - apply wp_bind, wp_ret. apply Hrest; [apply mild_refl|done|].
    done.
Qed.

(** [run_project] changes the registries in one way only. *)
Lemma run_project_post w :
  wp (run_project env project_dir chat_id duration_days auto_restart)
     (post w) w.
Proof.
  unfold run_project, error_handler.
  pose proof (wrapper_from_wp (effect w)
                (fun a w' => a = true -> started w w')
                (fun _ _ => True)
                (run_project_body env project_dir chat_id duration_days
                   auto_restart)) as Hw.
  eapply wp_mono.
  - apply Hw; [| |clear Hw|apply effect_refl].
    + intros w1 ev H1. eapply effect_mild; [exact H1|].
      apply still_mild, still_emit.
    + done.
    + intros w1 H1. eapply wp_mono; [apply run_project_body_post|].
      intros res w2 [Heff Hst]. split.
      * by eapply effect_trans.
      * destruct res as [a|e]; [|done]. intros ->.
        destruct H1 as [H1|H1].
        -- eapply mild_started; [exact H1|by apply Hst].
        -- eapply started_started; [exact H1|by apply Hst].
  - intros res w1 [Heff Hres]. split; [done|].
    intros ->. by apply Hres.
Qed.
End run_effects.

Section stopping.
Variable env : Env.

Lemma stop_process_run process w :
  exists w',
    stop_process env process w = (Ok tt, w')
    /\ still w w' /\ process ∉ alive w'.
Proof.
  unfold stop_process, try_except. rewrite bind_run. cbn [modify].
  destruct (exits_on_terminate env process).
  - eexists. split; [reflexivity|]. split.
    + unfold still, quiet, mild. simpl. repeat split; try lia; try done.
      set_solver.
    + simpl. set_solver.
  - cbn [raise]. rewrite bind_run. cbn [logger modify].
    rewrite bind_run. cbn [modify reap].
    eexists. split; [reflexivity|]. split.
    + unfold still, quiet, mild. simpl. repeat split; try lia; try done.
      set_solver.
    + simpl. set_solver.
Qed.

Lemma stop_all_run processes w :
  exists w',
    for_each processes (stop_process env) w = (Ok tt, w')
    /\ still w w' /\ forall p, In p processes -> p ∉ alive w'.
Proof.
  revert w. induction processes as [|p l IH]; intros w; simpl.
  - exists w. split; [done|]. split; [apply still_refl|]. by intros p [].
  - destruct (stop_process_run p w) as (w1 & Hrun & Hstill & Hdead).
    rewrite (bind_ok _ _ _ _ _ Hrun).
    destruct (IH w1) as (w2 & Hrun2 & Hstill2 & Hdead2).
    exists w2. split; [done|]. split; [by eapply still_trans|].
    intros q [<-|Hq]; [|by apply Hdead2].
    destruct Hstill2 as (_&_&_&Hsub). set_solver.
Qed.

Lemma still_stop_effect project_dir pause w w' :
  dict_get project_dir (running_processes w) = None ->
  still w w' -> stop_effect project_dir pause w w'.
Proof.
  intros Hnone (((Hr&Hp&Hw&_&_)&Hu)&Hpid&Hreads&Halive).
  unfold stop_effect. rewrite Hnone, (dict_del_absent _ _ Hnone).
  repeat split; try done.
Qed.

Lemma stop_effect_still project_dir pause w w1 w2 :
  stop_effect project_dir pause w w1 -> still w1 w2 ->
  stop_effect project_dir pause w w2.
Proof.
  intros (H1&H2&H3&H4&H5&H6&H7&H8) (((Hr&Hp&Hw&_&_)&Hu)&Hpid&Hreads&Halive).
  unfold stop_effect.
  split; [congruence|]. split; [congruence|]. split; [congruence|].
  split; [congruence|]. split; [set_solver|]. split; [congruence|].
  split; [congruence|].
  intros info Hinfo p Hp'. specialize (H8 info Hinfo p Hp'). set_solver.
Qed.

Lemma stop_effect_trans project_dir pause w w1 w2 :
  stop_effect project_dir pause w w1 -> stop_effect project_dir pause w1 w2 ->
  stop_effect project_dir pause w w2.
Proof.
  intros (H1&H2&H3&H4&H5&H6&H7&H8) (G1&G2&G3&G4&G5&G6&G7&G8).
  unfold stop_effect.
  split; [congruence|]. split; [congruence|]. split; [congruence|].
  split; [congruence|]. split; [set_solver|].
  split; [by rewrite G6, H6, dict_del_del|].
  split.
  - rewrite G7, H6, dict_get_del_eq. exact H7.
  - intros info Hinfo p Hp'. specialize (H8 info Hinfo p Hp'). set_solver.
Qed.

Lemma stop_project_body_effect project_dir chat_id pause w :
  stop_effect project_dir pause w
    (stop_project_body env project_dir chat_id pause w).2
  /\ (pause = true ->
      is_Some (dict_get project_dir (running_processes w)) ->
      (stop_project_body env project_dir chat_id pause w).1 = Ok true).
Proof.
  change (wp (stop_project_body env project_dir chat_id pause)
            (fun res w' =>
               stop_effect project_dir pause w w'
               /\ (pause = true ->
                   is_Some (dict_get project_dir (running_processes w)) ->
                   res = Ok true)) w).
  unfold stop_project_body. apply wp_bind_gets.
  destruct (dict_get project_dir (running_processes w))
    as [process_info|] eqn:Hget.
  2:{ apply (wp_keeps still).
      - apply keeps_bind; [apply still_trans|apply keeps_bot|intros []].
        apply keeps_ret, still_refl.
      - intros res w1 H1. split; [by apply still_stop_effect|].
        by intros _ [? ?]. }
  apply wp_try. apply wp_bind. apply wp_modify. cbv beta iota.
  apply wp_bind.
  destruct (stop_all_run (RunState.processes process_info)
              (emit (Logged INFO "Stopping project") w))
    as (w1 & Hrun & Hstill & Hdead).
  unfold wp at 1. rewrite Hrun. cbn [fst snd].
  assert (still w w1) as H01.
  { eapply still_trans; [apply still_emit|exact Hstill]. }
  clear Hrun Hstill.
  set (w2 := if pause
             then set_paused (dict_set project_dir process_info) w1
             else w1).
  set (w3 := set_running (dict_del project_dir) w2).
  assert (stop_effect project_dir pause w w3) as Heff.
  { destruct H01 as (((Hr&Hp&Hw&_&_)&Hu)&Hpid&Hreads&Halive).
    unfold stop_effect. rewrite Hget.
    subst w3 w2. destruct pause; simpl;
      rewrite ?Hr, ?Hp, ?Hw, ?Hu, ?Hpid, ?Hreads;
      (repeat split; try done);
      intros info [= <-] p Hp'; by apply Hdead. }
  apply wp_bind.
  assert (wp (if pause
              then modify (set_paused (dict_set project_dir process_info))
              else ret tt)
            (fun r w' => r = Ok tt /\ w' = w2) w1) as Hstep.
  { subst w2. by destruct pause. }
  eapply wp_mono; [exact Hstep|]. intros r w' [-> ->]. clear Hstep.
  apply wp_bind_modify. fold w3.
  destruct pause; simpl negb; cbv iota.
  - apply wp_bind, wp_ret. apply wp_ret. split; [exact Heff|done].
  - assert (forall w4,
              still w3 w4 ->
              wp (bot env (send_message chat_id FailedToStop);;
                  logger ERROR "Failed to stop project";; ret false)
                 (fun res w' =>
                    stop_effect project_dir false w w'
                    /\ (false = true -> is_Some (Some process_info) ->
                        res = Ok true)) w4) as Hhandler.
    { intros w4 H4. apply (wp_keeps still).
      - apply keeps_bind; [apply still_trans|apply keeps_bot|intros []].
        apply keeps_bind; [apply still_trans|apply keeps_logger|intros []].
        apply keeps_ret, still_refl.
      - intros res w5 H5. split; [|done].
        eapply stop_effect_still; [|exact H5].
        eapply stop_effect_still; [exact Heff|exact H4]. }
    apply wp_bind.
    apply (wp_bind_keeps still); [apply keeps_bot| |].
    + intros [] w4 H4. apply (wp_keeps still); [apply keeps_logger|].
      intros [[]|e] w5 H5.
      * apply wp_ret. split; [|done].
        eapply stop_effect_still; [|exact H5].
        eapply stop_effect_still; [exact Heff|exact H4].
      * apply Hhandler. by eapply still_trans.
    + intros e w4 H4. by apply Hhandler.
Qed.

Lemma stop_project_effect project_dir chat_id pause w :
  stop_effect project_dir pause w
    (stop_project env project_dir chat_id pause w).2.
Proof.
  unfold stop_project, error_handler.
  apply (wrapper_from_rel (stop_effect project_dir pause)).
  - apply stop_effect_trans.
  - intros w0 w1 ev H1. eapply stop_effect_still; [exact H1|].
    apply still_emit.
  - intros w0. apply stop_project_body_effect.
Qed.

End stopping.

(** ** Preserved properties *)

Section preserve_rules.
Variable I : World -> Prop.
Context {A B : Type}.

Lemma preserves_ret (a : A) : preserves I (ret a).
Proof. by intros w. Qed.

Lemma preserves_raise e : preserves I (raise (A:=A) e).
Proof. by intros w. Qed.

Lemma preserves_gets (f : World -> A) : preserves I (gets f).
Proof. by intros w. Qed.

Lemma preserves_bind (m : M A) (f : A -> M B) :
  preserves I m -> (forall a, preserves I (f a)) -> preserves I (m ≫= f).
Proof.
  intros Hm Hf w Hw. rewrite bind_run. specialize (Hm w Hw).
  destruct (m w) as [[a|e] w1]; simpl in *; [by apply Hf|done].
Qed.

Lemma preserves_bind_gets (f : World -> A) (k : A -> M B) :
  (forall w, I w -> I (k (f w) w).2) -> preserves I (gets f ≫= k).
Proof. intros Hk w Hw. rewrite bind_run. simpl. by apply Hk. Qed.

Lemma preserves_try (m : M A) h :
  preserves I m -> (forall e, preserves I (h e)) ->
  preserves I (try_except m h).
Proof.
  intros Hm Hh w Hw. unfold try_except. specialize (Hm w Hw).
  destruct (m w) as [[a|e] w1]; simpl in *; [done|by apply Hh].
Qed.

Lemma preserves_for_each (l : list A) (body : A -> M unit) :
  (forall x, preserves I (body x)) -> preserves I (for_each l body).
Proof.
  intros Hb. induction l as [|x l IH]; simpl; [by intros w|].
  intros w Hw. rewrite bind_run. specialize (Hb x w Hw).
  destruct (body x w) as [[[]|e] w1]; simpl in *; [by apply IH|done].
Qed.

Lemma preserves_wrapper (func : M A) r :
  (forall w ev, I w -> I (emit ev w)) ->
  preserves I func -> preserves I (wrapper_from r func).
Proof.
  intros Hemit Hf w Hw.
  pose proof (wrapper_from_wp I (fun _ _ => True) (fun _ _ => True) func
                Hemit) as H.
  apply H; [done| |done].
  intros w1 H1. split; [by apply Hf|]. by destruct (func w1).1.
Qed.

Lemma preserves_keeps (R : World -> World -> Prop) (m : M A) :
  (forall w w', I w -> R w w' -> I w') -> keeps R m -> preserves I m.
Proof. intros HR Hm w Hw. eapply HR; [exact Hw|apply Hm]. Qed.
End preserve_rules.

(** ** No project is both running and paused *)

Lemma never_both_mild w w' : never_both w -> mild w w' -> never_both w'.
Proof. intros Hw (Hr&Hp&_) k. rewrite Hr, Hp. apply Hw. Qed.

Lemma never_both_still w w' : never_both w -> still w w' -> never_both w'.
Proof. intros Hw H. eapply never_both_mild; [exact Hw|by apply still_mild]. Qed.

Lemma never_both_emit w ev : never_both w -> never_both (emit ev w).
Proof. intros Hw. eapply never_both_still; [exact Hw|apply still_emit]. Qed.

Lemma never_both_run env project_dir chat_id duration_days auto_restart w w' :
  never_both w ->
  run_effect env project_dir chat_id duration_days auto_restart w w' ->
  never_both w'.
Proof.
  intros Hw [Hm|(_&_&_&rs&Hr&Hp&_)]; [by eapply never_both_mild|].
  intros k. rewrite Hr, Hp.
  destruct (decide (k = project_dir)) as [->|Hne].
  - right. apply dict_get_del_eq.
  - rewrite dict_get_set_ne, dict_get_del_ne by done. apply Hw.
Qed.

Lemma never_both_stop project_dir pause w w' :
  never_both w -> stop_effect project_dir pause w w' -> never_both w'.
Proof.
  intros Hw (_&_&_&_&_&Hr&Hp&_) k. rewrite Hr, Hp.
  destruct (decide (k = project_dir)) as [->|Hne].
  - left. apply dict_get_del_eq.
  - rewrite dict_get_del_ne by done.
    destruct (dict_get project_dir (running_processes w)); [|apply Hw].
    destruct pause; [|apply Hw].
    rewrite dict_get_set_ne by done. apply Hw.
Qed.

Section invariant.
Variable env : Env.

Lemma nb_logger level what : preserves never_both (logger level what).
Proof. eapply preserves_keeps; [apply never_both_still|apply keeps_logger]. Qed.

Lemma nb_sleep s : preserves never_both (time_sleep s).
Proof. eapply preserves_keeps; [apply never_both_still|apply keeps_sleep]. Qed.

Lemma nb_bot call : preserves never_both (bot env call).
Proof. eapply preserves_keeps; [apply never_both_still|apply keeps_bot]. Qed.

Lemma nb_rmtree dir : preserves never_both (rmtree env dir).
Proof. eapply preserves_keeps; [apply never_both_still|apply keeps_rmtree]. Qed.

Lemma nb_now : preserves never_both (datetime_now env).
Proof.
  eapply preserves_keeps; [|apply keeps_now].
  intros w w' Hw H. eapply never_both_mild; [exact Hw|by apply quiet_mild].
Qed.

Lemma nb_save_user_projects : preserves never_both (save_user_projects env).
Proof.
  eapply preserves_keeps; [apply never_both_still|].
  apply keeps_save_user_projects.
Qed.

Lemma nb_get_user_id chat_id :
  preserves never_both (get_user_id_by_chat_id chat_id).
Proof.
  eapply preserves_keeps; [apply never_both_still|apply keeps_get_user_id].
Qed.

Lemma nb_run_project project_dir chat_id duration_days auto_restart :
  preserves never_both
    (run_project env project_dir chat_id duration_days auto_restart).
Proof.
  intros w Hw.
  destruct (run_project_post env project_dir chat_id duration_days
              auto_restart w) as [Heff _].
  by eapply never_both_run.
Qed.

Lemma nb_stop_project project_dir chat_id pause :
  preserves never_both (stop_project env project_dir chat_id pause).
Proof.
  intros w Hw. eapply never_both_stop; [exact Hw|].
  apply stop_project_effect.
Qed.

Lemma nb_set_user_projects f : preserves never_both (modify (set_user_projects f)).
Proof. by intros w Hw. Qed.

Lemma nb_set_waiting f : preserves never_both (modify (set_waiting f)).
Proof. by intros w Hw. Qed.

Lemma nb_forget_paused project_dir :
  preserves never_both (modify (set_paused (dict_del project_dir))).
Proof.
  intros w Hw k. simpl.
  destruct (decide (k = project_dir)) as [->|Hne].
  - right. apply dict_get_del_eq.
  - rewrite dict_get_del_ne by done. apply Hw.
Qed.

Ltac nb_step :=
  first
    [ apply preserves_ret | apply preserves_raise | apply preserves_gets
    | apply nb_bot | apply nb_logger | apply nb_sleep | apply nb_now
    | apply nb_rmtree | apply nb_save_user_projects | apply nb_get_user_id
    | apply nb_run_project | apply nb_stop_project
    | apply nb_set_user_projects | apply nb_set_waiting
    | apply nb_forget_paused
    | apply preserves_bind; [|intros ?]
    | apply preserves_try; [|intros ?]
    | match goal with
      | |- preserves _ (if ?b then _ else _) => destruct b
      | |- preserves _ (match ?x with _ => _ end) => destruct x
      end ].

Lemma nb_restart_entry item : preserves never_both (restart_entry env item).
Proof. unfold restart_entry. repeat nb_step. Qed.

Lemma nb_global_restart_pass : preserves never_both (global_restart_pass env).
Proof.
  unfold global_restart_pass. repeat nb_step.
  apply preserves_for_each. intros item. apply nb_restart_entry.
Qed.

Lemma nb_handle_two_scripts_names message :
  preserves never_both (handle_two_scripts_names env message).
Proof.
  unfold handle_two_scripts_names, error_handler.
  apply preserves_wrapper; [apply never_both_emit|].
  unfold handle_two_scripts_names_body. repeat nb_step.
Qed.

Lemma nb_set_deadline project_dir e w process_info :
  dict_get project_dir (running_processes w) = Some process_info ->
  never_both w ->
  never_both (set_running (dict_set project_dir
                (RunState.set_end_time e process_info)) w).
Proof.
  intros Hget Hw k. simpl.
  destruct (decide (k = project_dir)) as [->|Hne].
  - right. destruct (Hw project_dir) as [H|H]; [congruence|done].
  - rewrite dict_get_set_ne by done. apply Hw.
Qed.

Lemma nb_callback_action call : preserves never_both (callback_action env call).
Proof.
  unfold callback_action. destruct (data call) as
    [pd|pd|pd|pd|pd|days pd|pd| |]; try (repeat nb_step; fail).
  apply preserves_bind_gets. intros w Hw.
  destruct (dict_get pd (running_processes w)) as [info|] eqn:Hget.
  2:{ by apply nb_bot. }
  rewrite bind_run.
  assert (exists msg w1,
            ((if 0 <? days
              then now ← datetime_now env;
                   modify (set_running (dict_set pd
                     (RunState.set_end_time (Some (now + days * DAY)) info)));;
                   ret (DurationSet days (os_path_basename pd))
              else modify (set_running (dict_set pd
                     (RunState.set_end_time None info)));;
                   ret (DurationRemoved (os_path_basename pd))) w)
            = (Ok msg, w1) /\ never_both w1) as (msg & w1 & -> & H1).
  { destruct (0 <? days).
    - eexists _, _. split; [reflexivity|].
      apply (nb_set_deadline pd _
               (set_host (next_pid w) (alive w) (gateway_calls w)
                  (S (clock_reads w)) (trace w) w)); [exact Hget|].
      intros k. apply Hw.
    - eexists _, _. split; [reflexivity|]. by apply nb_set_deadline. }
  revert w1 H1. change (preserves never_both
    (bot env (edit_message_text (message_chat call) msg);;
     logger INFO "Duration changed")).
  repeat nb_step.
Qed.

Lemma nb_handle_callbacks call :
  preserves never_both (handle_callbacks env call).
Proof.
  unfold handle_callbacks, error_handler.
  apply preserves_wrapper; [apply never_both_emit|].
  unfold handle_callbacks_body. repeat nb_step. apply nb_callback_action.
Qed.

Lemma nb_perform op : preserves never_both (perform env op).
Proof.
  destruct op; simpl.
  - repeat nb_step.
  - repeat nb_step.
  - apply nb_handle_callbacks.
  - apply nb_handle_two_scripts_names.
  - apply nb_global_restart_pass.
Qed.
End invariant.

(** C1. In every world that the controller can reach, no project is
    both in [running_processes] and in [paused_processes]. *)
Theorem never_running_and_paused w project_dir :
  reachable w ->
  ~ (dict_in project_dir (running_processes w) = true
     /\ dict_in project_dir (paused_processes w) = true).
Proof.
  intros Hreach.
  assert (never_both w) as Hnb.
  { induction Hreach as [w Hr Hp|env op w Hreach IH].
    - intros k. left. by rewrite Hr.
    - by apply nb_perform. }
  intros [H1 H2]. apply dict_in_get in H1 as [? H1].
  apply dict_in_get in H2 as [? H2].
  destruct (Hnb project_dir); congruence.
Qed.

(** ** Starting a project without main files *)

Lemma wrapper_from_ext {A} (I : World -> Prop) (f g : M A) r w :
  (forall w ev, I w -> I (emit ev w)) ->
  (forall w, I w -> f w = g w) ->
  (forall w, I w -> I (g w).2) ->
  I w -> wrapper_from r f w = wrapper_from r g w.
Proof.
  intros Hemit Hfg Hg. revert w. induction r as [|r IH]; intros w Hw.
  - specialize (Hg w Hw). pose proof (Hfg w Hw) as Heq.
    destruct (g w) as [[a|e] w1] eqn:Hrun.
    + by rewrite (wrapper_from_ok f 0 w a w1), (wrapper_from_ok g 0 w a w1).
    + by rewrite (wrapper_from_last f w e w1), (wrapper_from_last g w e w1).
  - specialize (Hg w Hw). pose proof (Hfg w Hw) as Heq.
    destruct (g w) as [[a|e] w1] eqn:Hrun.
    + by rewrite (wrapper_from_ok f _ w a w1), (wrapper_from_ok g _ w a w1).
    + rewrite (wrapper_from_retry f r w e w1), (wrapper_from_retry g r w e w1)
        by done.
      apply IH. unfold before_retry. simpl in Hg. auto.
Qed.

Lemma bind_gets {A B} (f : World -> A) (k : A -> M B) w :
  (gets f ≫= k) w = k (f w) w.
Proof. done. Qed.

Lemma bind_ret {A B} (a : A) (k : A -> M B) w : (ret a ≫= k) w = k a w.
Proof. done. Qed.

Lemma bind_modify {B} f (k : unit -> M B) w :
  (modify f ≫= k) w = k tt (f w).
Proof. done. Qed.

Lemma bind_bind {A B C} (m : M A) (f : A -> M B) (g : B -> M C) w :
  ((m ≫= f) ≫= g) w = (m ≫= (fun x => f x ≫= g)) w.
Proof. rewrite !bind_run. destruct (m w) as [[a|e] w1]; [|done]. by rewrite bind_run. Qed.

Lemma find_main_files_none project_dir projects :
  Forall (fun p => Project.project_dir p <> project_dir) projects ->
  find_main_files project_dir projects = [].
Proof.
  induction 1 as [|p l Hp Hl IH]; simpl; [done|].
  by rewrite decide_False.
Qed.

Lemma unresolved_still project_dir chat_id w w' :
  unresolved project_dir chat_id w -> still w w' ->
  unresolved project_dir chat_id w'.
Proof.
  intros Hu (((_&_&Hw&_)&Hp)&_). unfold unresolved in *. by rewrite Hp, Hw.
Qed.

Section no_main_files.
Variable env : Env.
Variables (project_dir : str) (chat_id : Z) (duration_days : option Z)
          (auto_restart : bool).

Lemma keeps_report : keeps still (report_no_main_files env chat_id).
Proof.
  unfold report_no_main_files.
  apply keeps_bind; [apply still_trans|apply keeps_bot|intros []].
  apply keeps_bind; [apply still_trans|apply keeps_logger|intros []].
  apply keeps_ret, still_refl.
Qed.

Lemma run_project_body_unresolved w :
  unresolved project_dir chat_id w ->
  run_project_body env project_dir chat_id duration_days auto_restart w
  = report_no_main_files env chat_id w.
Proof.
  unfold unresolved, run_project_body, get_user_id_by_chat_id.
  intros Hu. rewrite bind_bind, bind_gets, bind_ret, !bind_gets.
  destruct (find_user_id chat_id (user_projects w)) as [u|]; simpl opt_get.
  2:{ by rewrite bind_ret. }
  destruct Hu as [Hnone Hsess].
  assert (match dict_get u (user_projects w) with
          | Some l => find_main_files project_dir l
          | None => []
          end = []) as ->.
  { destruct (dict_get u (user_projects w)); [|done].
    by apply find_main_files_none. }
  cbn [is_nil andb]. unfold dict_in.
  destruct (dict_get u (waiting_for_main_file w)) as [session|] eqn:Hget.
  2:{ by rewrite bind_ret. }
  unfold adopt_session.
  rewrite bind_bind, bind_gets, Hget.
  assert (match Session.scripts_to_run session with
          | Some scripts => scripts
          | None => []
          end = []) as ->.
  { by destruct Hsess as [->| ->]. }
  cbn [is_nil negb andb].
  rewrite bind_bind, bind_gets, bind_bind, bind_ret.
  rewrite bind_bind, bind_gets, bind_bind, bind_ret, bind_ret.
  done.
Qed.

Lemma run_project_unresolved w :
  unresolved project_dir chat_id w ->
  run_project env project_dir chat_id duration_days auto_restart w
  = error_handler (report_no_main_files env chat_id) w.
Proof.
  intros Hu. unfold run_project, error_handler.
  apply (wrapper_from_ext (unresolved project_dir chat_id)); [| | |done].
  - intros w1 ev H1. eapply unresolved_still; [exact H1|apply still_emit].
  - apply run_project_body_unresolved.
  - intros w1 H1. eapply unresolved_still; [exact H1|apply keeps_report].
Qed.

Lemma report_run w :
  exists w1,
    gateway_calls w1 = S (gateway_calls w)
    /\ report_no_main_files env chat_id w
       = (if gateway_ok env (gateway_calls w)
               (send_message chat_id NoMainFiles)
          then Ok false else Raise ApiError, w1).
Proof.
  unfold report_no_main_files. rewrite bind_run. unfold bot.
  destruct (gateway_ok env (gateway_calls w) _).
  - eexists. split; [|reflexivity]. reflexivity.
  - eexists. split; [|reflexivity]. reflexivity.
Qed.
End no_main_files.

(** C2, as the source has it.  When no main files resolve,
    [run_project] touches neither the registries nor the stored
    projects nor the sessions; it returns [False] as soon as one of
    its three attempts to send the notice goes through, and raises the
    error of the gateway when none does. *)
Theorem run_project_without_main_files env project_dir chat_id duration_days
    auto_restart w :
  unresolved project_dir chat_id w ->
  let call := send_message chat_id NoMainFiles in
  let out := run_project env project_dir chat_id duration_days
               auto_restart w in
  running_processes out.2 = running_processes w
  /\ paused_processes out.2 = paused_processes w
  /\ user_projects out.2 = user_projects w
  /\ waiting_for_main_file out.2 = waiting_for_main_file w
  /\ ((exists i, (i < 3)%nat
                 /\ gateway_ok env (gateway_calls w + i) call = true) ->
      out.1 = Ok false)
  /\ ((forall i, (i < 3)%nat ->
                 gateway_ok env (gateway_calls w + i) call = false) ->
      out.1 = Raise ApiError).
Proof.
  intros Hu call out. subst out. rewrite (run_project_unresolved env project_dir chat_id duration_days
           auto_restart w Hu).
  assert (still w (error_handler (report_no_main_files env chat_id) w).2)
    as (((Hr&Hp&Hw&_)&Hup)&_).
  { unfold error_handler.
    apply (keeps_wrapper still still_trans); [apply still_emit|].
    apply keeps_report. }
  split; [done|]. split; [done|]. split; [done|]. split; [done|].
  unfold error_handler.
  destruct (report_run env chat_id w) as (w1 & Hc1 & Hrun1).
  destruct (report_run env chat_id (before_retry w1)) as (w2 & Hc2 & Hrun2).
  destruct (report_run env chat_id (before_retry w2)) as (w3 & Hc3 & Hrun3).
  change (gateway_calls (before_retry w1)) with (gateway_calls w1)
    in Hc2, Hrun2.
  change (gateway_calls (before_retry w2)) with (gateway_calls w2)
    in Hc3, Hrun3.
  rewrite Hc1 in Hc2, Hrun2. rewrite Hc2 in Hrun3.
  fold call in Hrun1, Hrun2, Hrun3.
  replace (gateway_calls w) with (gateway_calls w + 0)%nat in Hrun1 at 1
    by lia.
  replace (S (gateway_calls w)) with (gateway_calls w + 1)%nat in Hrun2
    by lia.
  replace (S (S (gateway_calls w))) with (gateway_calls w + 2)%nat in Hrun3
    by lia.
  destruct (gateway_ok env (gateway_calls w + 0) call) eqn:G0.
  { rewrite (wrapper_from_ok _ _ _ _ _ Hrun1). simpl. split; [done|].
    intros Hall. rewrite Hall in G0 by lia. done. }
  rewrite (wrapper_from_retry _ _ _ _ _ Hrun1).
  destruct (gateway_ok env (gateway_calls w + 1) call) eqn:G1.
  { rewrite (wrapper_from_ok _ _ _ _ _ Hrun2). simpl. split; [done|].
    intros Hall. rewrite Hall in G1 by lia. done. }
  rewrite (wrapper_from_retry _ _ _ _ _ Hrun2).
  destruct (gateway_ok env (gateway_calls w + 2) call) eqn:G2.
  { rewrite (wrapper_from_ok _ _ _ _ _ Hrun3). simpl. split; [done|].
    intros Hall. rewrite Hall in G2 by lia. done. }
  rewrite (wrapper_from_last _ _ _ _ Hrun3). simpl. split; [|done].
  intros (i & Hi & Hok).
  assert (i = 0 \/ i = 1 \/ i = 2)%nat as [->|[->| ->]] by lia; congruence.
Qed.

(** C2 as stated fails: with the gateway down, [run_project] does not
    return [False], it raises. *)
Lemma run_project_raises_when_the_notice_fails :
  unresolved (py "projects/5/app") 50 fresh_world
  /\ (run_project gateway_down (py "projects/5/app") 50 None true
        fresh_world).1 = Raise ApiError.
Proof. split; [exact I|]. vm_compute. reflexivity. Qed.

(** ** A start that goes through *)





Section starts.
Variable env : Env.
Hypothesis up : gateway_up env.

Lemma bot_up call w : (bot env call w).1 = Ok tt.
Proof. unfold bot. by rewrite up. Qed.

Lemma bot_up_run call w :
  bot env call w =
    (Ok tt, emit (Delivered call)
              (set_host (next_pid w) (alive w) (S (gateway_calls w))
                 (clock_reads w) (trace w) w)).
Proof. unfold bot. by rewrite up. Qed.

Lemma install_requirements_up project_dir chat_id w :
  path_exists env (os_path_join project_dir REQUIREMENTS_FILE) = false
  \/ pip_install env project_dir = PipExit 0 ->
  (install_requirements env project_dir chat_id w).1 = Ok true.
Proof.
  intros Hdeps. unfold install_requirements, error_handler.
  assert (exists w1, install_requirements_body env project_dir chat_id w
                     = (Ok true, w1)) as [w1 Hrun].
  { unfold install_requirements_body.
    destruct (path_exists env _) eqn:Hex; [|by eexists].
    destruct Hdeps as [?|Hpip]; [done|].
    unfold try_except. rewrite bind_run. cbn [logger modify].
    rewrite bind_run. cbn [modify]. rewrite Hpip.
    change (negb (0 =? 0)) with false. cbv iota.
    rewrite bind_run. cbn [logger modify ret]. by eexists. }
  by rewrite (wrapper_from_ok _ _ _ _ _ Hrun).
Qed.




End starts.

(** ** Starting again from a stored record *)

Section relaunching.
Variable env : Env.
Variables (project_dir : str) (process_info : RunState.t)
          (auto_restart : bool).

Local Abbreviation again := (relaunched env project_dir process_info
                           auto_restart).

Lemma recomputed_widen w0 w1 w2 w3 d :
  recomputed env w1 w2 process_info d ->
  (clock_reads w0 <= clock_reads w1)%nat ->
  (clock_reads w2 <= clock_reads w3)%nat ->
  recomputed env w0 w3 process_info d.
Proof.
  unfold recomputed. destruct (RunState.end_time process_info); [|done].
  intros (i & Hi & Hd) H1 H2. exists i. split; [lia|done].
Qed.

Lemma again_mild w1 w2 w3 : again w1 w2 -> mild w2 w3 -> again w1 w3.
Proof.
  intros (d & Hd & Hst) Hm. exists d. split.
  - eapply recomputed_widen; [exact Hd|lia|]. by destruct Hm as (_&_&_&_&?).
  - by eapply started_mild.
Qed.

Lemma mild_again w1 w2 w3 : mild w1 w2 -> again w2 w3 -> again w1 w3.
Proof.
  intros Hm (d & Hd & Hst). exists d. split.
  - eapply recomputed_widen; [exact Hd| |lia]. by destruct Hm as (_&_&_&_&?).
  - by eapply mild_started.
Qed.

Lemma again_lookup w w' :
  again w w' ->
  exists rs d,
    dict_get project_dir (running_processes w') = Some rs
    /\ dict_get project_dir (paused_processes w')  = None
    /\ recomputed env w w' process_info d
    /\ launched_by env w w' d auto_restart (RunState.chat_id process_info) rs.
Proof.
  intros (d & Hd & Hst).
  destruct (started_lookup _ _ _ _ _ _ _ Hst) as (rs & H1 & H2 & H3).
  by exists rs, d.
Qed.

(** What [relaunch] guarantees. *)
Lemma relaunch_post w :
  wp (relaunch env project_dir process_info auto_restart)
     (fun res w' => (mild w w' \/ again w w')
                    /\ (res = Ok true -> again w w')) w.
Proof.
  unfold relaunch.
  destruct (RunState.end_time process_info) as [e|] eqn:He.
  - apply wp_bind, wp_bind_now, wp_ret.
    set (w1 := set_host _ _ _ _ _ w).
    set (d := Some (timedelta_days e (clock env (clock_reads w)))).
    assert (mild w w1) as H01.
    { unfold mild. simpl. repeat split; try done; lia. }
    eapply wp_mono; [apply run_project_post|].
    intros res w2 [Heff Hst].
    assert (run_started env project_dir (RunState.chat_id process_info) d
              auto_restart w1 w2 -> again w w2) as Hagain.
    { intros H. exists d. split.
      - unfold recomputed. rewrite He. exists (clock_reads w).
        split; [|done]. destruct H as (_&Hr&_). simpl in Hr. lia.
      - by eapply mild_started. }
    split.
    + destruct Heff as [Hm|H]; [left; by eapply mild_trans|right; auto].
    + intros ->. auto.
  - apply wp_bind, wp_ret.
    eapply wp_mono; [apply run_project_post|].
    intros res w2 [Heff Hst].
    assert (run_started env project_dir (RunState.chat_id process_info) None
              auto_restart w w2 -> again w w2) as Hagain.
    { intros H. exists None. split; [|done]. unfold recomputed.
      by rewrite He. }
    split.
    + destruct Heff as [Hm|H]; [by left|right; auto].
    + intros ->. auto.
Qed.

Lemma wp_relaunch {B} (k : bool -> M B) Q w :
  (forall res w1,
     (mild w w1 \/ again w w1) -> (res = Ok true -> again w w1) ->
     match res with
     | Ok a => wp (k a) Q w1
     | Raise e => Q (Raise e) w1
     end) ->
  wp (duration_days ←
        (match RunState.end_time process_info with
         | Some e =>
             now ← datetime_now env; ret (Some (timedelta_days e now))
         | None => ret None
         end);
      success ← run_project env project_dir (RunState.chat_id process_info)
                  duration_days auto_restart;
      k success) Q w.
Proof.
  intros Hk. unfold wp.
  rewrite <-(bind_bind _ (fun d => run_project env project_dir
                            (RunState.chat_id process_info) d auto_restart)
               k w).
  fold (relaunch env project_dir process_info auto_restart).
  apply wp_bind. eapply wp_mono; [apply relaunch_post|].
  intros res w1 [H1 H2]. by apply Hk.
Qed.
End relaunching.

(** ** Pause and resume *)

Section resume.
Variable env : Env.
Variables (project_dir : str) (process_info : RunState.t) (chat_id : Z).

Local Abbreviation call := {| data := resume_ project_dir;
                          message_chat := chat_id |}.
Local Abbreviation again := (relaunched env project_dir process_info true).
Local Abbreviation effect := (resume_effect env project_dir process_info).

Lemma resume_effect_mild w1 w2 w3 : effect w1 w2 -> mild w2 w3 -> effect w1 w3.
Proof.
  intros [H|H] Hm; [left; by eapply mild_trans|right; by eapply again_mild].
Qed.

Lemma resume_body_effect w0 w :
  dict_get project_dir (paused_processes w0) = Some process_info ->
  effect w0 w ->
  effect w0 (handle_callbacks_body env call w).2.
Proof.
  intros Hpaused Hw.
  change (wp (handle_callbacks_body env call) (fun _ w' => effect w0 w') w).
  unfold handle_callbacks_body.
  assert (forall (e : exn) w1, effect w0 w1 ->
            wp (logger ERROR "Error handling callback";;
                bot env (answer_callback_query (message_chat call)
                           ErrorProcessing))
               (fun _ w' => effect w0 w') w1) as Hhandler.
  { intros e w1 H1. apply (wp_keeps still).
    - apply keeps_bind; [apply still_trans|apply keeps_logger|intros []].
      apply keeps_bot.
    - intros res w2 H2. eapply resume_effect_mild; [exact H1|].
      by apply still_mild. }
  apply wp_try. unfold callback_action. cbn [data message_chat].
  apply (wp_bind_keeps still); [apply keeps_bot| |].
  2:{ intros e w1 H1. apply (Hhandler e).
      eapply resume_effect_mild; [exact Hw|by apply still_mild]. }
  intros [] w1 H1%still_mild.
  pose proof (resume_effect_mild _ _ _ Hw H1) as Hw1.
  apply wp_bind_gets.
  destruct (dict_get project_dir (paused_processes w1)) as [info|] eqn:Hget.
  2:{ apply (wp_keeps still); [apply keeps_bot|].
      intros [a|e] w2 H2%still_mild.
      - by eapply resume_effect_mild.
      - apply (Hhandler e). by eapply resume_effect_mild. }
  assert (info = process_info /\ mild w0 w1) as [-> Hm1].
  { destruct Hw1 as [Hm|Hag].
    - split; [|done]. destruct Hm as (_&Hp&_). rewrite Hp in Hget. congruence.
    - destruct (again_lookup _ _ _ _ _ _ Hag) as (rs & d & _ & Hnone & _).
      congruence. }
  apply wp_relaunch. intros res w2 Heff Hres.
  assert (effect w0 w2) as Hw2.
  { destruct Heff as [H|H]; [left; by eapply mild_trans|].
    right. by eapply mild_again. }
  destruct res as [success|e]; [|by apply (Hhandler e)].
  destruct success.
  - apply (wp_bind_keeps still); [apply keeps_bot| |].
    + intros [] w3 H3. apply (wp_keeps still); [apply keeps_logger|].
      intros [a|e] w4 H4.
      * eapply resume_effect_mild; [|apply still_mild, H4].
        eapply resume_effect_mild; [exact Hw2|by apply still_mild].
      * apply (Hhandler e).
        eapply resume_effect_mild; [|apply still_mild, H4].
        eapply resume_effect_mild; [exact Hw2|by apply still_mild].
    + intros e w3 H3. apply (Hhandler e).
      eapply resume_effect_mild; [exact Hw2|by apply still_mild].
  - apply (wp_keeps still); [apply keeps_bot|].
    intros [a|e] w3 H3%still_mild.
    + by eapply resume_effect_mild.
    + apply (Hhandler e). by eapply resume_effect_mild.
Qed.

Lemma resume_effect_holds w :
  dict_get project_dir (paused_processes w) = Some process_info ->
  effect w (handle_callbacks env call w).2.
Proof.
  intros Hpaused. unfold handle_callbacks, error_handler.
  pose proof (wrapper_from_wp (effect w) (fun _ _ => True)
                (fun _ _ => True) (handle_callbacks_body env call)) as H.
  apply H; [| | |left; apply mild_refl].
  - intros w1 ev H1. eapply resume_effect_mild; [exact H1|].
    apply still_mild, still_emit.
  - done.
  - intros w1 H1. split; [by apply resume_body_effect|].
    by destruct (handle_callbacks_body env call w1).1.
Qed.

End resume.

(** ** The restart of one entry *)

Section entry.
Variable env : Env.
Variables (project_dir : str) (process_info : RunState.t).

Local Abbreviation effect := (entry_effect env project_dir process_info).
Local Abbreviation item := (project_dir, process_info).

Lemma entry_effect_mild w1 w2 w3 : effect w1 w2 -> mild w2 w3 -> effect w1 w3.
Proof.
  intros (w & Hstop & [H|H]) Hm; exists w; (split; [done|]).
  - left. by eapply mild_trans.
  - right. by eapply again_mild.
Qed.


Lemma restart_entry_effect w :
  RunState.auto_restart process_info = true ->
  effect w (restart_entry env item w).2.
Proof.
  intros Har.
  change (wp (restart_entry env item) (fun _ w' => effect w w') w).
  unfold restart_entry. cbn [fst snd]. rewrite Har. cbn [negb].
  assert (forall w1, effect w w1 ->
            wp (logger ERROR "Failed to restart project";;
                bot env (send_message (RunState.chat_id process_info)
                           (FailedToRestart
                              (RunState.project_name process_info))))
               (fun _ w' => effect w w') w1) as Hhandler.
  { intros w1 H1. apply (wp_keeps still).
    - apply keeps_bind; [apply still_trans|apply keeps_logger|intros []].
      apply keeps_bot.
    - intros res w2 H2. eapply entry_effect_mild; [exact H1|].
      by apply still_mild. }
  apply wp_try. apply wp_bind.
  pose proof (stop_project_effect env project_dir
                (RunState.chat_id process_info) false w) as Hstop.
  unfold wp at 1.
  destruct (stop_project env project_dir (RunState.chat_id process_info)
              false w) as [[stopped|e] w1]; cbn [fst snd] in *.
  2:{ apply Hhandler. exists w1. split; [done|]. left. apply mild_refl. }
  apply wp_relaunch. intros res w2 Heff Hres.
  assert (effect w w2) as Hw2.
  { exists w1. split; [done|]. by rewrite Har. }
  destruct res as [success|e]; [|by apply Hhandler].
  apply (wp_bind_keeps still); [apply keeps_logger| |].
  - intros [] w3 H3. apply (wp_keeps still); [apply keeps_bot|].
    intros [a|e] w4 H4.
    + eapply entry_effect_mild; [|apply still_mild, H4].
      eapply entry_effect_mild; [exact Hw2|by apply still_mild].
    + apply Hhandler.
      eapply entry_effect_mild; [|apply still_mild, H4].
      eapply entry_effect_mild; [exact Hw2|by apply still_mild].
  - intros e w3 H3. apply Hhandler.
    eapply entry_effect_mild; [exact Hw2|by apply still_mild].
Qed.



End entry.

(** ** A start from stored main files leaves the stored projects alone *)

Section same_projects.
Variable env : Env.
Variable U : list (Z * list Project.t).

Local Abbreviation same := (fun x : World => user_projects x = U).




End same_projects.

(** ** The restart of one entry, when it goes through *)

Section entry_starts.
Variable env : Env.
Hypothesis up : gateway_up env.

Lemma returns_bot call : returns (bot env call).
Proof. intros w. exists tt. by apply bot_up. Qed.

Lemma try_except_returns {A} (m : M A) h :
  (forall e, returns (h e)) -> returns (try_except m h).
Proof.
  intros Hh w. unfold try_except. destruct (m w) as [[a|e] w1].
  - by exists a.
  - apply Hh.
Qed.



End entry_starts.

(** ** A whole turn of the periodic restart *)

Lemma dict_keys_In {K V : Type} (k : K) (v : V) (d : list (K * V)) :
  In (k, v) d -> k ∈ dict_keys d.
Proof.
  intros Hin. apply list_elem_of_In. unfold dict_keys.
  apply (in_map fst d (k, v) Hin).
Qed.





Section turn.
Variable env : Env.

Local Abbreviation loop items := (for_each items (restart_entry env)).








Section up.
Hypothesis up : gateway_up env.



End up.


End turn.

(** ** Pause, then resume *)





(** ** Deadlines of less than a day *)









(** ** The periodic restart, entry by entry *)


(** ** The names of the two scripts *)

Section two_scripts.
Variable env : Env.




Variable message : Message.
Variable session : Session.t.
Hypothesis not_cancel : text message <> py "/cancel".

Local Abbreviation user := (from_user message).
Local Abbreviation names := (split (strip (text message))).
Local Abbreviation dir := (Session.project_dir session).
Local Abbreviation present :=
  (fun n => path_exists env (os_path_join dir n)).


End two_scripts.




(** ** A failed notice ends the turn of the periodic restart *)

Lemma calm_up : gateway_up calm.
Proof. intros n call. reflexivity. Qed.


(** C4 fails in the source.  The user of chat 50 has blocked the bot and
    two projects run, both with [auto_restart]: the first one of chat
    50, the second one of chat 60.  In the turn of the periodic restart
    the stop of the first project raises, the notice of the failure in
    the [except] branch raises as well, and the exception leaves the
    [for] loop: the turn ends with the second project never stopped and
    never started again, its record and its process as they were and no
    message sent to its chat.  On the host where the gateway takes every
    call, the same turn does restart the second project. *)
Theorem failed_notice_ends_the_sweep :
  let swept := global_restart_pass chat_50_blocked busy_world in
  running_processes busy_world = [(app_dir, app_record); (bot_dir, bot_record)]
  /\ RunState.auto_restart bot_record = true
  /\ swept.1 = Ok tt
  /\ dict_get app_dir (running_processes swept.2) = None
  /\ dict_get bot_dir (running_processes swept.2) = Some bot_record
  /\ elements (alive swept.2) = [1%nat]
  /\ next_pid swept.2 = next_pid busy_world
  /\ ~ In (Terminated 1) (trace swept.2)
  /\ (forall t, ~ In (Delivered (send_message 60 t)) (trace swept.2))
  /\ In (Refused (send_message 50 (FailedToRestart (py "app"))))
       (trace swept.2)
  /\ exists rs,
       dict_get bot_dir
         (running_processes (global_restart_pass calm busy_world).2) = Some rs
       /\ RunState.processes rs = [3%nat].
Proof.
  set (out := global_restart_pass chat_50_blocked busy_world).
  vm_compute in out. subst out. cbv zeta.
  split; [reflexivity|]. split; [reflexivity|]. split; [reflexivity|].
  split; [reflexivity|]. split; [reflexivity|].
  split; [vm_compute; reflexivity|]. split; [reflexivity|].
  split.
  { cbn [snd trace]. intros H.
    repeat (destruct H as [H|H]; [discriminate H|]). exact H. }
  split.
  { cbn [snd trace]. intros t H.
    repeat (destruct H as [H|H]; [discriminate H|]). exact H. }
  split.
  { cbn [snd trace]. vm_compute. tauto. }
  eexists. split; vm_compute; reflexivity.
Qed.


(** ** The theorems at concrete inputs *)

Lemma never_running_and_paused_witness :
  reachable run_then_paused
  /\ ~ (dict_in app_dir (running_processes run_then_paused) = true
        /\ dict_in app_dir (paused_processes run_then_paused) = true).
Proof.
  assert (reachable run_then_paused) as H.
  { unfold run_then_paused.
    apply reachable_step, reachable_step, reachable_init; reflexivity. }
  split; [exact H|].
  exact (never_running_and_paused run_then_paused app_dir H).
Defined.

Lemma run_project_without_main_files_witness :
  unresolved app_dir 50 fresh_world
  /\ (run_project calm app_dir 50 None true fresh_world).1 = Ok false
  /\ running_processes (run_project calm app_dir 50 None true fresh_world).2
     = [].
Proof.
  split; [exact I|].
  destruct (run_project_without_main_files calm app_dir 50 None true
              fresh_world I) as (Hr & _ & _ & _ & Hok & _).
  split; [|exact Hr].
  apply Hok. exists 0%nat. split; [lia|reflexivity].
Defined.




Lemma error_handler_gives_up_witness :
  let w1 := (lost_notice fresh_world).2 in
  let w2 := (lost_notice (before_retry w1)).2 in
  let w3 := (lost_notice (before_retry w2)).2 in
  lost_notice fresh_world = (Raise ApiError, w1)
  /\ lost_notice (before_retry w1) = (Raise ApiError, w2)
  /\ lost_notice (before_retry w2) = (Raise ApiError, w3)
  /\ error_handler lost_notice fresh_world = (Raise ApiError, given_up w3).
Proof.
  cbv zeta. split; [reflexivity|]. split; [reflexivity|].
  split; [reflexivity|].
  exact (proj1 (error_handler_gives_up lost_notice fresh_world
                  ApiError _ ApiError _ ApiError _
                  eq_refl eq_refl eq_refl)).
Defined.


(** * The users *)

Lemma same_users_refl w : same_users w w.
Proof. by split. Qed.

Lemma same_users_trans w1 w2 w3 :
  same_users w1 w2 -> same_users w2 w3 -> same_users w1 w3.
Proof. intros [? ?] [? ?]. split; congruence. Qed.

Lemma same_users_emit w ev : same_users w (emit ev w).
Proof. by split. Qed.

Lemma same_users_bot env call : keeps same_users (bot env call).
Proof.
  intros w. unfold bot. by destruct (gateway_ok env (gateway_calls w) call).
Qed.

(** X1. [list_users] returns, without changing anything, a list without
    duplicates of exactly the identifiers that [is_allowed] accepts;
    after [UserManager.__init__] and any calls of [add_user] and
    [remove_user] it contains every administrator. *)
Theorem list_users_lists_the_allowed w :
  exists users,
    list_users w = (Ok users, w)
    /\ NoDup users
    /\ (forall user_id, user_id ∈ users <-> is_allowed user_id w = (Ok true, w))
    /\ (users_reachable w -> forall admin, admin ∈ ADMIN_IDS -> admin ∈ users).
Proof.
  exists (elements (allowed_users w)).
  split; [reflexivity|]. split; [apply NoDup_elements|]. split.
  - intros user_id. rewrite elem_of_elements.
    unfold is_allowed. rewrite bind_gets. unfold ret.
    split.
    + intros Hin. by rewrite bool_decide_eq_true_2.
    + intros [= H]. by apply bool_decide_eq_true_1 in H.
  - intros Hreach admin Hadmin. rewrite elem_of_elements.
    apply (admins_stay_allowed w Hreach). by apply elem_of_list_to_set.
Qed.

Lemma UserManager_init_run w :
  exists w',
    UserManager_init w = (Ok tt, w')
    /\ allowed_users w' =
         match allowed_users_file w with
         | Stored data => list_to_set ADMIN_IDS ∪ list_to_set data
         | _ => list_to_set ADMIN_IDS
         end
    /\ allowed_users_file w' = allowed_users_file w.
Proof.
  unfold UserManager_init. rewrite bind_modify.
  unfold load_allowed_users, try_except. rewrite bind_gets.
  cbn [allowed_users_file set_allowed_users].
  destruct (allowed_users_file w) eqn:Hfile.
  - eexists. split; [reflexivity|]. simpl. by rewrite ?Hfile.
  - eexists. split; [reflexivity|]. simpl. by rewrite ?Hfile.
  - eexists. split; [reflexivity|]. simpl. by rewrite ?Hfile.
Qed.

(** X2. [UserManager.__init__] never raises and leaves the file as it
    is.  With no file, exactly the administrators are allowed and
    nothing is logged; with an unreadable file, exactly the
    administrators are allowed and the error is logged; with a stored
    list, the allowed users are the administrators and the users of the
    list. *)
Theorem UserManager_init_reads_the_file w :
  exists w',
    UserManager_init w = (Ok tt, w')
    /\ allowed_users_file w' = allowed_users_file w
    /\ (allowed_users_file w = Absent ->
        allowed_users w' = list_to_set ADMIN_IDS /\ trace w' = trace w)
    /\ (allowed_users_file w = Corrupt ->
        allowed_users w' = list_to_set ADMIN_IDS
        /\ trace w' = trace w ++ [Logged ERROR "Error loading allowed users"])
    /\ (forall data, allowed_users_file w = Stored data ->
        forall user_id,
          user_id ∈ allowed_users w'
          <-> user_id ∈ ADMIN_IDS \/ user_id ∈ data).
Proof.
  destruct (UserManager_init_run w) as (w' & Hrun & Hall & Hfile).
  exists w'. split; [done|]. split; [done|].
  unfold UserManager_init in Hrun. rewrite bind_modify in Hrun.
  unfold load_allowed_users, try_except in Hrun. rewrite bind_gets in Hrun.
  cbn [allowed_users_file set_allowed_users] in Hrun.
  split; [|split].
  - intros Habs. rewrite Habs in Hall, Hrun. split; [done|].
    injection Hrun as <-. done.
  - intros Hcor. rewrite Hcor in Hall, Hrun. split; [done|].
    injection Hrun as <-. done.
  - intros data Hdata user_id. rewrite Hall, Hdata.
    rewrite elem_of_union, !elem_of_list_to_set. done.
Qed.

(** X3. For an identifier that is no administrator, [add_user] makes it
    allowed, and a [remove_user] that follows returns [True] and leaves
    the set that was there before [add_user], without that identifier
    (so exactly that set, when the identifier was not in it); the
    identifier is no longer allowed. *)
Theorem add_then_remove_user env user_id w :
  user_id ∉ ADMIN_IDS ->
  let added := (add_user env user_id w).2 in
  let removed := remove_user env user_id added in
  is_allowed user_id added = (Ok true, added)
  /\ removed.1 = Ok true
  /\ allowed_users removed.2 = allowed_users w ∖ {[user_id]}
  /\ (user_id ∉ allowed_users w -> allowed_users removed.2 = allowed_users w)
  /\ is_allowed user_id removed.2 = (Ok false, removed.2).
Proof.
  intros Hadmin added removed.
  assert (allowed_users added = allowed_users w ∪ {[user_id]}) as Hadded
    by apply add_user_allowed.
  assert (user_id ∈ allowed_users added) as Hin by (rewrite Hadded; set_solver).
  assert (allowed_users removed.2 = allowed_users w ∖ {[user_id]}) as Hrem.
  { subst removed. rewrite (remove_user_present env user_id added Hin Hadmin).
    cbn [snd]. rewrite save_allowed_users_allowed.
    cbn [allowed_users set_allowed_users]. rewrite Hadded.
    apply set_eq. intros x. set_solver. }
  split.
  { unfold is_allowed. rewrite bind_gets. unfold ret.
    by rewrite bool_decide_eq_true_2. }
  split.
  { subst removed. by rewrite (remove_user_present env user_id added Hin Hadmin). }
  split; [done|]. split.
  { intros Hnot. rewrite Hrem. apply set_eq. intros x. set_solver. }
  unfold is_allowed. rewrite bind_gets. unfold ret.
  rewrite bool_decide_eq_false_2; [done|]. rewrite Hrem. set_solver.
Qed.

(** X4. When the administrators are allowed: if the write of the file
    succeeds, a new [UserManager.__init__] after [add_user] finds the
    same set of users; if the write fails and there is no file, only the
    administrators are allowed after a new [UserManager.__init__], so
    that a user who is no administrator is allowed before the restart
    and not after it. *)
Theorem allowed_users_across_a_restart env user_id w :
  list_to_set ADMIN_IDS ⊆ allowed_users w ->
  let added := (add_user env user_id w).2 in
  let restarted := (UserManager_init added).2 in
  (write_ok env ALLOWED_USERS_FILE = true ->
   allowed_users restarted = allowed_users added)
  /\ (write_ok env ALLOWED_USERS_FILE = false ->
      allowed_users_file w = Absent ->
      allowed_users restarted = list_to_set ADMIN_IDS
      /\ (user_id ∉ ADMIN_IDS ->
          is_allowed user_id added = (Ok true, added)
          /\ is_allowed user_id restarted = (Ok false, restarted))).
Proof.
  intros Hadm added restarted.
  destruct (UserManager_init_run added) as (w' & Hrun & Hall & _).
  assert (restarted = w') as -> by (subst restarted; by rewrite Hrun).
  assert (allowed_users added = allowed_users w ∪ {[user_id]}) as Hadded
    by apply add_user_allowed.
  assert (added = (save_allowed_users env
                     (set_allowed_users (fun s => s ∪ {[user_id]}) w)).2)
    as Hadd.
  { subst added. unfold add_user. by rewrite bind_modify. }
  rewrite save_allowed_users_run in Hadd. cbn [snd] in Hadd.
  split.
  - intros Hok. rewrite Hok in Hadd. rewrite Hall.
    assert (allowed_users_file added
            = Stored (elements (allowed_users w ∪ {[user_id]}))) as ->
      by (rewrite Hadd; reflexivity).
    rewrite Hadded, list_to_set_elements_L. set_solver.
  - intros Hno Habs. rewrite Hno in Hadd. rewrite Hall.
    assert (allowed_users_file added = Absent) as ->
      by (rewrite Hadd; exact Habs).
    split; [done|]. intros Hnot. split.
    + unfold is_allowed. rewrite bind_gets. unfold ret.
      rewrite bool_decide_eq_true_2; [done|]. rewrite Hadded. set_solver.
    + unfold is_allowed. rewrite bind_gets. unfold ret.
      rewrite bool_decide_eq_false_2; [done|]. rewrite Hall.
      assert (allowed_users_file added = Absent) as ->
        by (rewrite Hadd; exact Habs).
      by rewrite elem_of_list_to_set.
Qed.

(** * A message sent with retries *)

Lemma bot_run env call w :
  exists w1,
    bot env call w
    = (if gateway_ok env (gateway_calls w) call then Ok tt
       else Raise ApiError, w1)
    /\ gateway_calls w1 = S (gateway_calls w).
Proof.
  unfold bot. destruct (gateway_ok env (gateway_calls w) call);
    eexists; split; reflexivity.
Qed.

(** An operation that makes one call of the gateway and fails exactly
    when the call is refused, under the decorator. *)
Lemma three_attempts {A} env (m : M A) call (a : A) :
  (forall w, exists w1,
     m w = (if gateway_ok env (gateway_calls w) call then Ok a
            else Raise ApiError, w1)
     /\ gateway_calls w1 = S (gateway_calls w)) ->
  forall w,
    let out := error_handler m w in
    (forall k, (k < 3)%nat ->
       gateway_ok env (gateway_calls w + k) call = true ->
       (forall i, (i < k)%nat ->
          gateway_ok env (gateway_calls w + i) call = false) ->
       out.1 = Ok a /\ gateway_calls out.2 = (gateway_calls w + k + 1)%nat)
    /\ ((forall i, (i < 3)%nat ->
           gateway_ok env (gateway_calls w + i) call = false) ->
        out.1 = Raise ApiError
        /\ gateway_calls out.2 = (gateway_calls w + 3)%nat).
Proof.
  intros Hm w out. subst out. unfold error_handler.
  destruct (Hm w) as (w1 & Hrun1 & Hc1).
  destruct (Hm (before_retry w1)) as (w2 & Hrun2 & Hc2).
  destruct (Hm (before_retry w2)) as (w3 & Hrun3 & Hc3).
  change (gateway_calls (before_retry w1)) with (gateway_calls w1)
    in Hc2, Hrun2.
  change (gateway_calls (before_retry w2)) with (gateway_calls w2)
    in Hc3, Hrun3.
  rewrite Hc1 in Hc2, Hrun2. rewrite Hc2 in Hc3, Hrun3.
  replace (gateway_calls w) with (gateway_calls w + 0)%nat in Hrun1 at 1
    by lia.
  replace (S (gateway_calls w)) with (gateway_calls w + 1)%nat in Hrun2
    by lia.
  replace (S (S (gateway_calls w))) with (gateway_calls w + 2)%nat in Hrun3
    by lia.
  destruct (gateway_ok env (gateway_calls w + 0) call) eqn:G0.
  { rewrite (wrapper_from_ok _ _ _ _ _ Hrun1). cbn [fst snd]. split.
    - intros k Hk Hok Hbefore.
      destruct k as [|k]; [split; [done|lia]|].
      rewrite (Hbefore 0%nat) in G0 by lia. done.
    - intros Hall. rewrite Hall in G0 by lia. done. }
  rewrite (wrapper_from_retry _ _ _ _ _ Hrun1).
  destruct (gateway_ok env (gateway_calls w + 1) call) eqn:G1.
  { rewrite (wrapper_from_ok _ _ _ _ _ Hrun2). cbn [fst snd]. split.
    - intros k Hk Hok Hbefore.
      destruct k as [|[|k]].
      + congruence.
      + split; [done|lia].
      + rewrite (Hbefore 1%nat) in G1 by lia. done.
    - intros Hall. rewrite Hall in G1 by lia. done. }
  rewrite (wrapper_from_retry _ _ _ _ _ Hrun2).
  destruct (gateway_ok env (gateway_calls w + 2) call) eqn:G2.
  { rewrite (wrapper_from_ok _ _ _ _ _ Hrun3). cbn [fst snd]. split.
    - intros k Hk Hok Hbefore.
      assert (k = 0 \/ k = 1 \/ k = 2)%nat as [->|[->| ->]] by lia.
      + congruence.
      + congruence.
      + split; [done|lia].
    - intros Hall. rewrite Hall in G2 by lia. done. }
  rewrite (wrapper_from_last _ _ _ _ Hrun3). cbn [fst snd]. split.
  - intros k Hk Hok Hbefore.
    assert (k = 0 \/ k = 1 \/ k = 2)%nat as [->|[->| ->]] by lia; congruence.
  - intros _. split; [done|]. unfold given_up. cbn. lia.
Qed.

(** X5. [send_message_safe] calls the gateway until a call is accepted,
    at most three times: when the call number [k] (counted from 0, [k <
    3]) is the first accepted one, it returns after [k + 1] calls, and
    when three calls are refused it raises the error of the gateway
    after these three calls.  It changes neither the registries, the
    stored projects, the sessions, the processes nor the users. *)
Theorem send_message_safe_tries_three_times env chat_id text w :
  let call := send_message chat_id text in
  let out := send_message_safe env chat_id text w in
  still w out.2
  /\ same_users w out.2
  /\ (forall k, (k < 3)%nat ->
        gateway_ok env (gateway_calls w + k) call = true ->
        (forall i, (i < k)%nat ->
           gateway_ok env (gateway_calls w + i) call = false) ->
        out.1 = Ok tt /\ gateway_calls out.2 = (gateway_calls w + k + 1)%nat)
  /\ ((forall i, (i < 3)%nat ->
         gateway_ok env (gateway_calls w + i) call = false) ->
      out.1 = Raise ApiError
      /\ gateway_calls out.2 = (gateway_calls w + 3)%nat).
Proof.
  intros call out. subst out. unfold send_message_safe.
  split.
  { apply (keeps_wrapper still still_trans); [apply still_emit|].
    apply keeps_bot. }
  split.
  { apply (keeps_wrapper same_users same_users_trans);
      [apply same_users_emit|apply same_users_bot]. }
  apply (three_attempts env (bot env call) call tt). apply bot_run.
Qed.

Lemma send_message_safe_tries_three_times_witness :
  (send_message_safe chat_50_blocked 60 CheckLogs fresh_world).1 = Ok tt
  /\ gateway_calls
       (send_message_safe chat_50_blocked 60 CheckLogs fresh_world).2 = 1%nat
  /\ (send_message_safe chat_50_blocked 50 CheckLogs fresh_world).1
     = Raise ApiError
  /\ gateway_calls
       (send_message_safe chat_50_blocked 50 CheckLogs fresh_world).2 = 3%nat.
Proof.
  destruct (send_message_safe_tries_three_times chat_50_blocked 60 CheckLogs
              fresh_world) as (_ & _ & Hok & _).
  destruct (send_message_safe_tries_three_times chat_50_blocked 50 CheckLogs
              fresh_world) as (_ & _ & _ & Hno).
  destruct (Hok 0%nat) as [H1 H2]; [lia|reflexivity|intros i Hi; lia|].
  destruct Hno as [H3 H4]; [intros i Hi; reflexivity|].
  split; [exact H1|]. split; [exact H2|]. split; [exact H3|exact H4].
Defined.

(** * The commands of the administrators *)

Section commands.
Variable env : Env.
Variable int : str -> option Z.

Lemma try_after_value {A B} (m : M A) (rest : A -> M B) h w a wa :
  m w = (Ok a, wa) ->
  keeps same_users (rest a) ->
  (forall e, keeps same_users (h e)) ->
  same_users wa (try_except (m ≫= rest) h w).2.
Proof.
  intros Hm Hrest Hh. unfold try_except. rewrite (bind_ok _ _ _ _ _ Hm).
  specialize (Hrest wa). destruct (rest a wa) as [[b|e] w2]; [done|].
  eapply same_users_trans; [exact Hrest|apply Hh].
Qed.

Lemma try_after {A} (m : M unit) (rest : M A) h w wa :
  m w = (Ok tt, wa) ->
  keeps same_users rest ->
  (forall e, keeps same_users (h e)) ->
  same_users wa (try_except (m;; rest) h w).2.
Proof.
  intros Hm Hrest Hh. unfold try_except. rewrite (bind_ok _ _ _ _ _ Hm).
  specialize (Hrest wa). destruct (rest wa) as [[a|e] w2]; [done|].
  eapply same_users_trans; [exact Hrest|apply Hh].
Qed.

Lemma add_user_run user_id w :
  exists wa,
    add_user env user_id w = (Ok tt, wa)
    /\ allowed_users wa = allowed_users w ∪ {[user_id]}.
Proof.
  exists (add_user env user_id w).2. split.
  - unfold add_user. rewrite bind_modify, save_allowed_users_run. done.
  - apply add_user_allowed.
Qed.

Lemma keeps_users_logger level what : keeps same_users (logger level what).
Proof. intros w. apply same_users_emit. Qed.

Lemma stranger_add message w :
  from_user message ∉ ADMIN_IDS ->
  add_user_command env int message w
  = send_message_safe env (chat message) (Progress "Admins only") w.
Proof.
  intros Hno. unfold add_user_command, add_user_command_body.
  by rewrite bool_decide_eq_false_2.
Qed.

Lemma stranger_remove message w :
  from_user message ∉ ADMIN_IDS ->
  remove_user_command env int message w
  = send_message_safe env (chat message) (Progress "Admins only") w.
Proof.
  intros Hno. unfold remove_user_command, remove_user_command_body.
  by rewrite bool_decide_eq_false_2.
Qed.
End commands.

(** X6. [/adduser] and [/removeuser] sent by someone who is no
    administrator do nothing but send, with the retries of the
    decorator, the notice that the command is for administrators: the
    set of the allowed users and its file are unchanged, whatever the
    text of the command. *)
Theorem commands_of_a_stranger env int message w :
  from_user message ∉ ADMIN_IDS ->
  let refusal :=
    send_message_safe env (chat message) (Progress "Admins only") w in
  add_user_command env int message w = refusal
  /\ remove_user_command env int message w = refusal
  /\ same_users w refusal.2.
Proof.
  intros Hno refusal.
  split; [by apply stranger_add|]. split; [by apply stranger_remove|].
  subst refusal. unfold send_message_safe, error_handler.
  apply (keeps_wrapper same_users same_users_trans);
    [apply same_users_emit|apply same_users_bot].
Qed.

Lemma commands_of_a_stranger_witness :
  (7 ∉ ADMIN_IDS)
  /\ allowed_users (add_user_command calm decimal stranger_adds_8
                      fresh_world).2
     = allowed_users fresh_world.
Proof.
  assert (from_user stranger_adds_8 ∉ ADMIN_IDS) as Hno.
  { unfold ADMIN_IDS. intros H%list_elem_of_In. simpl in H.
    destruct H as [H|[]]. discriminate H. }
  split; [exact Hno|].
  destruct (commands_of_a_stranger calm decimal stranger_adds_8 fresh_world
              Hno) as (Hadd & _ & Hsame & _).
  rewrite Hadd. exact Hsame.
Defined.

(** X7. [/adduser] sent by an administrator.  When the second word of
    the text is read as the integer [user_id], that user is allowed
    afterwards and the set is otherwise the same, whatever the gateway
    does (also when the replies fail and the decorator runs the command
    again); the file holds the set when the write succeeds; the handler
    returns when the confirmation is accepted.  When there is no second
    word, or it is not read as an integer, the set and its file are
    unchanged. *)
Theorem add_user_command_of_an_admin env int message w :
  from_user message ∈ ADMIN_IDS ->
  let out := add_user_command env int message w in
  (forall user_id,
     command_argument int message = Some user_id ->
     allowed_users out.2 = allowed_users w ∪ {[user_id]}
     /\ (write_ok env ALLOWED_USERS_FILE = true ->
         allowed_users_file out.2 = Stored (elements (allowed_users out.2)))
     /\ (gateway_ok env (gateway_calls w)
           (send_message (chat message) (Progress "Added user")) = true ->
         out.1 = Ok tt))
  /\ (command_argument int message = None -> same_users w out.2).
Proof.
  intros Hadmin out. subst out.
  unfold add_user_command, error_handler. split.
  - intros user_id Harg.
    set (target := allowed_users w ∪ {[user_id]}).
    pose (I := fun w' : World =>
           allowed_users w' = allowed_users w \/ allowed_users w' = target).
    pose (P := fun w' : World =>
           allowed_users w' = target
           /\ (write_ok env ALLOWED_USERS_FILE = true ->
               allowed_users_file w' = Stored (elements target))).
    assert (wp (wrapper_from 2 (add_user_command_body env int message))
              (fun res w' => I w' /\ P w') w) as Hdone.
    { eapply wp_mono;
        [apply (fun a b c => wrapper_from_wp I (fun _ => P) (fun _ => P)
                               (add_user_command_body env int message)
                               a b c 2%nat w)
        |intros res w' [H1 H2]; split; [done|]; by destruct res].
      - intros w' ev H'. exact H'.
      - intros e w' ev H'. exact H'.
      - intros w' H'. unfold wp.
        unfold add_user_command_body.
        rewrite bool_decide_eq_true_2 by done. cbn [negb]. rewrite Harg.
        destruct (add_user_run env user_id w') as (wa & Hrun & Hall).
        assert (allowed_users wa = target) as Htarget.
        { rewrite Hall. subst target. destruct H' as [->| ->]; set_solver. }
        assert (write_ok env ALLOWED_USERS_FILE = true ->
                allowed_users_file wa = Stored (elements target)) as Hfile.
        { intros Hok. unfold add_user in Hrun.
          rewrite bind_modify, save_allowed_users_run, Hok in Hrun.
          injection Hrun as <-.
          cbn [allowed_users_file set_allowed_users_file allowed_users
               set_allowed_users].
          cbn [allowed_users set_allowed_users] in Hall.
          by rewrite <-Htarget, Hall. }
        pose proof (try_after
                      (add_user env user_id)
                      (bot env (send_message (chat message)
                                  (Progress "Added user"));;
                       logger INFO "Added new user")
                      (fun _ => bot env (send_message (chat message)
                                           (Progress "Error")))
                      w' wa Hrun) as [Ha Hf].
        { apply keeps_bind; [apply same_users_trans|apply same_users_bot|].
          intros _. apply keeps_users_logger. }
        { intros _. apply same_users_bot. }
        assert (P (try_except
                     (add_user env user_id;;
                      bot env (send_message (chat message)
                                 (Progress "Added user"));;
                      logger INFO "Added new user")
                     (fun _ => bot env (send_message (chat message)
                                          (Progress "Error"))) w').2) as HP.
        { split; [by rewrite Ha|]. intros Hok. rewrite Hf. by apply Hfile. }
        split; [right; apply HP|]. by destruct (try_except _ _ w').1.
      - by left. }
    destruct Hdone as [_ [Hall Hfile]]. split; [done|]. split.
    { intros Hok. rewrite Hall. by apply Hfile. }
    intros Hgate.
    assert ((add_user_command_body env int message w).1 = Ok tt) as Hfst.
    { unfold add_user_command_body.
      rewrite bool_decide_eq_true_2 by done. cbn [negb]. rewrite Harg.
      destruct (add_user_run env user_id w) as (wa & Hrun & Ha).
      unfold try_except. rewrite (bind_ok _ _ _ _ _ Hrun).
      assert (gateway_calls wa = gateway_calls w) as Hcalls.
      { unfold add_user in Hrun.
        rewrite bind_modify, save_allowed_users_run in Hrun.
        injection Hrun as <-.
        by destruct (write_ok env ALLOWED_USERS_FILE). }
      destruct (bot_run env (send_message (chat message)
                               (Progress "Added user")) wa)
        as (wb & Hb & _).
      rewrite Hcalls, Hgate in Hb. by rewrite (bind_ok _ _ _ _ _ Hb). }
    destruct (add_user_command_body env int message w) as [r wx] eqn:Hrun.
    cbn [fst] in Hfst. subst r.
    by rewrite (wrapper_from_ok _ _ _ _ _ Hrun).
  - intros Harg.
    apply (keeps_wrapper same_users same_users_trans);
      [apply same_users_emit|].
    intros w'. unfold add_user_command_body.
    rewrite bool_decide_eq_true_2 by done. cbn [negb]. rewrite Harg.
    apply same_users_bot.
Qed.

Lemma admin_is_admin : 7761577562 ∈ ADMIN_IDS.
Proof. unfold ADMIN_IDS. apply list_elem_of_In. simpl. by left. Qed.

Lemma seven_is_no_admin : 7 ∉ ADMIN_IDS.
Proof.
  unfold ADMIN_IDS. intros H%list_elem_of_In. simpl in H.
  destruct H as [H|[]]. discriminate H.
Qed.

Lemma add_user_command_of_an_admin_witness :
  from_user admin_adds_7 ∈ ADMIN_IDS
  /\ command_argument decimal admin_adds_7 = Some 7
  /\ allowed_users (add_user_command gateway_down decimal admin_adds_7
                      fresh_world).2
     = allowed_users fresh_world ∪ {[7]}.
Proof.
  split; [exact admin_is_admin|]. split; [reflexivity|].
  destruct (add_user_command_of_an_admin gateway_down decimal admin_adds_7
              fresh_world admin_is_admin) as [Hsome _].
  exact (proj1 (Hsome 7 eq_refl)).
Defined.

Section removing.
Variable env : Env.

Lemma remove_user_run user_id w :
  exists removed wr,
    remove_user env user_id w = (Ok removed, wr)
    /\ allowed_users wr
       = (if bool_decide (user_id ∈ ADMIN_IDS) then allowed_users w
          else allowed_users w ∖ {[user_id]}).
Proof.
  destruct (decide (user_id ∈ ADMIN_IDS)) as [Hadmin|Hadmin].
  - exists false, w. split; [by apply remove_user_admin|].
    by rewrite bool_decide_eq_true_2.
  - rewrite bool_decide_eq_false_2 by done.
    destruct (decide (user_id ∈ allowed_users w)) as [Hin|Hin].
    + eexists true, _. split; [by apply remove_user_present|].
      cbn [snd]. by rewrite save_allowed_users_allowed.
    + exists false, w. split; [by apply remove_user_absent|].
      apply set_eq. intros x. set_solver.
Qed.
End removing.

(** X8. [/removeuser] sent by an administrator with an integer argument:
    whatever the gateway does, the set afterwards is the set before
    without that user, unless the user is an administrator, in which
    case the set is unchanged. *)
Theorem remove_user_command_of_an_admin env int message w user_id :
  from_user message ∈ ADMIN_IDS ->
  command_argument int message = Some user_id ->
  let out := remove_user_command env int message w in
  (user_id ∈ ADMIN_IDS -> allowed_users out.2 = allowed_users w)
  /\ (user_id ∉ ADMIN_IDS ->
      allowed_users out.2 = allowed_users w ∖ {[user_id]}).
Proof.
  intros Hadmin Harg out. subst out.
  set (target := if bool_decide (user_id ∈ ADMIN_IDS) then allowed_users w
                 else allowed_users w ∖ {[user_id]}).
  assert (allowed_users (remove_user_command env int message w).2 = target)
    as Hdone.
  { pose (I := fun w' : World =>
             allowed_users w' = allowed_users w \/ allowed_users w' = target).
    pose (P := fun w' : World => allowed_users w' = target).
    assert (wp (wrapper_from 2 (remove_user_command_body env int message))
              (fun res w' => I w' /\ P w') w) as Hwp.
    { eapply wp_mono;
        [apply (fun a b c => wrapper_from_wp I (fun _ => P) (fun _ => P)
                               (remove_user_command_body env int message)
                               a b c 2%nat w)
        |intros res w' [H1 H2]; split; [done|]; by destruct res].
      - intros w' ev H'. exact H'.
      - intros e w' ev H'. exact H'.
      - intros w' H'. unfold wp.
        unfold remove_user_command_body.
        rewrite bool_decide_eq_true_2 by done. cbn [negb]. rewrite Harg.
        destruct (remove_user_run env user_id w') as (removed & wr & Hrun & Hall).
        assert (allowed_users wr = target) as Htarget.
        { rewrite Hall. subst target.
          destruct (bool_decide (user_id ∈ ADMIN_IDS)).
          - by destruct H' as [->| ->].
          - destruct H' as [->| ->]; [done|]. apply set_eq. intros x.
            set_solver. }
        assert (P (try_except
                     (removed ← remove_user env user_id;
                      if (removed : bool)
                      then
                        bot env (send_message (chat message)
                                   (Progress "Removed user"));;
                        logger INFO "Removed user"
                      else
                        bot env (send_message (chat message)
                                   (Progress "Cannot remove primary admins")))
                     (fun _ => bot env (send_message (chat message)
                                          (Progress "Error"))) w').2) as HP.
        { unfold P.
          destruct (try_after_value
                      (remove_user env user_id)
                      (fun removed : bool =>
                         if removed
                         then
                           bot env (send_message (chat message)
                                      (Progress "Removed user"));;
                           logger INFO "Removed user"
                         else
                           bot env (send_message (chat message)
                                      (Progress
                                         "Cannot remove primary admins")))
                      (fun _ => bot env (send_message (chat message)
                                           (Progress "Error")))
                      w' removed wr Hrun) as [Ha _].
          - destruct removed; [|apply same_users_bot].
            apply keeps_bind; [apply same_users_trans|apply same_users_bot|].
            intros _. apply keeps_users_logger.
          - intros _. apply same_users_bot.
          - by rewrite Ha. }
        split; [right; apply HP|]. by destruct (try_except _ _ w').1.
      - by left. }
    by destruct Hwp as [_ HP]. }
  unfold remove_user_command, error_handler in *. split.
  - intros Hin. rewrite Hdone. subst target.
    by rewrite bool_decide_eq_true_2.
  - intros Hnot. rewrite Hdone. subst target.
    by rewrite bool_decide_eq_false_2.
Qed.

Lemma remove_user_command_of_an_admin_witness :
  from_user admin_removes_7 ∈ ADMIN_IDS
  /\ command_argument decimal admin_removes_7 = Some 7
  /\ allowed_users
       (remove_user_command gateway_down decimal admin_removes_7
          (add_user calm 7 fresh_world).2).2
     = allowed_users (add_user calm 7 fresh_world).2 ∖ {[7]}.
Proof.
  split; [exact admin_is_admin|]. split; [reflexivity|].
  destruct (remove_user_command_of_an_admin gateway_down decimal
              admin_removes_7 (add_user calm 7 fresh_world).2 7
              admin_is_admin eq_refl) as [_ Hrem].
  exact (Hrem seven_is_no_admin).
Defined.

(** * Stopping and starting, whatever the host does *)

(** X9. Whatever the host does and whatever [stop_project] returns or
    raises, afterwards the project is not in [running_processes]; if it
    was running, none of its processes is alive and its entry in
    [paused_processes] is its record with [pause], and as before
    without; the entries of the other projects in both registries are
    the same; no process was started, and the stored projects and the
    sessions are unchanged. *)
Theorem stop_project_always_stops env project_dir chat_id pause w :
  let out := stop_project env project_dir chat_id pause w in
  dict_get project_dir (running_processes out.2) = None
  /\ (forall process_info,
        dict_get project_dir (running_processes w) = Some process_info ->
        (forall p, In p (RunState.processes process_info) -> p ∉ alive out.2)
        /\ dict_get project_dir (paused_processes out.2)
           = (if pause then Some process_info
              else dict_get project_dir (paused_processes w)))
  /\ (forall other,
        other <> project_dir ->
        dict_get other (running_processes out.2)
        = dict_get other (running_processes w)
        /\ dict_get other (paused_processes out.2)
           = dict_get other (paused_processes w))
  /\ next_pid out.2 = next_pid w
  /\ alive out.2 ⊆ alive w
  /\ user_projects out.2 = user_projects w
  /\ waiting_for_main_file out.2 = waiting_for_main_file w.
Proof.
  intros out. subst out.
  destruct (stop_project_effect env project_dir chat_id pause w)
    as (Hpid & _ & Hup & Hwait & Halive & Hrun & Hpau & Hdead).
  split; [rewrite Hrun; apply dict_get_del_eq|].
  split.
  { intros process_info Hget. split; [by apply Hdead|].
    rewrite Hpau, Hget. destruct pause; [apply dict_get_set_eq|done]. }
  split.
  { intros other Hne. split.
    - rewrite Hrun. by apply dict_get_del_ne.
    - rewrite Hpau. destruct (dict_get project_dir (running_processes w));
        [|done].
      destruct pause; [|done]. by apply dict_get_set_ne. }
  done.
Qed.

(** X10. [stop_project] on a project that is not running changes nothing
    in the manager and starts no process; it sends the notice that no
    such project runs, up to three times, returns [False] once a call is
    accepted and raises when all three are refused. *)
Theorem stop_project_of_a_project_not_running env project_dir chat_id pause w :
  dict_get project_dir (running_processes w) = None ->
  let call := send_message chat_id NoRunningProject in
  let out := stop_project env project_dir chat_id pause w in
  still w out.2
  /\ (forall k, (k < 3)%nat ->
        gateway_ok env (gateway_calls w + k) call = true ->
        (forall i, (i < k)%nat ->
           gateway_ok env (gateway_calls w + i) call = false) ->
        out.1 = Ok false /\ gateway_calls out.2 = (gateway_calls w + k + 1)%nat)
  /\ ((forall i, (i < 3)%nat ->
         gateway_ok env (gateway_calls w + i) call = false) ->
      out.1 = Raise ApiError).
Proof.
  intros Hnone call out.
  assert (out = error_handler (bot env call;; ret false) w) as ->.
  { subst out. unfold stop_project, error_handler.
    apply (wrapper_from_ext
             (fun w' => running_processes w' = running_processes w));
      [done| | |done].
    - intros w' Hw'. unfold stop_project_body.
      by rewrite bind_gets, Hw', Hnone.
    - intros w' Hw'. rewrite <-Hw'.
      assert (keeps still (bot env call;; ret false)) as Hk.
      { apply keeps_bind; [apply still_trans|apply keeps_bot|].
        intros _. apply keeps_ret, still_refl. }
      by destruct (Hk w') as (((?&_)&_)&_). }
  split.
  { unfold error_handler.
    apply (keeps_wrapper still still_trans); [apply still_emit|].
    apply keeps_bind; [apply still_trans|apply keeps_bot|].
    intros _. apply keeps_ret, still_refl. }
  destruct (three_attempts env (bot env call;; ret false) call false)
    with (w := w) as [Hok Hno].
  { intros w0. destruct (bot_run env call w0) as (w1 & Hrun & Hc).
    exists w1. split; [|done]. rewrite bind_run, Hrun.
    by destruct (gateway_ok env (gateway_calls w0) call). }
  split; [exact Hok|]. intros Hall. by apply Hno.
Qed.

(** X11. Whatever the host does, [run_project] leaves the sessions and
    the entries of all other projects as they are; for its own project
    it either leaves both registries as they are, or registers in
    [running_processes] a record built by this call (at least one
    process, all started by it; the chat and [auto_restart] as given;
    the deadline from the duration) and takes the project out of
    [paused_processes].  It returns [True] only in the second case. *)
Theorem run_project_registers_or_leaves env project_dir chat_id duration_days
    auto_restart w :
  let out := run_project env project_dir chat_id duration_days auto_restart w
  in
  waiting_for_main_file out.2 = waiting_for_main_file w
  /\ (forall other,
        other <> project_dir ->
        dict_get other (running_processes out.2)
        = dict_get other (running_processes w)
        /\ dict_get other (paused_processes out.2)
           = dict_get other (paused_processes w))
  /\ ((running_processes out.2 = running_processes w
       /\ paused_processes out.2 = paused_processes w)
      \/ exists rs,
           dict_get project_dir (running_processes out.2) = Some rs
           /\ dict_get project_dir (paused_processes out.2) = None
           /\ launched_by env w out.2 duration_days auto_restart chat_id rs)
  /\ (out.1 = Ok true ->
      exists rs,
        dict_get project_dir (running_processes out.2) = Some rs
        /\ dict_get project_dir (paused_processes out.2) = None
        /\ launched_by env w out.2 duration_days auto_restart chat_id rs).
Proof.
  intros out. subst out.
  destruct (run_project_post env project_dir chat_id duration_days
              auto_restart w) as [Heff Htrue].
  split.
  { destruct Heff as [(_&_&Hw&_)|(_&_&Hw&_)]; exact Hw. }
  split.
  { intros other Hne.
    destruct Heff as [(Hr&Hp&_)|(_&_&_&rs&Hr&Hp&_)].
    - by rewrite Hr, Hp.
    - rewrite Hr, Hp. split; [by apply dict_get_set_ne|].
      by apply dict_get_del_ne. }
  split.
  { destruct Heff as [(Hr&Hp&_)|Hst]; [by left|right].
    by apply (started_lookup env project_dir chat_id duration_days
                auto_restart w). }
  intros Hok.
  by apply (started_lookup env project_dir chat_id duration_days
              auto_restart w), Htrue.
Qed.

Section missing_file.
Variable env : Env.
Variables (project_dir : str) (chat_id : Z) (duration_days : option Z)
  (auto_restart : bool).

Lemma stored_main_files_still w w' :
  still w w' ->
  stored_main_files project_dir chat_id w'
  = stored_main_files project_dir chat_id w.
Proof.
  intros ((_ & Hup) & _). unfold stored_main_files. by rewrite Hup.
Qed.

Lemma keeps_report_missing missing :
  keeps still (report_missing_files env chat_id missing).
Proof.
  unfold report_missing_files.
  apply keeps_bind; [apply still_trans|apply keeps_bot|]. intros _.
  apply keeps_bind; [apply still_trans|apply keeps_logger|]. intros _.
  apply keeps_ret, still_refl.
Qed.

Lemma run_project_body_missing w :
  List.filter (fun f => negb (path_exists env f))
    (stored_main_files project_dir chat_id w) <> [] ->
  run_project_body env project_dir chat_id duration_days auto_restart w
  = report_missing_files env chat_id
      (List.filter (fun f => negb (path_exists env f))
         (stored_main_files project_dir chat_id w)) w.
Proof.
  unfold stored_main_files, run_project_body, get_user_id_by_chat_id.
  intros Hmiss. rewrite bind_bind, bind_gets, bind_ret, !bind_gets.
  destruct (find_user_id chat_id (user_projects w)) as [u|]; [|done].
  simpl opt_get.
  destruct (dict_get u (user_projects w)) as [projects|]; [|done].
  destruct (find_main_files project_dir projects) as [|f files] eqn:Hfiles;
    [done|].
  cbn [is_nil andb]. rewrite bind_ret. cbn [is_nil].
  destruct (List.filter (fun f => negb (path_exists env f)) (f :: files))
    as [|m missing] eqn:Hfilter; [done|].
  reflexivity.
Qed.
End missing_file.

(** X12. When one of the main files stored for the project does not
    exist, [run_project] starts no process and changes nothing in the
    manager; it reports the stored main files that do not exist (that
    file among them), returns [False] once one of up to three notices is
    accepted and raises when all three are refused. *)
Theorem run_project_with_a_missing_file env project_dir chat_id duration_days
    auto_restart w file :
  In file (stored_main_files project_dir chat_id w) ->
  path_exists env file = false ->
  let missing_files :=
    List.filter (fun f => negb (path_exists env f))
      (stored_main_files project_dir chat_id w) in
  let call := send_message chat_id (MissingFiles missing_files) in
  let out := run_project env project_dir chat_id duration_days auto_restart w
  in
  In file missing_files
  /\ still w out.2
  /\ (forall k, (k < 3)%nat ->
        gateway_ok env (gateway_calls w + k) call = true ->
        (forall i, (i < k)%nat ->
           gateway_ok env (gateway_calls w + i) call = false) ->
        out.1 = Ok false)
  /\ ((forall i, (i < 3)%nat ->
         gateway_ok env (gateway_calls w + i) call = false) ->
      out.1 = Raise ApiError).
Proof.
  intros Hin Hgone missing_files call out.
  assert (In file missing_files) as Hmiss.
  { subst missing_files. apply filter_In. split; [done|]. by rewrite Hgone. }
  assert (out = error_handler (report_missing_files env chat_id missing_files)
                  w) as ->.
  { subst out. unfold run_project, error_handler.
    apply (wrapper_from_ext
             (fun w' => stored_main_files project_dir chat_id w'
                        = stored_main_files project_dir chat_id w));
      [| | |done].
    - intros w' ev Hw'. rewrite <-Hw'.
      apply stored_main_files_still, still_emit.
    - intros w' Hw'. unfold missing_files. rewrite <-Hw'.
      apply run_project_body_missing. rewrite Hw'.
      intros Hnil. unfold missing_files in Hmiss. by rewrite Hnil in Hmiss.
    - intros w' Hw'. rewrite <-Hw'.
      apply stored_main_files_still, keeps_report_missing. }
  split; [done|]. split.
  { unfold error_handler.
    apply (keeps_wrapper still still_trans); [apply still_emit|].
    apply keeps_report_missing. }
  destruct (three_attempts env
              (report_missing_files env chat_id missing_files) call false)
    with (w := w) as [Hok Hno].
  { intros w0. destruct (bot_run env call w0) as (w1 & Hrun & Hc).
    unfold report_missing_files. fold call. rewrite bind_run, Hrun.
    destruct (gateway_ok env (gateway_calls w0) call).
    - eexists. split; [reflexivity|]. exact Hc.
    - eexists. split; [reflexivity|]. exact Hc. }
  split.
  - intros k Hk Hacc Hbefore. by apply (Hok k).
  - intros Hall. by apply Hno.
Qed.

(** * The dependencies *)

Section dependencies.
Variable env : Env.

Lemma notice_false call what w :
  let m := bot env call;; logger ERROR what;; ret false in
  (m w).1 <> Ok true
  /\ (gateway_ok env (gateway_calls w) call = true -> (m w).1 = Ok false).
Proof.
  intros m. subst m. destruct (bot_run env call w) as (w1 & Hrun & _).
  rewrite bind_run, Hrun.
  destruct (gateway_ok env (gateway_calls w) call); split; done.
Qed.

Lemma install_body_fails project_dir chat_id w :
  path_exists env (os_path_join project_dir REQUIREMENTS_FILE) = true ->
  pip_install env project_dir <> PipExit 0 ->
  (install_requirements_body env project_dir chat_id w).1 <> Ok true
  /\ (gateway_up env ->
      (install_requirements_body env project_dir chat_id w).1 = Ok false).
Proof.
  intros Hreq Hpip. unfold install_requirements_body. rewrite Hreq.
  unfold try_except, logger. rewrite !bind_modify.
  destruct (pip_install env project_dir) as [rc| |] eqn:Hout.
  - assert (negb (rc =? 0) = true) as ->.
    { apply negb_true_iff, Z.eqb_neq. intros ->. done. }
    set (w1 := emit (Pip project_dir) _).
    pose proof (notice_false (send_message chat_id DepsFailed)
                  "Failed to install dependencies" w1) as [Hne Hup].
    fold (logger ERROR "Failed to install dependencies").
    destruct ((bot env (send_message chat_id DepsFailed);;
               logger ERROR "Failed to install dependencies";;
               ret false) w1) as [[b|e] w2] eqn:Hrun; cbn [fst] in *.
    + split; [done|]. intros Hgate. apply Hup, Hgate.
    + split.
      * destruct e;
          apply (notice_false _ "Error installing dependencies" w2)
          || apply (notice_false _ "Dependency installation timed out" w2).
      * intros Hgate. specialize (Hup (Hgate _ _)). done.
  - unfold raise. split.
    + apply (notice_false _ "Dependency installation timed out").
    + intros Hgate.
      apply (notice_false _ "Dependency installation timed out"), Hgate.
  - unfold raise. split.
    + apply (notice_false _ "Error installing dependencies").
    + intros Hgate.
      apply (notice_false _ "Error installing dependencies"), Hgate.
Qed.

Lemma install_requirements_returns project_dir chat_id w :
  gateway_up env ->
  exists b w1,
    install_requirements env project_dir chat_id w = (Ok b, w1)
    /\ still w w1.
Proof.
  intros Hup.
  pose proof (keeps_install_requirements env project_dir chat_id w) as Hstill.
  assert (exists b, (install_requirements env project_dir chat_id w).1 = Ok b)
    as [b Hb].
  { destruct (path_exists env (os_path_join project_dir REQUIREMENTS_FILE))
      eqn:Hreq.
    - assert (pip_install env project_dir <> PipExit 0 ->
              (install_requirements env project_dir chat_id w).1 = Ok false)
        as Hfail.
      { intros Hpip.
        destruct (install_body_fails project_dir chat_id w Hreq Hpip)
          as [_ Hfalse]. specialize (Hfalse Hup).
        destruct (install_requirements_body env project_dir chat_id w)
          as [r w1] eqn:Hrun. cbn [fst] in Hfalse. subst r.
        unfold install_requirements, error_handler.
        by rewrite (wrapper_from_ok _ _ _ _ _ Hrun). }
      destruct (pip_install env project_dir) as [rc| |] eqn:Hpip.
      + destruct (decide (rc = 0)) as [->|Hrc].
        * exists true. apply install_requirements_up. by right.
        * exists false. apply Hfail. by intros [= ->].
      + exists false. by apply Hfail.
      + exists false. by apply Hfail.
    - exists true. apply install_requirements_up. by left. }
  destruct (install_requirements env project_dir chat_id w) as [r w1].
  cbn [fst snd] in *. subst r. by exists b, w1.
Qed.
End dependencies.

(** X13. [install_requirements] never changes the manager nor starts a
    process.  Without a requirements file it returns [True] and does
    nothing at all.  With the file it runs pip: it returns [True] when
    pip exits with 0; when pip exits with another code, times out or
    cannot be run, it never returns [True], and it returns [False] when
    the gateway accepts the calls. *)
Theorem install_requirements_result env project_dir chat_id w :
  let present :=
    path_exists env (os_path_join project_dir REQUIREMENTS_FILE) in
  let out := install_requirements env project_dir chat_id w in
  still w out.2
  /\ (present = false -> out = (Ok true, w))
  /\ (present = true -> pip_install env project_dir = PipExit 0 ->
      out.1 = Ok true /\ In (Pip project_dir) (trace out.2))
  /\ (present = true -> pip_install env project_dir <> PipExit 0 ->
      out.1 <> Ok true /\ (gateway_up env -> out.1 = Ok false)).
Proof.
  intros present out. subst present out.
  split; [apply keeps_install_requirements|].
  unfold install_requirements, error_handler.
  split; [|split].
  - intros Hno. apply wrapper_from_ok.
    unfold install_requirements_body. by rewrite Hno.
  - intros Hyes Hpip.
    assert (install_requirements_body env project_dir chat_id w
            = (Ok true,
               emit (Logged INFO "Dependencies installed successfully")
                 (emit (Pip project_dir)
                    (emit (Logged INFO "Installing dependencies") w))))
      as Hrun.
    { unfold install_requirements_body. rewrite Hyes, Hpip. reflexivity. }
    rewrite (wrapper_from_ok _ _ _ _ _ Hrun). split; [done|].
    cbn [snd]. cbn. rewrite !in_app_iff. simpl. tauto.
  - intros Hyes Hpip. split.
    + assert (wp (wrapper_from 2
                    (install_requirements_body env project_dir chat_id))
                (fun res _ => True /\ res <> Ok true) w) as [_ Hne].
      { eapply wp_mono;
          [apply (fun a b c => wrapper_from_wp (fun _ => True)
                    (fun (a : bool) _ => a = false) (fun _ _ => True)
                    (install_requirements_body env project_dir chat_id)
                    a b c 2%nat w)
          |intros res w' [_ H2]; split; [done|]; destruct res; congruence];
          try done.
        intros w' _. unfold wp. split; [done|].
        destruct (install_body_fails env project_dir chat_id w' Hyes Hpip)
          as [Hne _].
        destruct (install_requirements_body env project_dir chat_id w').1
          as [[]|]; done. }
      exact Hne.
    + intros Hgate.
      destruct (install_body_fails env project_dir chat_id w Hyes Hpip)
        as [_ Hfalse]. specialize (Hfalse Hgate).
      destruct (install_requirements_body env project_dir chat_id w)
        as [r w1] eqn:Hrun. cbn [fst] in Hfalse. subst r.
      by rewrite (wrapper_from_ok _ _ _ _ _ Hrun).
Qed.

(** * The thread of the periodic restart *)

Lemma pass_never_raises env w : (global_restart_pass env w).1 = Ok tt.
Proof.
  unfold global_restart_pass, try_except.
  by destruct ((time_sleep GLOBAL_RESTART_INTERVAL;; _) w) as [[[]|e] w1].
Qed.

(** X14. No exception leaves a turn of the periodic restart, nor its
    loop: whatever the host does, [global_restart_pass] and
    [_global_restart_projects] return. *)
Theorem restart_thread_never_raises env turns w :
  (global_restart_pass env w).1 = Ok tt
  /\ (_global_restart_projects env turns w).1 = Ok tt.
Proof.
  split; [apply pass_never_raises|].
  revert w. induction turns as [|turns IH]; intros w; [done|].
  cbn [_global_restart_projects]. rewrite bind_gets.
  destruct (keep_running w); [|done].
  rewrite bind_run. pose proof (pass_never_raises env w) as Hpass.
  destruct (global_restart_pass env w) as [[[]|e] w1]; [apply IH|done].
Qed.

Lemma idle_pass env w :
  running_processes w = [] ->
  global_restart_pass env w
  = (Ok tt, emit (Slept GLOBAL_RESTART_INTERVAL) w).
Proof.
  intros Hnil. unfold global_restart_pass, try_except, time_sleep.
  rewrite bind_modify, bind_gets.
  cbn [running_processes emit set_host]. by rewrite Hnil.
Qed.

(** X15. With [keep_running] false the loop of the periodic restart ends
    at once and changes nothing.  With [keep_running] true and nothing
    running, each turn only sleeps for the interval: no message, no log,
    no change of the manager. *)
Theorem restart_loop_when_idle env turns w :
  (keep_running w = false ->
   _global_restart_projects env turns w = (Ok tt, w))
  /\ (keep_running w = true -> running_processes w = [] ->
      _global_restart_projects env turns w
      = (Ok tt, Nat.iter turns (emit (Slept GLOBAL_RESTART_INTERVAL)) w)).
Proof.
  split.
  - intros Hstop. destruct turns as [|turns]; [done|].
    cbn [_global_restart_projects]. by rewrite bind_gets, Hstop.
  - revert w. induction turns as [|turns IH]; intros w Hkeep Hnil; [done|].
    cbn [_global_restart_projects]. rewrite bind_gets, Hkeep.
    rewrite (bind_ok _ _ _ _ _ (idle_pass env w Hnil)).
    rewrite (IH (emit (Slept GLOBAL_RESTART_INTERVAL) w) Hkeep Hnil).
    f_equal. symmetry. apply Nat.iter_succ_r.
Qed.

(** * The deadline across a restart *)

Lemma whole_days_fit e now :
  e - now - DAY < timedelta_days e now * DAY <= e - now.
Proof.
  unfold timedelta_days.
  assert (0 < DAY) as Hday by (unfold DAY; lia).
  pose proof (Z.mul_div_le (e - now) DAY Hday).
  pose proof (Z.mul_succ_div_gt (e - now) DAY Hday).
  lia.
Qed.

Lemma relaunched_deadline env project_dir process_info auto_restart w w' e
    rs e' :
  relaunched env project_dir process_info auto_restart w w' ->
  RunState.end_time process_info = Some e ->
  dict_get project_dir (running_processes w') = Some rs ->
  RunState.end_time rs = Some e' ->
  exists i j,
    (clock_reads w <= i < clock_reads w')%nat
    /\ (clock_reads w <= j < clock_reads w')%nat
    /\ e' = clock env j + timedelta_days e (clock env i) * DAY
    /\ timedelta_days e (clock env i) <> 0.
Proof.
  intros Hagain He Hrs He'.
  destruct (again_lookup _ _ _ _ _ _ Hagain)
    as (rs0 & d & Hget & _ & Hrec & Hl).
  assert (rs0 = rs) as -> by congruence.
  unfold recomputed in Hrec. rewrite He in Hrec.
  destruct Hrec as (i & Hi & ->).
  destruct Hl as (_ & _ & _ & _ & Hend).
  destruct (timedelta_days e (clock env i) =? 0) eqn:Hz.
  - congruence.
  - destruct Hend as (j & Hj & Hend). exists i, j.
    split; [done|]. split; [done|]. split; [congruence|].
    by apply Z.eqb_neq.
Qed.

(** X16. When a record has the deadline [e] and the periodic restart, or
    the resume button, starts the project again with a deadline [e'],
    then [e'] is a reading [clock j] of the clock plus the whole days
    from a reading [clock i] to [e]: the time left after the restart is
    at most the time left before it, and less than a day shorter. *)
Theorem restart_never_extends_the_deadline env project_dir process_info e w
    chat_id :
  RunState.end_time process_info = Some e ->
  let swept := (restart_entry env (project_dir, process_info) w).2 in
  let resumed :=
    (handle_callbacks env {| data := resume_ project_dir;
                             message_chat := chat_id |} w).2 in
  (RunState.auto_restart process_info = true ->
   forall rs e',
     dict_get project_dir (running_processes swept) = Some rs ->
     RunState.end_time rs = Some e' ->
     exists i j,
       (clock_reads w <= i)%nat /\ (clock_reads w <= j)%nat
       /\ e' - clock env j = timedelta_days e (clock env i) * DAY
       /\ e - clock env i - DAY < e' - clock env j <= e - clock env i)
  /\ (dict_get project_dir (paused_processes w) = Some process_info ->
      dict_get project_dir (running_processes w) = None ->
      forall rs e',
        dict_get project_dir (running_processes resumed) = Some rs ->
        RunState.end_time rs = Some e' ->
        exists i j,
          (clock_reads w <= i)%nat /\ (clock_reads w <= j)%nat
          /\ e' - clock env j = timedelta_days e (clock env i) * DAY
          /\ e - clock env i - DAY < e' - clock env j <= e - clock env i).
Proof.
  intros He swept resumed. subst swept resumed. split.
  - intros Har rs e' Hrs He'.
    destruct (restart_entry_effect env project_dir process_info w Har)
      as (w1 & Hstop & [Hmild|Hagain]).
    + destruct Hstop as (_ & _ & _ & _ & _ & Hrun & _).
      destruct Hmild as (Hr & _). rewrite Hr, Hrun, dict_get_del_eq in Hrs.
      done.
    + destruct (relaunched_deadline _ _ _ _ _ _ _ _ _ Hagain He Hrs He')
        as (i & j & Hi & Hj & -> & _).
      destruct Hstop as (_ & Hreads & _). rewrite Hreads in Hi, Hj.
      exists i, j. split; [lia|]. split; [lia|]. split; [lia|].
      pose proof (whole_days_fit e (clock env i)). lia.
  - intros Hpaused Hnone rs e' Hrs He'.
    destruct (resume_effect_holds env project_dir process_info chat_id w
                Hpaused) as [Hmild|Hagain].
    + destruct Hmild as (Hr & _). rewrite Hr in Hrs. congruence.
    + destruct (relaunched_deadline _ _ _ _ _ _ _ _ _ Hagain He Hrs He')
        as (i & j & Hi & Hj & -> & _).
      exists i, j. split; [lia|]. split; [lia|]. split; [lia|].
      pose proof (whole_days_fit e (clock env i)). lia.
Qed.

(** * The buttons *)

(** What the first attempt of a decorated function establishes and
    every attempt preserves holds when the decorator is done. *)
Lemma wrapper_lands {A} (I : World -> Prop) (func : M A) r w :
  (forall w ev, I w -> I (emit ev w)) ->
  preserves I func ->
  I (func w).2 ->
  I (wrapper_from r func w).2.
Proof.
  intros Hemit Hpres Hfirst.
  destruct (func w) as [[a|e] w1] eqn:Hrun; cbn [snd] in Hfirst.
  - by rewrite (wrapper_from_ok _ _ _ _ _ Hrun).
  - destruct r as [|r].
    + rewrite (wrapper_from_last _ _ _ _ Hrun). cbn [snd].
      unfold given_up. by apply Hemit, Hemit.
    + rewrite (wrapper_from_retry _ _ _ _ _ Hrun).
      apply preserves_wrapper; [done|done|].
      unfold before_retry. by apply Hemit, Hemit, Hemit.
Qed.

Lemma lands_bind {A B} (I : World -> Prop) (m : M A) (k : A -> M B) w :
  I (m w).2 -> (forall a, preserves I (k a)) -> I ((m ≫= k) w).2.
Proof.
  intros Hm Hk. rewrite bind_run.
  destruct (m w) as [[a|e] w1]; cbn [snd] in *; [by apply Hk|done].
Qed.

Lemma lands_try {A} (I : World -> Prop) (m : M A) h w :
  I (m w).2 -> (forall e, preserves I (h e)) -> I (try_except m h w).2.
Proof.
  intros Hm Hh. unfold try_except.
  destruct (m w) as [[a|e] w1]; cbn [snd] in *; [done|by apply Hh].
Qed.

Section restart_button.
Variable env : Env.
Variables (project_dir : str) (chat_id : Z).

Local Abbreviation I := (plain_record project_dir).
Local Abbreviation call :=
  {| data := restart_ project_dir; message_chat := chat_id |}.

Lemma plain_mild w w' : I w -> mild w w' -> I w'.
Proof. unfold plain_record. intros Hw (Hr & _). by rewrite Hr. Qed.

Lemma plain_emit w ev : I w -> I (emit ev w).
Proof. done. Qed.

Lemma plain_bot c : preserves I (bot env c).
Proof.
  apply (preserves_keeps I still); [|apply keeps_bot].
  intros w w' Hw Hs. eapply plain_mild; [exact Hw|by apply still_mild].
Qed.

Lemma plain_logger level what : preserves I (logger level what).
Proof. intros w Hw. by apply plain_emit. Qed.

Lemma plain_after_stop pause w :
  I (stop_project env project_dir chat_id pause w).2.
Proof.
  destruct (stop_project_effect env project_dir chat_id pause w)
    as (_ & _ & _ & _ & _ & Hrun & _).
  unfold plain_record. by rewrite Hrun, dict_get_del_eq.
Qed.

Lemma plain_run : preserves I (run_project env project_dir chat_id None true).
Proof.
  intros w Hw.
  destruct (run_project_post env project_dir chat_id None true w)
    as [[Hmild|Hst] _].
  - by eapply plain_mild.
  - destruct (started_lookup _ _ _ _ _ _ _ Hst) as (rs & Hget & _ & Hl).
    unfold plain_record. rewrite Hget.
    by destruct Hl as (Har & _ & _ & _ & Hend).
Qed.

Lemma plain_outcome (success : bool) :
  preserves I
    (if success
     then
       bot env (edit_message_text chat_id
                  (Outcome "restarted" true (os_path_basename project_dir)));;
       logger INFO "Project restarted"
     else
       bot env (edit_message_text chat_id
                  (Outcome "restarted" false
                     (os_path_basename project_dir)))).
Proof.
  destruct success; [|apply plain_bot].
  apply preserves_bind; [apply plain_bot|]. intros _. apply plain_logger.
Qed.

Lemma plain_after_edit w :
  I ((running ← gets running_processes;
      (if dict_in project_dir running
       then stop_project env project_dir chat_id false;; ret tt
       else ret tt);;
      success ← run_project env project_dir chat_id None true;
      if (success : bool)
      then
        bot env (edit_message_text chat_id
                   (Outcome "restarted" true
                      (os_path_basename project_dir)));;
        logger INFO "Project restarted"
      else
        bot env (edit_message_text chat_id
                   (Outcome "restarted" false
                      (os_path_basename project_dir)))) w).2.
Proof.
  rewrite bind_gets. apply lands_bind.
  - destruct (dict_in project_dir (running_processes w)) eqn:Hin.
    + apply lands_bind; [apply plain_after_stop|]. intros _ w1 H1. exact H1.
    + apply dict_in_false in Hin. unfold plain_record, ret. cbn [snd].
      by rewrite Hin.
  - intros _. apply preserves_bind; [apply plain_run|]. apply plain_outcome.
Qed.

Lemma plain_handler :
  preserves I
    (logger ERROR "Error handling callback";;
     bot env (answer_callback_query (message_chat call) ErrorProcessing)).
Proof.
  apply preserves_bind; [apply plain_logger|]. intros _. apply plain_bot.
Qed.

Lemma plain_body : preserves I (handle_callbacks_body env call).
Proof.
  unfold handle_callbacks_body. apply preserves_try; [|intros _; apply plain_handler].
  unfold callback_action. cbn [data message_chat].
  apply preserves_bind; [apply plain_bot|]. intros _ w _.
  apply plain_after_edit.
Qed.

Lemma plain_first w :
  gateway_ok env (gateway_calls w)
    (edit_message_text chat_id (Progress "Restarting project")) = true ->
  I (handle_callbacks_body env call w).2.
Proof.
  intros Hok. unfold handle_callbacks_body.
  apply lands_try; [|intros _; apply plain_handler].
  unfold callback_action. cbn [data message_chat].
  destruct (bot_run env (edit_message_text chat_id
                           (Progress "Restarting project")) w)
    as (w1 & Hrun & _).
  rewrite Hok in Hrun. rewrite (bind_ok _ _ _ _ _ Hrun).
  apply plain_after_edit.
Qed.
End restart_button.

(** X17. When the gateway accepts the first message of the restart
    button, then, whatever happens afterwards, the project is either not
    running or runs with a record without deadline and with
    [auto_restart] set: the deadline and the flag of the record before
    are not kept. *)
Theorem restart_button_drops_the_deadline env project_dir chat_id w :
  gateway_ok env (gateway_calls w)
    (edit_message_text chat_id (Progress "Restarting project")) = true ->
  let out := handle_callbacks env {| data := restart_ project_dir;
                                      message_chat := chat_id |} w in
  forall rs,
    dict_get project_dir (running_processes out.2) = Some rs ->
    RunState.end_time rs = None /\ RunState.auto_restart rs = true.
Proof.
  intros Hok out rs Hrs. subst out.
  assert (plain_record project_dir
            (handle_callbacks env {| data := restart_ project_dir;
                                     message_chat := chat_id |} w).2) as H.
  { unfold handle_callbacks, error_handler. apply wrapper_lands.
    - intros w' ev. apply plain_emit.
    - apply plain_body.
    - by apply plain_first. }
  unfold plain_record in H. by rewrite Hrs in H.
Qed.

(** ** The delete button *)

Section delete_button.
Variable env : Env.
Variables (project_dir : str) (chat_id : Z).

Local Abbreviation call :=
  {| data := delete_ project_dir; message_chat := chat_id |}.

Local Abbreviation forget u :=
  (modify (set_user_projects (fun d =>
     dict_set u
       (List.filter
          (fun p => negb (bool_decide (Project.project_dir p = project_dir)))
          (default [] (dict_get u d))) d));;
   save_user_projects env).

Local Abbreviation tail :=
  (running ← gets running_processes;
   (if dict_in project_dir running
    then stop_project env project_dir chat_id false;; ret tt
    else ret tt);;
   paused ← gets paused_processes;
   (if dict_in project_dir paused
    then modify (set_paused (dict_del project_dir))
    else ret tt);;
   try_except
     (rmtree env project_dir;;
      bot env (edit_message_text chat_id
                 (Deleted (os_path_basename project_dir)));;
      logger INFO "Project deleted")
     (fun e =>
        bot env (edit_message_text chat_id FailedToDelete);;
        logger ERROR "Failed to delete project")).

Lemma save_user_projects_run w :
  exists w1, save_user_projects env w = (Ok tt, w1) /\ still w w1.
Proof.
  pose proof (keeps_save_user_projects env w) as Hstill.
  unfold save_user_projects, try_except in *. rewrite bind_gets in *.
  destruct (write_ok env USER_PROJECTS_FILE).
  - eexists. split; [reflexivity|]. exact Hstill.
  - eexists. split; [reflexivity|]. exact Hstill.
Qed.

Lemma filter_forgets projects :
  Forall (fun p => Project.project_dir p <> project_dir)
    (List.filter
       (fun p => negb (bool_decide (Project.project_dir p = project_dir)))
       projects).
Proof.
  apply Forall_forall. intros p Hp%list_elem_of_In.
  apply filter_In in Hp as [_ Hp].
  apply negb_true_iff, bool_decide_eq_false in Hp. exact Hp.
Qed.

Lemma filter_keeps_forgotten projects :
  Forall (fun p => Project.project_dir p <> project_dir) projects ->
  List.filter
    (fun p => negb (bool_decide (Project.project_dir p = project_dir)))
    projects = projects.
Proof.
  induction 1 as [|p l Hp Hl IH]; [done|]. simpl.
  rewrite bool_decide_eq_false_2 by done. simpl. by rewrite IH.
Qed.

Lemma forget_run u w :
  exists w1,
    forget u w = (Ok tt, w1)
    /\ running_processes w1 = running_processes w
    /\ paused_processes w1 = paused_processes w
    /\ forgotten project_dir u w1
    /\ forall u0, forgotten project_dir u0 w -> forgotten project_dir u0 w1.
Proof.
  rewrite bind_modify.
  destruct (save_user_projects_run
              (set_user_projects (fun d =>
                 dict_set u
                   (List.filter
                      (fun p => negb (bool_decide
                                        (Project.project_dir p = project_dir)))
                      (default [] (dict_get u d))) d) w))
    as (w1 & Hrun & ((Hr & Hp & _) & Hup) & _).
  exists w1. split; [exact Hrun|]. split; [exact Hr|]. split; [exact Hp|].
  cbn [user_projects set_user_projects] in Hup.
  unfold forgotten. rewrite Hup. split.
  - rewrite dict_get_set_eq. apply filter_forgets.
  - intros u0 H0. destruct (decide (u0 = u)) as [->|Hne].
    + rewrite dict_get_set_eq. apply filter_forgets.
    + by rewrite dict_get_set_ne.
Qed.

Lemma unregistered_still w w' :
  still w w' -> unregistered project_dir w -> unregistered project_dir w'.
Proof.
  intros (((Hr & Hp & _) & _) & _) Hw. unfold unregistered.
  by rewrite Hr, Hp.
Qed.

Lemma forgotten_still u w w' :
  still w w' -> forgotten project_dir u w -> forgotten project_dir u w'.
Proof. intros ((_ & Hup) & _) Hw. unfold forgotten. by rewrite Hup. Qed.

Lemma keeps_removal :
  keeps still
    (try_except
       (rmtree env project_dir;;
        bot env (edit_message_text chat_id
                   (Deleted (os_path_basename project_dir)));;
        logger INFO "Project deleted")
       (fun e =>
          bot env (edit_message_text chat_id FailedToDelete);;
          logger ERROR "Failed to delete project")).
Proof.
  apply keeps_try; [apply still_trans| |].
  - apply keeps_bind; [apply still_trans|apply keeps_rmtree|]. intros _.
    apply keeps_bind; [apply still_trans|apply keeps_bot|]. intros _.
    apply keeps_logger.
  - intros _. apply keeps_bind; [apply still_trans|apply keeps_bot|].
    intros _. apply keeps_logger.
Qed.

(** From the lookup of the paused projects on. *)
Lemma after_stop_lands w :
  dict_get project_dir (running_processes w) = None ->
  unregistered project_dir
    ((paused ← gets paused_processes;
      (if dict_in project_dir paused
       then modify (set_paused (dict_del project_dir))
       else ret tt);;
      try_except
        (rmtree env project_dir;;
         bot env (edit_message_text chat_id
                    (Deleted (os_path_basename project_dir)));;
         logger INFO "Project deleted")
        (fun e =>
           bot env (edit_message_text chat_id FailedToDelete);;
           logger ERROR "Failed to delete project")) w).2.
Proof.
  intros Hnone. rewrite bind_gets.
  destruct (dict_in project_dir (paused_processes w)) eqn:Hin.
  - rewrite bind_modify. eapply unregistered_still; [apply keeps_removal|].
    split; [exact Hnone|]. cbn. apply dict_get_del_eq.
  - rewrite bind_ret. eapply unregistered_still; [apply keeps_removal|].
    split; [exact Hnone|]. by apply dict_in_false.
Qed.

Lemma tail_lands w :
  dict_get project_dir (running_processes w) = None
  \/ dict_get project_dir (paused_processes w) = None ->
  unregistered project_dir (tail w).2.
Proof.
  intros Hnb. rewrite bind_gets.
  destruct (dict_in project_dir (running_processes w)) eqn:Hin.
  - assert (dict_get project_dir (paused_processes w) = None) as Hp.
    { destruct Hnb as [Hr|Hp]; [|done].
      apply dict_in_get in Hin as [x Hx]. congruence. }
    destruct (stop_project_effect env project_dir chat_id false w)
      as (_ & _ & _ & _ & _ & Hrun & Hpau & _).
    assert (unregistered project_dir
              (stop_project env project_dir chat_id false w).2) as Hun.
    { split; [rewrite Hrun; apply dict_get_del_eq|].
      rewrite Hpau. by destruct (dict_get project_dir (running_processes w)). }
    rewrite bind_bind, bind_run.
    destruct (stop_project env project_dir chat_id false w) as [[b|e] w1];
      cbn [snd] in Hun; [|exact Hun].
    rewrite bind_ret. apply after_stop_lands. by destruct Hun.
  - rewrite bind_ret. apply after_stop_lands. by apply dict_in_false.
Qed.

Lemma keeps_projects_tail u w :
  forgotten project_dir u w -> forgotten project_dir u (tail w).2.
Proof.
  intros Hw.
  assert (user_projects (tail w).2 = user_projects w) as Hup.
  { rewrite bind_gets.
    assert (forall w0,
              user_projects
                ((paused ← gets paused_processes;
                  (if dict_in project_dir paused
                   then modify (set_paused (dict_del project_dir))
                   else ret tt);;
                  try_except
                    (rmtree env project_dir;;
                     bot env (edit_message_text chat_id
                                (Deleted (os_path_basename project_dir)));;
                     logger INFO "Project deleted")
                    (fun e =>
                       bot env (edit_message_text chat_id FailedToDelete);;
                       logger ERROR "Failed to delete project")) w0).2
              = user_projects w0) as Hrest.
    { intros w0. rewrite bind_gets.
      destruct (dict_in project_dir (paused_processes w0)).
      - rewrite bind_modify.
        by destruct (keeps_removal
                       (set_paused (dict_del project_dir) w0))
          as ((_ & ->) & _).
      - rewrite bind_ret. by destruct (keeps_removal w0) as ((_ & ->) & _). }
    destruct (dict_in project_dir (running_processes w)).
    - destruct (stop_project_effect env project_dir chat_id false w)
        as (_ & _ & Hup & _).
      rewrite bind_bind, bind_run.
      destruct (stop_project env project_dir chat_id false w) as [[b|e] w1];
        cbn [snd] in Hup; [|exact Hup].
      rewrite bind_ret, Hrest. exact Hup.
    - rewrite bind_ret. apply Hrest. }
  unfold forgotten. by rewrite Hup.
Qed.

Lemma delete_action w :
  exists w1,
    callback_action env call w = tail w1
    /\ running_processes w1 = running_processes w
    /\ paused_processes w1 = paused_processes w
    /\ (forall u, find_user_id chat_id (user_projects w) = Some u ->
                  u <> 0 -> forgotten project_dir u w1)
    /\ forall u0, forgotten project_dir u0 w -> forgotten project_dir u0 w1.
Proof.
  unfold callback_action. cbn [data message_chat].
  unfold get_user_id_by_chat_id.
  rewrite bind_bind, bind_gets, bind_ret, bind_gets.
  destruct (find_user_id chat_id (user_projects w)) as [u|] eqn:Hfind.
  - destruct (negb (u =? 0) && dict_in u (user_projects w)) eqn:Hcond.
    + destruct (forget_run u w) as (w1 & Hrun & Hr & Hp & Hf & Hkeep).
      exists w1. rewrite (bind_ok _ _ _ _ _ Hrun).
      split; [done|]. split; [done|]. split; [done|].
      split; [|done]. by intros u' [= <-] _.
    + exists w. rewrite bind_ret. split; [done|]. split; [done|].
      split; [done|]. split; [|done].
      intros u' [= <-] Hne.
      apply andb_false_iff in Hcond as [Hz|Hin].
      * apply negb_false_iff, Z.eqb_eq in Hz. done.
      * apply dict_in_false in Hin. unfold forgotten. by rewrite Hin.
  - exists w. rewrite bind_ret. done.
Qed.

Lemma delete_handler_still :
  keeps still
    (logger ERROR "Error handling callback";;
     bot env (answer_callback_query (message_chat call) ErrorProcessing)).
Proof.
  apply keeps_bind; [apply still_trans|apply keeps_logger|].
  intros _. apply keeps_bot.
Qed.

Lemma delete_body_lands w :
  dict_get project_dir (running_processes w) = None
  \/ dict_get project_dir (paused_processes w) = None ->
  unregistered project_dir (handle_callbacks_body env call w).2.
Proof.
  intros Hnb. unfold handle_callbacks_body. apply lands_try.
  - destruct (delete_action w) as (w1 & -> & Hr & Hp & _).
    apply tail_lands. by rewrite Hr, Hp.
  - intros _ w1 H1. eapply unregistered_still; [|exact H1].
    apply delete_handler_still.
Qed.

Lemma delete_body_forgets u w :
  (find_user_id chat_id (user_projects w) = Some u /\ u <> 0)
  \/ forgotten project_dir u w ->
  forgotten project_dir u (handle_callbacks_body env call w).2.
Proof.
  intros Hu. unfold handle_callbacks_body. apply lands_try.
  - destruct (delete_action w) as (w1 & -> & _ & _ & Hfound & Hkeep).
    apply keeps_projects_tail.
    destruct Hu as [[Hfind Hne]|Hf]; [by apply Hfound|by apply Hkeep].
  - intros _ w1 H1. eapply forgotten_still; [|exact H1].
    apply delete_handler_still.
Qed.
End delete_button.

(** X18. In a world where no project is both running and paused, after
    the delete button, whatever the host does, the project is in neither
    registry; and when the chat is that of a stored project of a user
    whose identifier is not 0, none of the stored projects of that user
    is in the directory. *)
Theorem delete_button_unregisters env project_dir chat_id w :
  never_both w ->
  let out := handle_callbacks env {| data := delete_ project_dir;
                                      message_chat := chat_id |} w in
  dict_get project_dir (running_processes out.2) = None
  /\ dict_get project_dir (paused_processes out.2) = None
  /\ (forall user_id,
        find_user_id chat_id (user_projects w) = Some user_id ->
        user_id <> 0 ->
        forgotten project_dir user_id out.2).
Proof.
  intros Hnb out. subst out. unfold handle_callbacks, error_handler.
  assert (unregistered project_dir
            (wrapper_from 2
               (handle_callbacks_body env
                  {| data := delete_ project_dir; message_chat := chat_id |})
               w).2) as [Hr Hp].
  { apply wrapper_lands.
    - intros w' ev H'. exact H'.
    - intros w' [H1 H2]. apply delete_body_lands. by left.
    - apply delete_body_lands. apply Hnb. }
  split; [done|]. split; [done|].
  intros user_id Hfind Hne.
  apply (wrapper_lands (forgotten project_dir user_id)).
  - intros w' ev H'. exact H'.
  - intros w' H'. apply delete_body_forgets. by right.
  - apply delete_body_forgets. by left.
Qed.

(** ** The handler of the buttons and the exceptions *)

(** X19. When the gateway accepts the notice [answer_callback_query] of
    an error, [handle_callbacks] never raises, whatever the button and
    whatever else fails, and the decorator runs the handler once. *)
Theorem handle_callbacks_returns env call w :
  (forall n, gateway_ok env n
               (answer_callback_query (message_chat call) ErrorProcessing)
             = true) ->
  (handle_callbacks env call w).1 = Ok tt
  /\ handle_callbacks env call w = handle_callbacks_body env call w.
Proof.
  intros Hok.
  assert ((handle_callbacks_body env call w).1 = Ok tt) as Hfst.
  { unfold handle_callbacks_body, try_except.
    destruct (callback_action env call w) as [[[]|e] w1]; [done|].
    unfold logger. rewrite bind_modify.
    destruct (bot_run env (answer_callback_query (message_chat call)
                             ErrorProcessing)
                (emit (Logged ERROR "Error handling callback") w1))
      as (w2 & Hrun & _).
    by rewrite Hrun, Hok. }
  destruct (handle_callbacks_body env call w) as [r w1] eqn:Hrun.
  cbn [fst] in Hfst. subst r.
  unfold handle_callbacks, error_handler.
  by rewrite (wrapper_from_ok _ _ _ _ _ Hrun).
Qed.

(** ** The button that sets the duration *)

Section deadline_button.
Variable env : Env.
Variables (project_dir : str) (days : Z) (chat_id : Z).

Local Abbreviation call :=
  {| data := duration_set_ days project_dir; message_chat := chat_id |}.

Local Abbreviation handler :=
  (fun _ : exn =>
     logger ERROR "Error handling callback";;
     bot env (answer_callback_query chat_id ErrorProcessing)).

Lemma keeps_deadline_handler e : keeps still (handler e).
Proof.
  apply keeps_bind; [apply still_trans|apply keeps_logger|].
  intros _. apply keeps_bot.
Qed.

Lemma keeps_deadline_report msg :
  keeps still
    (bot env (edit_message_text chat_id msg);;
     logger INFO "Duration changed").
Proof.
  apply keeps_bind; [apply still_trans|apply keeps_bot|].
  intros _. apply keeps_logger.
Qed.

Lemma try_lands_still {A} (m : M A) h w w2 :
  still w2 (m w).2 -> (forall e, keeps still (h e)) ->
  still w2 (try_except m h w).2.
Proof.
  intros Hm Hh. unfold try_except.
  destruct (m w) as [[a|e] w1]; cbn [snd] in *; [done|].
  eapply still_trans; [exact Hm|apply Hh].
Qed.

Lemma deadline_body_idle w :
  dict_get project_dir (running_processes w) = None ->
  still w (handle_callbacks_body env call w).2.
Proof.
  intros Hnone. unfold handle_callbacks_body.
  apply try_lands_still; [|apply keeps_deadline_handler].
  unfold callback_action. cbn [data message_chat].
  rewrite bind_gets, Hnone. apply keeps_bot.
Qed.

Lemma deadline_body_set w info :
  dict_get project_dir (running_processes w) = Some info ->
  0 < days ->
  still
    (set_running
       (dict_set project_dir
          (RunState.set_end_time
             (Some (clock env (clock_reads w) + days * DAY)) info))
       (set_host (next_pid w) (alive w) (gateway_calls w)
          (S (clock_reads w)) (trace w) w))
    (handle_callbacks_body env call w).2.
Proof.
  intros Hget Hdays. unfold handle_callbacks_body.
  apply try_lands_still; [|apply keeps_deadline_handler].
  unfold callback_action. cbn [data message_chat].
  rewrite bind_gets, Hget.
  assert ((0 <? days) = true) as -> by (apply Z.ltb_lt; lia).
  rewrite bind_bind. unfold datetime_now at 1. rewrite bind_run.
  rewrite bind_bind, bind_modify, bind_ret.
  apply keeps_deadline_report.
Qed.

Lemma deadline_body_removed w info :
  dict_get project_dir (running_processes w) = Some info ->
  days <= 0 ->
  still
    (set_running
       (dict_set project_dir (RunState.set_end_time None info)) w)
    (handle_callbacks_body env call w).2.
Proof.
  intros Hget Hdays. unfold handle_callbacks_body.
  apply try_lands_still; [|apply keeps_deadline_handler].
  unfold callback_action. cbn [data message_chat].
  rewrite bind_gets, Hget.
  assert ((0 <? days) = false) as -> by (apply Z.ltb_ge; lia).
  rewrite bind_bind, bind_modify, bind_ret.
  apply keeps_deadline_report.
Qed.
End deadline_button.

Lemma set_end_time_twice e e0 info :
  RunState.set_end_time e (RunState.set_end_time e0 info)
  = RunState.set_end_time e info.
Proof. done. Qed.

(** X20. The button that sets the duration never touches
    [paused_processes].  For a project that is not running it leaves
    [running_processes] as it is.  For a running project it changes
    nothing but the deadline of its record: to a reading of the clock
    taken by the handler plus [days] days when [days] is positive, to
    none otherwise.  This holds whatever the gateway does. *)
Theorem duration_button env project_dir days chat_id w :
  let out := handle_callbacks env {| data := duration_set_ days project_dir;
                                      message_chat := chat_id |} w in
  paused_processes out.2 = paused_processes w
  /\ (dict_get project_dir (running_processes w) = None ->
      running_processes out.2 = running_processes w)
  /\ (forall info,
        dict_get project_dir (running_processes w) = Some info ->
        (0 < days ->
         exists j,
           (clock_reads w <= j < clock_reads out.2)%nat
           /\ running_processes out.2
              = dict_set project_dir
                  (RunState.set_end_time
                     (Some (clock env j + days * DAY)) info)
                  (running_processes w))
        /\ (days <= 0 ->
            running_processes out.2
            = dict_set project_dir (RunState.set_end_time None info)
                (running_processes w))).
Proof.
  intros out. subst out. unfold handle_callbacks, error_handler.
  split; [|split].
  - apply (wrapper_lands (fun w' => paused_processes w' = paused_processes w)).
    + intros w' ev H'. exact H'.
    + intros w' H'. rewrite <-H'.
      destruct (dict_get project_dir (running_processes w')) as [info|]
        eqn:Hget.
      * destruct (Z_lt_le_dec 0 days) as [Hd|Hd].
        -- by destruct (deadline_body_set env project_dir days chat_id w'
                          info Hget Hd) as (((_ & -> & _) & _) & _).
        -- by destruct (deadline_body_removed env project_dir days chat_id w'
                          info Hget Hd) as (((_ & -> & _) & _) & _).
      * by destruct (deadline_body_idle env project_dir days chat_id w' Hget)
          as (((_ & -> & _) & _) & _).
    + destruct (dict_get project_dir (running_processes w)) as [info|]
        eqn:Hget.
      * destruct (Z_lt_le_dec 0 days) as [Hd|Hd].
        -- by destruct (deadline_body_set env project_dir days chat_id w
                          info Hget Hd) as (((_ & -> & _) & _) & _).
        -- by destruct (deadline_body_removed env project_dir days chat_id w
                          info Hget Hd) as (((_ & -> & _) & _) & _).
      * by destruct (deadline_body_idle env project_dir days chat_id w Hget)
          as (((_ & -> & _) & _) & _).
  - intros Hnone.
    assert (forall w', running_processes w' = running_processes w ->
              running_processes (handle_callbacks_body env
          {| data := duration_set_ days project_dir; message_chat := chat_id |} w').2
              = running_processes w) as Hstep.
    { intros w' H'. rewrite <-H'.
      assert (dict_get project_dir (running_processes w') = None) as Hn
        by by rewrite H'.
      by destruct (deadline_body_idle env project_dir days chat_id w' Hn)
        as (((-> & _) & _) & _). }
    apply (wrapper_lands
             (fun w' => running_processes w' = running_processes w)).
    + intros w' ev H'. exact H'.
    + exact Hstep.
    + by apply Hstep.
  - intros info Hget. split.
    + intros Hd.
      pose (target := fun j =>
              dict_set project_dir
                (RunState.set_end_time (Some (clock env j + days * DAY)) info)
                (running_processes w)).
      pose (P := fun w' : World =>
              exists j, (clock_reads w <= j < clock_reads w')%nat
                        /\ running_processes w' = target j).
      pose (I := fun w' : World =>
              (clock_reads w <= clock_reads w')%nat
              /\ (running_processes w' = running_processes w \/ P w')).
      assert (forall w', I w' -> I (handle_callbacks_body env
          {| data := duration_set_ days project_dir; message_chat := chat_id |} w').2
                                 /\ P (handle_callbacks_body env
          {| data := duration_set_ days project_dir; message_chat := chat_id |} w').2)
        as Hstep.
      { intros w' [Hreads Hrun].
        assert (exists info',
                  dict_get project_dir (running_processes w') = Some info'
                  /\ forall e,
                       dict_set project_dir (RunState.set_end_time e info')
                         (running_processes w')
                       = dict_set project_dir (RunState.set_end_time e info)
                           (running_processes w)) as (info' & Hget' & Hset).
        { destruct Hrun as [Hsame|(j & Hj & Htarget)].
          - exists info. rewrite Hsame. done.
          - eexists. rewrite Htarget. unfold target.
            split; [apply dict_get_set_eq|].
            intros e. by rewrite dict_set_set, set_end_time_twice. }
        destruct (deadline_body_set env project_dir days chat_id w' info'
                    Hget' Hd) as (((Hr & _) & _) & _ & Hc & _).
        cbn [running_processes set_running set_host clock_reads] in Hr, Hc.
        rewrite Hset in Hr.
        assert (P (handle_callbacks_body env
          {| data := duration_set_ days project_dir; message_chat := chat_id |} w').2) as HP.
        { exists (clock_reads w'). split; [lia|]. exact Hr. }
        split; [|exact HP]. split; [lia|]. by right. }
      assert (wp (wrapper_from 2 (handle_callbacks_body env
          {| data := duration_set_ days project_dir; message_chat := chat_id |}))
                (fun res w' => I w' /\ P w') w) as [_ (j & Hj & Hrun)].
      { eapply wp_mono;
          [apply (fun a b c => wrapper_from_wp I (fun _ => P) (fun _ => P)
                                 (handle_callbacks_body env
          {| data := duration_set_ days project_dir; message_chat := chat_id |})
                                 a b c 2%nat w)
          |intros res w' [H1 H2]; split; [done|]; by destruct res].
        - intros w' ev H'. exact H'.
        - intros e w' ev H'. exact H'.
        - intros w' H'. unfold wp. destruct (Hstep w' H') as [H1 H2].
          split; [done|]. by destruct (handle_callbacks_body env
          {| data := duration_set_ days project_dir; message_chat := chat_id |} w').1.
        - split; [lia|]. by left. }
      exists j. split; [exact Hj|exact Hrun].
    + intros Hd.
      pose (target := dict_set project_dir (RunState.set_end_time None info)
                        (running_processes w)).
      pose (I := fun w' : World =>
              running_processes w' = running_processes w
              \/ running_processes w' = target).
      assert (forall w', I w' ->
                running_processes (handle_callbacks_body env
          {| data := duration_set_ days project_dir; message_chat := chat_id |} w').2
                = target) as Hstep.
      { intros w' Hrun.
        assert (exists info',
                  dict_get project_dir (running_processes w') = Some info'
                  /\ dict_set project_dir (RunState.set_end_time None info')
                       (running_processes w') = target)
          as (info' & Hget' & Hset).
        { destruct Hrun as [Hsame|Htarget].
          - exists info. rewrite Hsame. done.
          - eexists. rewrite Htarget. unfold target.
            split; [apply dict_get_set_eq|].
            by rewrite dict_set_set, set_end_time_twice. }
        destruct (deadline_body_removed env project_dir days chat_id w' info'
                    Hget' Hd) as (((Hr & _) & _) & _).
        cbn [running_processes set_running] in Hr. by rewrite Hr. }
      apply (wrapper_lands (fun w' => running_processes w' = target)).
      * intros w' ev H'. exact H'.
      * intros w' H'. apply Hstep. by right.
      * apply Hstep. by left.
Qed.

(** ** Cancelling the choice of the two scripts *)

Section cancel.
Variable env : Env.
Variable message : Message.
Hypothesis is_cancel : text message = py "/cancel".

Local Abbreviation user := (from_user message).

Local Abbreviation removal dir :=
  (try_except
     (rmtree env dir;;
      bot env (send_message (chat message) Cancelled);;
      logger INFO "Cancelled project upload")
     (fun e =>
        bot env (send_message (chat message) FailedToDelete);;
        logger ERROR "Failed to delete project")).

Lemma keeps_cancel_removal dir : keeps still (removal dir).
Proof.
  apply keeps_try; [apply still_trans| |].
  - apply keeps_bind; [apply still_trans|apply keeps_rmtree|]. intros _.
    apply keeps_bind; [apply still_trans|apply keeps_bot|]. intros _.
    apply keeps_logger.
  - intros _. apply keeps_bind; [apply still_trans|apply keeps_bot|].
    intros _. apply keeps_logger.
Qed.

Lemma cancel_body_some w session :
  dict_get user (waiting_for_main_file w) = Some session ->
  handle_two_scripts_names_body env message w
  = removal (Session.project_dir session)
      (set_waiting (dict_del user) w).
Proof.
  intros Hget. unfold handle_two_scripts_names_body.
  rewrite decide_True by exact is_cancel.
  by rewrite bind_gets, Hget, bind_modify.
Qed.

Lemma cancel_body_none w :
  dict_get user (waiting_for_main_file w) = None ->
  handle_two_scripts_names_body env message w = (Raise KeyError, w).
Proof.
  intros Hget. unfold handle_two_scripts_names_body.
  rewrite decide_True by exact is_cancel.
  by rewrite bind_gets, Hget.
Qed.
End cancel.

(** X21. [/cancel] in the two-script state removes the session of the
    user, whatever the host does, so that the filter of the handler no
    longer accepts the user; the registries and the stored projects are
    unchanged.  When the directory is removed and the confirmation is
    accepted the handler returns after these steps; when the removal
    fails and the notice of the failure is accepted, the handler returns
    as well: the session is gone and the directory is still there. *)
Theorem cancel_ends_the_session env message w session :
  text message = py "/cancel" ->
  dict_get (from_user message) (waiting_for_main_file w) = Some session ->
  let out := handle_two_scripts_names env message w in
  let project_dir := Session.project_dir session in
  waiting_for_main_file out.2
  = dict_del (from_user message) (waiting_for_main_file w)
  /\ awaiting_two_scripts (from_user message) out.2 = false
  /\ running_processes out.2 = running_processes w
  /\ paused_processes out.2 = paused_processes w
  /\ user_projects out.2 = user_projects w
  /\ (rmtree_ok env project_dir = true ->
      gateway_ok env (gateway_calls w)
        (send_message (chat message) Cancelled) = true ->
      out.1 = Ok tt
      /\ trace out.2
         = trace w ++ [RmTree project_dir;
                       Delivered (send_message (chat message) Cancelled);
                       Logged INFO "Cancelled project upload"])
  /\ (rmtree_ok env project_dir = false ->
      gateway_ok env (gateway_calls w)
        (send_message (chat message) FailedToDelete) = true ->
      out.1 = Ok tt
      /\ trace out.2
         = trace w ++ [Delivered (send_message (chat message) FailedToDelete);
                       Logged ERROR "Failed to delete project"]).
Proof.
  intros Hcancel Hget out project_dir. subst out project_dir.
  unfold handle_two_scripts_names, error_handler.
  set (gone := dict_del (from_user message) (waiting_for_main_file w)).
  pose (I := fun w' : World =>
          running_processes w' = running_processes w
          /\ paused_processes w' = paused_processes w
          /\ user_projects w' = user_projects w
          /\ (waiting_for_main_file w' = waiting_for_main_file w
              \/ waiting_for_main_file w' = gone)).
  pose (P := fun w' : World => waiting_for_main_file w' = gone).
  assert (wp (wrapper_from 2 (handle_two_scripts_names_body env message))
            (fun res w' => I w' /\ P w') w)
    as [(Hr & Hp & Hu & _) Hgone].
  { eapply wp_mono;
      [apply (fun a b c => wrapper_from_wp I (fun _ => P) (fun _ => P)
                             (handle_two_scripts_names_body env message)
                             a b c 2%nat w)
      |intros res w' [H1 H2]; split; [done|]; by destruct res].
    - intros w' ev H'. exact H'.
    - intros e w' ev H'. exact H'.
    - intros w' (H1 & H2 & H3 & H5). unfold wp.
      destruct (dict_get (from_user message) (waiting_for_main_file w'))
        as [session'|] eqn:Hget'.
      + rewrite (cancel_body_some env message Hcancel w' session' Hget').
        destruct (keeps_cancel_removal env message
                    (Session.project_dir session')
                    (set_waiting (dict_del (from_user message)) w'))
          as (((Hr' & Hp' & Hw' & _) & Hu') & _).
        cbn [running_processes paused_processes user_projects
             waiting_for_main_file set_waiting] in Hr', Hp', Hw', Hu'.
        assert (dict_del (from_user message) (waiting_for_main_file w')
                = gone) as Hg.
        { destruct H5 as [->| ->]; [done|]. apply dict_del_del. }
        rewrite Hg in Hw'.
        split.
        * unfold I. rewrite Hr', Hp', Hu', Hw'. auto.
        * by destruct (try_except _ _ _).1.
      + rewrite (cancel_body_none env message Hcancel w' Hget').
        cbn [fst snd].
        assert (waiting_for_main_file w' = gone) as Hg.
        { destruct H5 as [H5|H5]; [|done]. rewrite H5 in Hget'. congruence. }
        split; [|exact Hg]. unfold I. auto.
    - unfold I. split; [done|]. split; [done|]. split; [done|]. by left. }
  split; [exact Hgone|].
  split.
  { unfold awaiting_two_scripts. unfold P in Hgone. rewrite Hgone.
    unfold gone. by rewrite dict_get_del_eq. }
  split; [done|]. split; [done|]. split; [done|].
  pose proof (cancel_body_some env message Hcancel w session Hget) as Hbody.
  split.
  - intros Hrm Hok.
    assert (handle_two_scripts_names_body env message w
            = (Ok tt,
               emit (Logged INFO "Cancelled project upload")
                 (emit (Delivered (send_message (chat message) Cancelled))
                    (set_host (next_pid w) (alive w) (S (gateway_calls w))
                       (clock_reads w) (trace w ++ [RmTree (Session.project_dir session)])
                       (set_waiting (dict_del (from_user message)) w)))))
      as Hrun.
    { rewrite Hbody. unfold try_except, rmtree. rewrite Hrm.
      rewrite bind_modify. unfold bot at 1. rewrite bind_run.
      cbn [gateway_calls emit set_host set_waiting]. rewrite Hok.
      reflexivity. }
    rewrite (wrapper_from_ok _ _ _ _ _ Hrun). split; [done|].
    cbn. by rewrite <-!app_assoc.
  - intros Hrm Hok.
    assert (handle_two_scripts_names_body env message w
            = (Ok tt,
               emit (Logged ERROR "Failed to delete project")
                 (emit (Delivered (send_message (chat message)
                                     FailedToDelete))
                    (set_host (next_pid w) (alive w) (S (gateway_calls w))
                       (clock_reads w) (trace w)
                       (set_waiting (dict_del (from_user message)) w)))))
      as Hrun.
    { rewrite Hbody. unfold try_except, rmtree. rewrite Hrm.
      unfold raise. rewrite bind_run. unfold bot at 1. rewrite bind_run.
      cbn [gateway_calls emit set_host set_waiting]. rewrite Hok.
      reflexivity. }
    rewrite (wrapper_from_ok _ _ _ _ _ Hrun). split; [done|].
    cbn. by rewrite <-!app_assoc.
Qed.

(** * Shutting down *)

Lemma same_flag_refl w : same_flag w w.
Proof. done. Qed.

Lemma same_flag_trans w1 w2 w3 :
  same_flag w1 w2 -> same_flag w2 w3 -> same_flag w1 w3.
Proof. unfold same_flag. congruence. Qed.

Section flag.
Variable env : Env.

Lemma flag_bot c : keeps same_flag (bot env c).
Proof.
  intros w. unfold bot. by destruct (gateway_ok env (gateway_calls w) c).
Qed.

Lemma flag_logger level what : keeps same_flag (logger level what).
Proof. by intros w. Qed.

Lemma flag_modify f :
  (forall w, keep_running (f w) = keep_running w) ->
  keeps same_flag (modify f).
Proof. intros Hf w. apply Hf. Qed.

Lemma flag_stop_process p : keeps same_flag (stop_process env p).
Proof.
  unfold stop_process.
  apply keeps_try; [apply same_flag_trans| |].
  - apply keeps_bind; [apply same_flag_trans|by apply flag_modify|].
    intros _. destruct (exits_on_terminate env p).
    + by apply flag_modify.
    + by apply keeps_raise.
  - intros _. apply keeps_bind; [apply same_flag_trans|apply flag_logger|].
    intros _. apply keeps_try; [apply same_flag_trans| |].
    + apply keeps_bind; [apply same_flag_trans|by apply flag_modify|].
      intros _. by apply flag_modify.
    + intros _. by apply keeps_ret.
Qed.

Lemma flag_stop_project project_dir chat_id pause :
  keeps same_flag (stop_project env project_dir chat_id pause).
Proof.
  unfold stop_project, error_handler.
  apply keeps_wrapper; [apply same_flag_trans|done|].
  unfold stop_project_body.
  apply keeps_bind; [apply same_flag_trans|by apply keeps_gets|].
  intros running.
  destruct (dict_get project_dir running) as [info|].
  - apply keeps_try; [apply same_flag_trans| |].
    + apply keeps_bind; [apply same_flag_trans|apply flag_logger|].
      intros _.
      apply keeps_bind; [apply same_flag_trans| |].
      { apply keeps_for_each; [done|apply same_flag_trans|].
        apply flag_stop_process. }
      intros _.
      apply keeps_bind; [apply same_flag_trans| |].
      { destruct pause; [by apply flag_modify|by apply keeps_ret]. }
      intros _.
      apply keeps_bind; [apply same_flag_trans|by apply flag_modify|].
      intros _.
      apply keeps_bind; [apply same_flag_trans| |].
      { destruct (negb pause); [|by apply keeps_ret].
        apply keeps_bind; [apply same_flag_trans|apply flag_bot|].
        intros _. apply flag_logger. }
      intros _. by apply keeps_ret.
    + intros _. apply keeps_bind; [apply same_flag_trans|apply flag_bot|].
      intros _.
      apply keeps_bind; [apply same_flag_trans|apply flag_logger|].
      intros _. by apply keeps_ret.
  - apply keeps_bind; [apply same_flag_trans|apply flag_bot|].
    intros _. by apply keeps_ret.
Qed.
End flag.

Lemma returns_bind {A B} (m : M A) (k : A -> M B) :
  returns m -> (forall a, returns (k a)) -> returns (m ≫= k).
Proof.
  intros Hm Hk w. rewrite bind_run. destruct (Hm w) as [a Ha].
  destruct (m w) as [r w1]. cbn [fst] in Ha. subst r. apply Hk.
Qed.

Lemma returns_ret {A} (a : A) : returns (ret a).
Proof. intros w. by exists a. Qed.

Lemma returns_logger level what : returns (logger level what).
Proof. intros w. by exists tt. Qed.

Section shutting_down.
Variable env : Env.
Hypothesis up : gateway_up env.

Lemma stop_project_returns project_dir chat_id pause :
  returns (stop_project env project_dir chat_id pause).
Proof.
  unfold stop_project, error_handler. apply wrapper_from_returns.
  intros w. unfold stop_project_body. rewrite bind_gets.
  destruct (dict_get project_dir (running_processes w)) as [info|].
  - apply try_except_returns. intros _.
    apply returns_bind; [by apply returns_bot|]. intros _.
    apply returns_bind; [apply returns_logger|]. intros _.
    apply returns_ret.
  - apply returns_bind; [by apply returns_bot|]. intros _.
    apply returns_ret.
Qed.

Local Abbreviation stop_one :=
  (fun project_dir : str =>
     running ← gets running_processes;
     match dict_get project_dir running with
     | Some process_info =>
         stop_project env project_dir (RunState.chat_id process_info)
           false;;
         ret tt
     | None => raise KeyError
     end).

(** The loop of [cleanup] over keys that are all running. *)
Lemma cleanup_loop keys w :
  NoDup keys ->
  (forall k, k ∈ keys -> is_Some (dict_get k (running_processes w))) ->
  exists w',
    for_each keys stop_one w = (Ok tt, w')
    /\ (forall k, dict_get k (running_processes w')
                  = if decide (k ∈ keys) then None
                    else dict_get k (running_processes w))
    /\ paused_processes w' = paused_processes w
    /\ user_projects w' = user_projects w
    /\ keep_running w' = keep_running w
    /\ next_pid w' = next_pid w
    /\ alive w' ⊆ alive w
    /\ (forall k info,
          k ∈ keys -> dict_get k (running_processes w) = Some info ->
          forall p, In p (RunState.processes info) -> p ∉ alive w').
Proof.
  revert w. induction keys as [|k keys IH]; intros w Hnd Hall.
  - exists w. split; [done|]. split.
    { intros k. rewrite decide_False; [done|]. by apply not_elem_of_nil. }
    do 5 (split; [done|]). intros k info Hk. by apply elem_of_nil in Hk.
  - apply NoDup_cons in Hnd as [Hk Hnd].
    destruct (Hall k) as [info Hget]; [by left|].
    cbn [for_each]. rewrite bind_run, bind_gets, Hget.
    destruct (stop_project_returns k (RunState.chat_id info) false w)
      as [b Hb].
    pose proof (stop_project_effect env k (RunState.chat_id info) false w)
      as (Hpid & _ & Hup & _ & Halive & Hrun & Hpau & Hdead).
    pose proof (flag_stop_project env k (RunState.chat_id info) false w)
      as Hflag.
    rewrite Hget in Hpau.
    rewrite bind_run.
    destruct (stop_project env k (RunState.chat_id info) false w)
      as [r w1]. cbn [fst snd] in *. subst r. unfold ret at 1.
    destruct (IH w1 Hnd) as (w' & Hloop & Hgetk & Hp' & Hu' & Hf' & Hn'
                             & Ha' & Hd').
    { intros k' Hk'. rewrite Hrun, dict_get_del_ne; [|by intros ->].
      apply Hall. by right. }
    exists w'. split; [exact Hloop|].
    split.
    { intros k'. rewrite Hgetk, Hrun.
      destruct (decide (k' = k)) as [->|Hne].
      - rewrite dict_get_del_eq.
        destruct (decide (k ∈ k :: keys)) as [_|Hno];
          [|exfalso; apply Hno; by left].
        by destruct (decide (k ∈ keys)).
      - rewrite dict_get_del_ne by done.
        destruct (decide (k' ∈ keys)) as [Hin|Hin].
        + destruct (decide (k' ∈ k :: keys)) as [_|Hno];
            [done|exfalso; apply Hno; by right].
        + destruct (decide (k' ∈ k :: keys)) as [Hyes|_]; [|done].
          apply elem_of_cons in Hyes as [->|Hin']; done. }
    split; [congruence|]. split; [congruence|].
    split; [unfold same_flag in Hflag; congruence|].
    split; [congruence|]. split; [set_solver|].
    intros k' info' Hk' Hget' p Hp.
    apply elem_of_cons in Hk' as [->|Hk'].
    + assert (info' = info) as -> by congruence.
      intros Hin. apply (Hdead info Hget p Hp). set_solver.
    + apply (Hd' k' info' Hk'); [|done].
      rewrite Hrun, dict_get_del_ne; [done|by intros ->].
Qed.
End shutting_down.

Lemma dict_keys_get {V} (k : str) (d : list (str * V)) :
  k ∈ dict_keys d -> is_Some (dict_get k d).
Proof.
  induction d as [|[k' v'] d IH]; simpl.
  - by intros ?%elem_of_nil.
  - intros Hin. destruct (decide (k = k')); [done|].
    apply elem_of_cons in Hin as [->|Hin]; [done|by apply IH].
Qed.

Lemma cleanup_keeps_flag env w : keep_running (cleanup env w).2 = false.
Proof.
  unfold cleanup. rewrite bind_modify, bind_gets.
  set (w0 := set_keep_running false w).
  assert (keeps same_flag
            (for_each (dict_keys (running_processes w0))
               (fun project_dir : str =>
                  running ← gets running_processes;
                  match dict_get project_dir running with
                  | Some process_info =>
                      stop_project env project_dir
                        (RunState.chat_id process_info) false;;
                      ret tt
                  | None => raise KeyError
                  end);;
             logger INFO "Cleaned up all resources and stopped processes"))
    as Hk.
  { apply keeps_bind; [apply same_flag_trans| |].
    - apply keeps_for_each; [done|apply same_flag_trans|]. intros k.
      apply keeps_bind; [apply same_flag_trans|by apply keeps_gets|].
      intros running. destruct (dict_get k running).
      + apply keeps_bind; [apply same_flag_trans|apply flag_stop_project|].
        intros _. by apply keeps_ret.
      + by apply keeps_raise.
    - intros _. apply flag_logger. }
  by rewrite (Hk w0).
Qed.

(** X22. After [cleanup], whatever the host does, [keep_running] is
    false, so that the loop of the periodic restart does nothing more.
    When the gateway accepts every call and the keys of
    [running_processes] are distinct, [cleanup] returns,
    [running_processes] is empty, [paused_processes] is as before, no
    process was started and every process of a project that was running
    is dead. *)
Theorem cleanup_stops_everything env w :
  let out := cleanup env w in
  keep_running out.2 = false
  /\ (forall turns,
        _global_restart_projects env turns out.2 = (Ok tt, out.2))
  /\ (gateway_up env ->
      NoDup (dict_keys (running_processes w)) ->
      out.1 = Ok tt
      /\ running_processes out.2 = []
      /\ paused_processes out.2 = paused_processes w
      /\ next_pid out.2 = next_pid w
      /\ forall project_dir process_info,
           In (project_dir, process_info) (running_processes w) ->
           forall p, In p (RunState.processes process_info) ->
                     p ∉ alive out.2).
Proof.
  intros out. subst out.
  pose proof (cleanup_keeps_flag env w) as Hflag.
  split; [exact Hflag|]. split.
  { intros turns. destruct turns as [|turns]; [done|].
    cbn [_global_restart_projects]. by rewrite bind_gets, Hflag. }
  intros Hup Hnd.
  set (w0 := set_keep_running false w).
  destruct (cleanup_loop env Hup (dict_keys (running_processes w0)) w0)
    as (w' & Hloop & Hget & Hp & Hu & Hf & Hn & Ha & Hd).
  { exact Hnd. }
  { intros k. apply dict_keys_get. }
  assert (cleanup env w
          = (Ok tt,
             emit (Logged INFO
                     "Cleaned up all resources and stopped processes") w'))
    as Hrun.
  { unfold cleanup. rewrite bind_modify, bind_gets. fold w0.
    by rewrite (bind_ok _ _ _ _ _ Hloop). }
  rewrite Hrun. cbn [fst snd].
  split; [done|]. split.
  { change (running_processes (emit _ w')) with (running_processes w').
    destruct (running_processes w') as [|[k v] rest] eqn:Hrest; [done|].
    pose proof (Hget k) as Hk. rewrite ?Hrest in Hk.
    cbn [dict_get] in Hk. rewrite decide_True in Hk by done.
    destruct (decide (k ∈ dict_keys (running_processes w0))) as [|Hno];
      [done|].
    exfalso. apply Hno. symmetry in Hk. revert Hk. clear.
    induction (running_processes w0) as [|[k' v'] d IH]; [done|].
    cbn [dict_get dict_keys map fst]. destruct (decide (k = k')) as [->|Hne].
    - intros _. by left.
    - intros Hk. right. by apply IH. }
  split; [exact Hp|]. split; [exact Hn|].
  intros project_dir process_info Hin p Hp'.
  apply (Hd project_dir process_info); [| |done].
  - apply (dict_keys_In project_dir process_info _ Hin).
  - by apply dict_get_NoDup.
Qed.

(** * The stored projects *)




Lemma save_user_projects_eq env w :
  save_user_projects env w
  = (Ok tt,
     if write_ok env USER_PROJECTS_FILE
     then emit (Logged INFO "Saved user projects successfully")
            (set_user_projects_file (Stored (user_projects w)) w)
     else emit (Logged ERROR "Error saving user projects") w).
Proof.
  unfold save_user_projects, try_except. rewrite bind_gets.
  by destruct (write_ok env USER_PROJECTS_FILE).
Qed.


(** * The user of a chat *)

Lemma find_user_id_none chat_id items :
  find_user_id chat_id items = None
  <-> forall u projects p,
        In (u, projects) items -> In p projects ->
        Project.chat_id p <> chat_id.
Proof.
  induction items as [|[u ps] items IH]; cbn [find_user_id].
  - split; [intros _ u ps p []|done].
  - destruct (existsb _ ps) eqn:Hex.
    + split; [done|]. intros Hall. exfalso.
      apply existsb_exists in Hex as (p & Hp & Hchat).
      apply Z.eqb_eq in Hchat. apply (Hall u ps p); [by left|done|done].
    + rewrite IH. split.
      * intros Hall u' ps' p [[= <- <-]|Hin] Hp.
        -- intros Hchat.
           assert (existsb (fun project => Project.chat_id project =? chat_id)
                     ps = true) as Hyes.
           { apply existsb_exists. exists p. split; [done|].
             by apply Z.eqb_eq. }
           congruence.
        -- by apply (Hall u' ps').
      * intros Hall u' ps' p Hin. apply (Hall u' ps' p). by right.
Qed.

Lemma find_user_id_some chat_id items u :
  find_user_id chat_id items = Some u ->
  exists before projects after p,
    items = before ++ (u, projects) :: after
    /\ In p projects /\ Project.chat_id p = chat_id
    /\ find_user_id chat_id before = None.
Proof.
  induction items as [|[u' ps] items IH]; cbn [find_user_id]; [done|].
  destruct (existsb _ ps) eqn:Hex.
  - intros [= ->]. apply existsb_exists in Hex as (p & Hp & Hchat).
    apply Z.eqb_eq in Hchat. by exists [], ps, items, p.
  - intros Hfind.
    destruct (IH Hfind) as (before & projects & after & p & -> & Hp & Hc & Hb).
    exists ((u', ps) :: before), projects, after, p.
    split; [done|]. split; [done|]. split; [done|].
    cbn [find_user_id]. by rewrite Hex.
Qed.

(** X24. [get_user_id_by_chat_id] changes nothing; it returns [None]
    exactly when no stored project of any user has this chat, and
    otherwise the first user, in the order of [user_projects], with a
    stored project of this chat (a user whose list is empty is never
    found). *)
Theorem get_user_id_by_chat_id_finds chat_id w :
  exists found,
    get_user_id_by_chat_id chat_id w = (Ok found, w)
    /\ (found = None
        <-> forall u projects p,
              In (u, projects) (user_projects w) -> In p projects ->
              Project.chat_id p <> chat_id)
    /\ (forall u,
          found = Some u ->
          exists before projects after p,
            user_projects w = before ++ (u, projects) :: after
            /\ In p projects /\ Project.chat_id p = chat_id
            /\ forall u' projects' p',
                 In (u', projects') before -> In p' projects' ->
                 Project.chat_id p' <> chat_id).
Proof.
  exists (find_user_id chat_id (user_projects w)).
  split; [reflexivity|]. split; [apply find_user_id_none|].
  intros u Hfind.
  destruct (find_user_id_some _ _ _ Hfind)
    as (before & projects & after & p & Heq & Hp & Hc & Hb).
  exists before, projects, after, p.
  split; [done|]. split; [done|]. split; [done|].
  by apply find_user_id_none.
Qed.

(** * The end of the onboarding *)

Lemma find_main_files_app project_dir projects p :
  (Forall (fun q => Project.project_dir q <> project_dir) projects ->
   find_main_files project_dir (projects ++ [p])
   = if decide (Project.project_dir p = project_dir)
     then Project.main_files p else [])
  /\ (Exists (fun q => Project.project_dir q = project_dir) projects ->
      find_main_files project_dir (projects ++ [p])
      = find_main_files project_dir projects).
Proof.
  induction projects as [|q projects [IH1 IH2]]; cbn [find_main_files app].
  - split; [done|]. by intros ?%Exists_nil.
  - destruct (decide (Project.project_dir q = project_dir)) as [Hq|Hq].
    + split; [|done]. intros Hall. by apply Forall_cons in Hall as [? _].
    + split.
      * intros Hall. apply Forall_cons in Hall as [_ Hall]. by apply IH1.
      * intros Hex. apply Exists_cons in Hex as [Hex|Hex]; [done|].
        by apply IH2.
Qed.

(** ** Taking the data of a button apart *)

Lemma split_at_join sep word s :
  str_join sep (split_at sep word s) = rev word ++ s.
Proof.
  revert word. induction s as [|c s IH]; intros word; cbn [split_at].
  - by rewrite app_nil_r.
  - destruct (c =? sep)%N eqn:Hc.
    + apply N.eqb_eq in Hc as ->. specialize (IH []).
      cbn [str_join]. destruct (split_at sep [] s) eqn:Hs.
      * by destruct s; cbn [split_at] in Hs; [|destruct (_ =? _)%N].
      * by rewrite IH.
    + rewrite IH. cbn [rev]. by rewrite <- app_assoc.
Qed.

Lemma str_join_split sep s : str_join sep (str_split sep s) = s.
Proof. apply (split_at_join sep [] s). Qed.

Lemma split_at_piece sep word piece s :
  Forall (fun c => c <> sep) piece ->
  split_at sep word (piece ++ sep :: s)
  = (rev word ++ piece) :: split_at sep [] s.
Proof.
  revert word. induction piece as [|c piece IH]; intros word Hp.
  - cbn [app split_at]. by rewrite N.eqb_refl, app_nil_r.
  - apply Forall_cons in Hp as [Hc Hp]. cbn [app split_at].
    apply N.eqb_neq in Hc as ->. rewrite IH by done.
    cbn [rev]. by rewrite <- app_assoc.
Qed.

Lemma duration_split rest :
  str_split underscore (py "duration_" ++ rest)
  = py "duration" :: str_split underscore rest.
Proof.
  unfold str_split.
  change (py "duration_" ++ rest) with (py "duration" ++ underscore :: rest).
  rewrite split_at_piece; [done|].
  apply (bool_decide_unpack _). vm_compute. exact I.
Qed.

Lemma duration_button_data_split days_text project_dir :
  Forall (fun c => c <> underscore) days_text ->
  str_split underscore (duration_button_data days_text project_dir)
  = py "duration" :: days_text :: str_split underscore project_dir.
Proof.
  intros Hd. unfold duration_button_data. rewrite duration_split.
  unfold str_split. by rewrite split_at_piece.
Qed.

Section onboarding.
Variable env : Env.
Variable int : str -> option Z.
Variables (data : str) (chat_id user_id : Z).

Lemma refusal_run (notice : string) w :
  (forall w', waiting_for_main_file w' = waiting_for_main_file w ->
     handle_initial_duration_body env int data chat_id user_id w'
     = bot env (answer_callback_query chat_id (Progress notice)) w') ->
  handle_initial_duration env int data chat_id user_id w
  = error_handler
      (bot env (answer_callback_query chat_id (Progress notice))) w
  /\ still w (handle_initial_duration env int data chat_id user_id w).2.
Proof.
  intros Hbody.
  assert (handle_initial_duration env int data chat_id user_id w
          = error_handler
              (bot env (answer_callback_query chat_id (Progress notice))) w)
    as Heq.
  { unfold handle_initial_duration, error_handler.
    apply (wrapper_from_ext
             (fun w' => waiting_for_main_file w' = waiting_for_main_file w));
      [done|exact Hbody| |done].
    intros w1 H1.
    destruct (keeps_bot env (answer_callback_query chat_id (Progress notice))
                w1) as (((_&_&Hw&_)&_)&_).
    by rewrite Hw. }
  split; [done|]. rewrite Heq. unfold error_handler.
  apply (keeps_wrapper still still_trans); [apply still_emit|].
  apply keeps_bot.
Qed.

(** Data whose second piece is no number: every attempt raises at once. *)
Lemma no_number_run first days_text rest w :
  str_split underscore data = first :: days_text :: rest ->
  int days_text = None ->
  handle_initial_duration env int data chat_id user_id w
  = (Raise ValueError, given_up (before_retry (before_retry w))).
Proof.
  intros Hparts Hint.
  assert (forall w', handle_initial_duration_body env int data chat_id
                       user_id w' = (Raise ValueError, w')) as Hbody.
  { intros w'. unfold handle_initial_duration_body. cbv zeta.
    by rewrite Hparts, Hint. }
  unfold handle_initial_duration, error_handler.
  rewrite (wrapper_from_retry _ _ _ _ _ (Hbody w)).
  rewrite (wrapper_from_retry _ _ _ _ _ (Hbody _)).
  by rewrite (wrapper_from_last _ _ _ _ (Hbody _)).
Qed.

End onboarding.

(** X25. [handle_initial_duration] takes the data of the button apart
    before anything else.  When the piece after the first underscore is
    no number, [int] raises: the three attempts of the decorator fail
    with [ValueError], the gateway is not called and nothing in the
    manager changes; the data [duration_<project_dir>] of the button
    [Set Duration] passes the filter of the handler unless the directory
    begins with [set_], and ends so whenever the directory, up to its
    first underscore, is no number.  When the piece is a number, a user
    without session is only answered that the session expired, and a
    user whose session has no scripts only that no script is selected,
    both with the retries of the decorator: nothing in the manager
    changes and no process is started. *)
Theorem initial_duration_without_a_choice env int data chat_id user_id w :
  let out := handle_initial_duration env int data chat_id user_id w in
  (forall first days_text rest,
     str_split underscore data = first :: days_text :: rest ->
     int days_text = None ->
     out = (Raise ValueError, given_up (before_retry (before_retry w)))
     /\ gateway_calls out.2 = gateway_calls w
     /\ still w out.2)
  /\ (forall project_dir,
        initial_duration_data (set_duration_button_data project_dir)
        = negb (startswith project_dir (py "set_"))
        /\ forall piece rest,
             str_split underscore project_dir = piece :: rest ->
             int piece = None ->
             handle_initial_duration env int
               (set_duration_button_data project_dir) chat_id user_id w
             = (Raise ValueError, given_up (before_retry (before_retry w))))
  /\ (forall first days_text rest days,
        str_split underscore data = first :: days_text :: rest ->
        int days_text = Some days ->
        (dict_get user_id (waiting_for_main_file w) = None ->
         out = error_handler
                 (bot env (answer_callback_query chat_id
                             (Progress "Session expired"))) w
         /\ still w out.2)
        /\ (forall session,
              dict_get user_id (waiting_for_main_file w) = Some session ->
              default [] (Session.scripts_to_run session) = [] ->
              out = error_handler
                      (bot env (answer_callback_query chat_id
                                  (Progress "No main script selected"))) w
              /\ still w out.2)).
Proof.
  intros out. subst out. split; [|split].
  - intros first days_text rest Hparts Hint.
    rewrite (no_number_run env int data chat_id user_id first days_text rest
               w Hparts Hint).
    split; [done|]. split; [done|]. cbn [snd].
    unfold given_up, before_retry.
    repeat (eapply still_trans; [|apply still_emit]). apply still_refl.
  - intros project_dir. split.
    + unfold initial_duration_data, set_duration_button_data.
      destruct project_dir as [|c1 [|c2 [|c3 [|c4 l]]]]; cbn;
        rewrite ?andb_true_r, ?andb_false_r; try done.
    + intros piece rest Hparts Hint.
      apply (no_number_run env int _ chat_id user_id (py "duration") piece
               rest w); [|done].
      unfold set_duration_button_data. by rewrite duration_split, Hparts.
  - intros first days_text rest days Hparts Hint. split.
    + intros Hnone. apply refusal_run. intros w' Hw'.
      unfold handle_initial_duration_body. cbv zeta.
      by rewrite Hparts, Hint, bind_gets, Hw', Hnone.
    + intros session Hget Hnil. apply refusal_run. intros w' Hw'.
      unfold handle_initial_duration_body. cbv zeta.
      by rewrite Hparts, Hint, bind_gets, Hw', Hget, Hnil.
Qed.

(** X26. When the gateway accepts every call, the data is that of a
    button of the choice of the duration ([duration_<days>_<project_dir>],
    with a number for the days) and the session of the user has the
    scripts [main_files], [handle_initial_duration] returns,
    appends to the stored projects of the user a record with these main
    files, the chat and the time of the call, removes the session and
    leaves the registries alone; the file holds the stored projects when
    the write succeeds.  None of this depends on the days chosen nor on
    whether the dependencies install.  Afterwards [find_main_files]
    gives these main files if no project stored before is in the
    directory, and the main files of the older project otherwise. *)
Theorem initial_duration_stores_the_project env int days_text days
    project_dir chat_id user_id w session main_files :
  gateway_up env ->
  Forall (fun c => c <> underscore) days_text ->
  int days_text = Some days ->
  dict_get user_id (waiting_for_main_file w) = Some session ->
  Session.scripts_to_run session = Some main_files ->
  main_files <> [] ->
  let out :=
    handle_initial_duration env int
      (duration_button_data days_text project_dir) chat_id user_id w in
  let stored := default [] (dict_get user_id (user_projects w)) in
  let record :=
    onboarded project_dir chat_id (clock env (clock_reads w)) main_files in
  out.1 = Ok tt
  /\ user_projects out.2
     = dict_set user_id (stored ++ [record]) (user_projects w)
  /\ waiting_for_main_file out.2
     = dict_del user_id (waiting_for_main_file w)
  /\ running_processes out.2 = running_processes w
  /\ paused_processes out.2 = paused_processes w
  /\ next_pid out.2 = next_pid w
  /\ (write_ok env USER_PROJECTS_FILE = true ->
      user_projects_file out.2 = Stored (user_projects out.2))
  /\ (Forall (fun p => Project.project_dir p <> project_dir) stored ->
      find_main_files project_dir (stored ++ [record]) = main_files)
  /\ (Exists (fun p => Project.project_dir p = project_dir) stored ->
      find_main_files project_dir (stored ++ [record])
      = find_main_files project_dir stored).
Proof.
  intros Hup Hdigits Hint Hget Hscripts Hne out stored record.
  destruct (install_requirements_returns env project_dir chat_id w Hup)
    as (b & w1 & Hinst & Hstill).
  destruct Hstill as (((Hr1 & Hp1 & Hw1 & _) & Hu1) & Hn1 & Hc1 & _).
  set (w2 := if negb (dict_in user_id (user_projects w1))
             then set_user_projects (dict_set user_id []) w1 else w1).
  set (w3 := set_host (next_pid w2) (alive w2) (gateway_calls w2)
               (S (clock_reads w2)) (trace w2) w2).
  set (w4 := set_user_projects
               (fun d => dict_set user_id
                           (default [] (dict_get user_id d) ++ [record]) d)
               w3).
  set (w5 := if write_ok env USER_PROJECTS_FILE
             then emit (Logged INFO "Saved user projects successfully")
                    (set_user_projects_file (Stored (user_projects w4)) w4)
             else emit (Logged ERROR "Error saving user projects") w4).
  set (w6 := set_waiting (dict_del user_id) w5).
  set (final := emit (Delivered (edit_message_text chat_id
                                   (Outcome "ready to run" b
                                      (os_path_basename project_dir))))
                  (set_host (next_pid w6) (alive w6) (S (gateway_calls w6))
                     (clock_reads w6) (trace w6) w6)).
  assert (clock_reads w2 = clock_reads w) as Hc2.
  { subst w2. by destruct (negb _). }
  assert (user_projects w4
          = dict_set user_id (stored ++ [record]) (user_projects w)) as Hu4.
  { subst w4 w3 w2. cbn [user_projects set_user_projects set_host].
    unfold dict_in. rewrite Hu1. subst stored.
    destruct (dict_get user_id (user_projects w)) as [l|] eqn:Hl.
    - cbn [negb user_projects]. by rewrite Hu1, Hl.
    - cbn [negb user_projects set_user_projects].
      rewrite Hu1, dict_get_set_eq, dict_set_set. done. }
  assert (handle_initial_duration_body env int
            (duration_button_data days_text project_dir) chat_id user_id w
          = (Ok tt, final)) as Hrun.
  { unfold handle_initial_duration_body. cbv zeta.
    rewrite duration_button_data_split by done. cbv beta iota.
    rewrite Hint, str_join_split.
    rewrite bind_gets, Hget, Hscripts.
    change (default [] (Some main_files)) with main_files.
    assert (is_nil main_files = false) as -> by by destruct main_files.
    rewrite (bind_ok _ _ _ _ _ Hinst), bind_gets.
    assert (((if negb (dict_in user_id (user_projects w1))
              then modify (set_user_projects (dict_set user_id []))
              else ret tt) : M unit) w1 = (Ok tt, w2)) as Hstep.
    { subst w2. by destruct (negb _). }
    rewrite (bind_ok _ _ _ _ _ Hstep).
    unfold datetime_now at 1. rewrite bind_run.
    change (set_host (next_pid w2) (alive w2) (gateway_calls w2)
              (S (clock_reads w2)) (trace w2) w2) with w3.
    rewrite Hc2, bind_modify.
    change (set_user_projects _ w3) with w4.
    rewrite (bind_ok _ _ _ _ _ (save_user_projects_eq env w4)).
    fold w5. rewrite bind_gets.
    assert (waiting_for_main_file w5 = waiting_for_main_file w) as Hw5.
    { subst w5 w4 w3 w2.
      destruct (write_ok env USER_PROJECTS_FILE);
        destruct (negb (dict_in user_id (user_projects w1))); exact Hw1. }
    unfold dict_in. rewrite Hw5, Hget, bind_modify. fold w6.
    by rewrite (bot_up_run env Hup). }
  assert (out = (Ok tt, final)) as Hout.
  { subst out. unfold handle_initial_duration, error_handler.
    by rewrite (wrapper_from_ok _ _ _ _ _ Hrun). }
  rewrite Hout. clear Hout.
  assert (user_projects final = user_projects w4) as Hfinal.
  { subst final w6 w5. by destruct (write_ok env USER_PROJECTS_FILE). }
  cbn [fst snd].
  split; [done|]. split; [by rewrite Hfinal|].
  split.
  { subst final w6 w5 w4 w3 w2.
    cbn [waiting_for_main_file emit set_host set_waiting].
    destruct (write_ok env USER_PROJECTS_FILE);
      destruct (negb (dict_in user_id (user_projects w1)));
      cbn; by rewrite Hw1. }
  split.
  { subst final w6 w5 w4 w3 w2.
    destruct (write_ok env USER_PROJECTS_FILE);
      destruct (negb (dict_in user_id (user_projects w1))); exact Hr1. }
  split.
  { subst final w6 w5 w4 w3 w2.
    destruct (write_ok env USER_PROJECTS_FILE);
      destruct (negb (dict_in user_id (user_projects w1))); exact Hp1. }
  split.
  { subst final w6 w5 w4 w3 w2.
    destruct (write_ok env USER_PROJECTS_FILE);
      destruct (negb (dict_in user_id (user_projects w1))); exact Hn1. }
  split.
  { intros Hok. rewrite Hfinal. subst final w6 w5. by rewrite Hok. }
  destruct (find_main_files_app project_dir stored record) as [Hnew Hold].
  split.
  - intros Hall. rewrite (Hnew Hall). unfold record, onboarded.
    cbn [Project.project_dir Project.main_files]. by rewrite decide_True.
  - exact Hold.
Qed.

(** * The theorems of the rest at concrete inputs *)

Lemma add_then_remove_user_witness :
  (7 ∉ ADMIN_IDS)
  /\ (remove_user calm 7 (add_user calm 7 fresh_world).2).1 = Ok true
  /\ allowed_users (remove_user calm 7 (add_user calm 7 fresh_world).2).2
     = allowed_users fresh_world.
Proof.
  split; [exact seven_is_no_admin|].
  destruct (add_then_remove_user calm 7 fresh_world seven_is_no_admin)
    as (_ & Hok & _ & Hsame & _).
  split; [exact Hok|]. apply Hsame. vm_compute. intros H. discriminate H.
Defined.

Lemma allowed_users_across_a_restart_witness :
  list_to_set ADMIN_IDS ⊆ allowed_users fresh_world
  /\ allowed_users (UserManager_init (add_user calm 7 fresh_world).2).2
     = allowed_users (add_user calm 7 fresh_world).2.
Proof.
  assert (list_to_set ADMIN_IDS ⊆ allowed_users fresh_world) as Hadm
    by reflexivity.
  split; [exact Hadm|].
  destruct (allowed_users_across_a_restart calm 7 fresh_world Hadm)
    as [Hsaved _].
  exact (Hsaved eq_refl).
Defined.

Lemma stop_project_of_a_project_not_running_witness :
  dict_get app_dir (running_processes fresh_world) = None
  /\ (stop_project calm app_dir 50 true fresh_world).1 = Ok false.
Proof.
  split; [reflexivity|].
  destruct (stop_project_of_a_project_not_running calm app_dir 50 true
              fresh_world eq_refl) as (_ & Hok & _).
  destruct (Hok 0%nat) as [H _]; [lia|reflexivity|intros i Hi; lia|].
  exact H.
Defined.

Lemma run_project_with_a_missing_file_witness :
  In (py "projects/5/app/main.py") (stored_main_files app_dir 50 stored_world)
  /\ path_exists main_file_gone (py "projects/5/app/main.py") = false
  /\ (run_project main_file_gone app_dir 50 None true stored_world).1
     = Ok false
  /\ next_pid (run_project main_file_gone app_dir 50 None true stored_world).2
     = next_pid stored_world.
Proof.
  assert (In (py "projects/5/app/main.py")
            (stored_main_files app_dir 50 stored_world)) as Hin.
  { vm_compute. left. reflexivity. }
  split; [exact Hin|]. split; [reflexivity|].
  destruct (run_project_with_a_missing_file main_file_gone app_dir 50 None
              true stored_world (py "projects/5/app/main.py") Hin eq_refl)
    as (_ & Hstill & Hok & _).
  split.
  - apply (Hok 0%nat); [lia|reflexivity|intros i Hi; lia].
  - by destruct Hstill as (_ & Hn & _).
Defined.

Lemma restart_never_extends_the_deadline_witness :
  RunState.end_time long_record = Some (1002 * DAY + 43200000000)
  /\ exists rs i j,
       dict_get app_dir
         (running_processes
            (restart_entry calm (app_dir, long_record) long_world).2)
       = Some rs
       /\ RunState.end_time rs = Some (1002 * DAY + 1000000)
       /\ 1002 * DAY + 1000000 - clock calm j
          = timedelta_days (1002 * DAY + 43200000000) (clock calm i) * DAY
       /\ 1002 * DAY + 1000000 - clock calm j
          <= 1002 * DAY + 43200000000 - clock calm i.
Proof.
  split; [reflexivity|].
  destruct (restart_never_extends_the_deadline calm app_dir long_record
              (1002 * DAY + 43200000000) long_world 50 eq_refl)
    as [Hswept _].
  destruct (dict_get app_dir
              (running_processes
                 (restart_entry calm (app_dir, long_record) long_world).2))
    as [rs|] eqn:Hget; [|vm_compute in Hget; discriminate Hget].
  assert (RunState.end_time rs = Some (1002 * DAY + 1000000)) as Hend.
  { vm_compute in Hget. injection Hget as <-. reflexivity. }
  destruct (Hswept eq_refl rs _ eq_refl Hend) as (i & j & _ & _ & H1 & H2).
  exists rs, i, j. split; [reflexivity|]. split; [exact Hend|].
  split; [exact H1|]. apply H2.
Defined.

Lemma restart_button_drops_the_deadline_witness :
  gateway_ok calm (gateway_calls long_world)
    (edit_message_text 50 (Progress "Restarting project")) = true
  /\ dict_get app_dir (running_processes long_world) = Some long_record
  /\ RunState.end_time long_record = Some (1002 * DAY + 43200000000)
  /\ exists rs,
       dict_get app_dir
         (running_processes
            (handle_callbacks calm {| data := restart_ app_dir;
                                      message_chat := 50 |} long_world).2)
       = Some rs
       /\ RunState.end_time rs = None
       /\ RunState.auto_restart rs = true.
Proof.
  split; [reflexivity|]. split; [reflexivity|]. split; [reflexivity|].
  pose proof (restart_button_drops_the_deadline calm app_dir 50 long_world
                eq_refl) as Hplain.
  cbv zeta in Hplain.
  destruct (dict_get app_dir
              (running_processes
                 (handle_callbacks calm {| data := restart_ app_dir;
                                           message_chat := 50 |}
                    long_world).2))
    as [rs|] eqn:Hget; [|vm_compute in Hget; discriminate Hget].
  exists rs. split; [reflexivity|]. exact (Hplain rs eq_refl).
Defined.

Lemma delete_button_unregisters_witness :
  never_both paused_after_pause
  /\ dict_get app_dir (paused_processes paused_after_pause) = Some app_record
  /\ dict_get app_dir
       (paused_processes
          (handle_callbacks chat_50_blocked
             {| data := delete_ app_dir; message_chat := 50 |}
             paused_after_pause).2) = None
  /\ forgotten app_dir 5
       (handle_callbacks chat_50_blocked
          {| data := delete_ app_dir; message_chat := 50 |}
          paused_after_pause).2.
Proof.
  assert (never_both paused_after_pause) as Hnb.
  { intros k. destruct (decide (k = app_dir)) as [->|Hne].
    - left. reflexivity.
    - right. unfold paused_after_pause.
      change (paused_processes _) with [(app_dir, app_record)].
      cbn [dict_get]. by rewrite decide_False. }
  split; [exact Hnb|]. split; [reflexivity|].
  destruct (delete_button_unregisters chat_50_blocked app_dir 50
              paused_after_pause Hnb) as (_ & Hp & Hf).
  split; [exact Hp|]. apply Hf; [reflexivity|lia].
Defined.

Lemma handle_callbacks_returns_witness :
  (forall n, gateway_ok chat_50_blocked n
               (answer_callback_query 60 ErrorProcessing) = true)
  /\ (handle_callbacks chat_50_blocked
        {| data := stop_ app_dir; message_chat := 60 |} busy_world).1
     = Ok tt.
Proof.
  assert (forall n, gateway_ok chat_50_blocked n
                      (answer_callback_query 60 ErrorProcessing) = true)
    as Hok by (intros n; reflexivity).
  split; [exact Hok|].
  exact (proj1 (handle_callbacks_returns chat_50_blocked
                  {| data := stop_ app_dir; message_chat := 60 |}
                  busy_world Hok)).
Defined.

Lemma cancel_ends_the_session_witness :
  text cancel_message = py "/cancel"
  /\ dict_get 5 (waiting_for_main_file upload_world) = Some upload_session
  /\ waiting_for_main_file
       (handle_two_scripts_names gateway_down cancel_message upload_world).2
     = []
  /\ (handle_two_scripts_names calm cancel_message upload_world).1 = Ok tt.
Proof.
  split; [reflexivity|]. split; [reflexivity|].
  destruct (cancel_ends_the_session gateway_down cancel_message upload_world
              upload_session eq_refl eq_refl) as (Hgone & _).
  destruct (cancel_ends_the_session calm cancel_message upload_world
              upload_session eq_refl eq_refl)
    as (_ & _ & _ & _ & _ & Hok & _).
  split; [exact Hgone|]. exact (proj1 (Hok eq_refl eq_refl)).
Defined.

Lemma cleanup_stops_everything_witness :
  gateway_up calm
  /\ NoDup (dict_keys (running_processes busy_world))
  /\ (cleanup calm busy_world).1 = Ok tt
  /\ running_processes (cleanup calm busy_world).2 = []
  /\ keep_running (cleanup gateway_down busy_world).2 = false.
Proof.
  assert (NoDup (dict_keys (running_processes busy_world))) as Hnd.
  { apply (bool_decide_unpack _). vm_compute. exact I. }
  split; [exact calm_up|]. split; [exact Hnd|].
  destruct (cleanup_stops_everything calm busy_world) as (_ & _ & Hup).
  destruct (Hup calm_up Hnd) as (Hok & Hnil & _).
  split; [exact Hok|]. split; [exact Hnil|].
  exact (proj1 (cleanup_stops_everything gateway_down busy_world)).
Defined.


Lemma initial_duration_without_a_choice_witness :
  let data := set_duration_button_data app_dir in
  data = py "duration_projects/5/app"
  /\ initial_duration_data data = true
  /\ str_split underscore data = [py "duration"; py "projects/5/app"]
  /\ decimal (py "projects/5/app") = None
  /\ handle_initial_duration calm decimal data 50 5 chosen_world
     = (Raise ValueError, given_up (before_retry (before_retry chosen_world)))
  /\ gateway_calls
       (handle_initial_duration calm decimal data 50 5 chosen_world).2
     = gateway_calls chosen_world.
Proof.
  cbv zeta. split; [reflexivity|]. split; [reflexivity|].
  split; [reflexivity|]. split; [reflexivity|].
  destruct (initial_duration_without_a_choice calm decimal
              (set_duration_button_data app_dir) 50 5 chosen_world)
    as (Hraise & _ & _).
  destruct (Hraise (py "duration") (py "projects/5/app") [] eq_refl eq_refl)
    as (Hout & Hcalls & _).
  split; [exact Hout|exact Hcalls].
Defined.

Lemma initial_duration_stores_the_project_witness :
  let out :=
    handle_initial_duration calm decimal (py "duration_3_projects/5/app")
      50 5 chosen_world in
  gateway_up calm
  /\ duration_button_data (py "3") app_dir = py "duration_3_projects/5/app"
  /\ decimal (py "3") = Some 3
  /\ dict_get 5 (waiting_for_main_file chosen_world) = Some chosen_session
  /\ out.1 = Ok tt
  /\ waiting_for_main_file out.2 = []
  /\ stored_main_files app_dir 50 out.2 = [py "projects/5/app/main.py"].
Proof.
  cbv zeta. split; [exact calm_up|]. split; [reflexivity|].
  split; [reflexivity|]. split; [reflexivity|].
  assert ([py "projects/5/app/main.py"] <> []) as Hne by discriminate.
  assert (Forall (fun c => c <> underscore) (py "3")) as Hdigits.
  { repeat constructor. discriminate. }
  destruct (initial_duration_stores_the_project calm decimal (py "3") 3
              app_dir 50 5 chosen_world chosen_session
              [py "projects/5/app/main.py"] calm_up Hdigits eq_refl eq_refl
              eq_refl Hne)
    as (Hok & Hup & Hw & _).
  split; [exact Hok|]. split; [exact Hw|].
  unfold stored_main_files.
  change (py "duration_3_projects/5/app")
    with (duration_button_data (py "3") app_dir).
  rewrite Hup. reflexivity.
Defined.
